(** * rpi_bt: WiFi credential acquisition over Bluetooth and WiFi Direct

    A shallow embedding of the parts of
    [android_wifi_direct_sharer.py], [wifi_direct_sharer.py] and
    [auto_bluetooth_wifi_sharer.py] that parse the negotiation tool's
    output, drive the P2P connect loop, validate and store a credential
    and join the network.

    Conventions of the embedding.
    - A Python [str] is a [string]; a character is a code point in
      0..255 (the Latin-1 range, which contains every D-Bus byte).
    - A [dict] with string keys is a [gmap string _], a [set] a [gset].
    - Methods of the sharer classes are computations in a state and
      exception monad over the object's fields and the outside world
      (clock, files written by the program, trace of external effects).
      External commands are answered by an oracle.
    - Calls to [logger] are left out: they change nothing observable
      here. *)

From Stdlib Require Import ZArith Ascii String.
From stdpp Require Import gmap strings list fin_maps.

Local Open Scope Z_scope.

(** ** Python string primitives *)

Module PyStr.

(** [s.startswith(p)] *)
Fixpoint startswith (p s : string) : bool :=
  match p, s with
  | EmptyString, _ => true
  | String _ _, EmptyString => false
  | String a p', String b s' => if Ascii.eqb a b then startswith p' s' else false
  end.

(** [sub in s] *)
Fixpoint contains (sub s : string) : bool :=
  startswith sub s ||
  match s with
  | EmptyString => false
  | String _ s' => contains sub s'
  end.

(** [s.split(c)] for a one-character separator: never the empty list. *)
Fixpoint split (c : ascii) (s : string) : list string :=
  match s with
  | EmptyString => [EmptyString]
  | String a s' =>
      if Ascii.eqb a c then EmptyString :: split c s'
      else match split c s' with
           | h :: t => String a h :: t
           | [] => [String a EmptyString]
           end
  end.

(** [s.split(c, 1)]: at most one cut, at the first occurrence of [c]. *)
Fixpoint split1 (c : ascii) (s : string) : list string :=
  match s with
  | EmptyString => [EmptyString]
  | String a s' =>
      if Ascii.eqb a c then [EmptyString; s']
      else match split1 c s' with
           | h :: t => String a h :: t
           | [] => [String a EmptyString]
           end
  end.

(** Whitespace of [str.strip()] among the code points 0..255. *)
Definition is_space (a : ascii) : bool :=
  let n := N_of_ascii a in
  ((9 <=? n) && (n <=? 13) || (28 <=? n) && (n <=? 32) ||
   (n =? 133) || (n =? 160))%N.

Fixpoint lstrip (s : string) : string :=
  match s with
  | EmptyString => EmptyString
  | String a s' => if is_space a then lstrip s' else s
  end.

Fixpoint rstrip (s : string) : string :=
  match s with
  | EmptyString => EmptyString
  | String a s' =>
      match rstrip s' with
      | EmptyString => if is_space a then EmptyString else String a EmptyString
      | r => String a r
      end
  end.

(** [s.strip()] *)
Definition strip (s : string) : string := rstrip (lstrip s).

(** [s.lower()] on the code points 0..255: A-Z and the accented capitals
    192..222 (but the multiplication sign 215) move up by 32. *)
Definition lower_char (a : ascii) : ascii :=
  let n := N_of_ascii a in
  if ((65 <=? n) && (n <=? 90) ||
      (192 <=? n) && (n <=? 222) && negb (n =? 215))%N
  then ascii_of_N (n + 32) else a.

Fixpoint lower (s : string) : string :=
  match s with
  | EmptyString => EmptyString
  | String a s' => String (lower_char a) (lower s')
  end.

(** Truth value of a string: non-empty. *)
Definition truthy (s : string) : bool :=
  match s with EmptyString => false | _ => true end.

(** [chr(b)] for a code point of the modelled range; [None] for an integer
    whose character is outside it. *)
Definition chr (b : Z) : option ascii :=
  if (0 <=? b) && (b <? 256) then Some (ascii_of_N (Z.to_N b)) else None.

(** [ord(c)] *)
Definition ord (c : ascii) : Z := Z.of_N (N_of_ascii c).

(** [''.join(cs)] for a list of one-character strings. *)
Definition join_chars (cs : list ascii) : string := string_of_list_ascii cs.

(** [[c for c in s]] *)
Definition chars (s : string) : list ascii := list_ascii_of_string s.

End PyStr.

Definition newline : ascii := ascii_of_N 10.
Definition equals : ascii := "="%char.

(** Python's tuple unpacking [a, b = parts]; [None] stands for the
    [ValueError] of a wrong length. *)
Definition unpack2 (parts : list string) : option (string * string) :=
  match parts with
  | [a; b] => Some (a, b)
  | _ => None
  end.

(** ** Output parser (pure part) *)

(** The loop of [extract_android_network_credentials] and of
    [extract_network_credentials] (the two are the same text):
<<
    for line in lines:
        if '=' in line:
            key, value = line.split('=', 1)
            network_info[key.strip()] = value.strip()
>>
    [None] is the [ValueError] of the unpacking. *)
Fixpoint parse_status_lines (lines : list string)
    (network_info : gmap string string) : option (gmap string string) :=
  match lines with
  | [] => Some network_info
  | line :: rest =>
      if PyStr.contains "=" line then
        match unpack2 (PyStr.split1 equals line) with
        | Some (key, value) =>
            parse_status_lines rest
              (<[PyStr.strip key := PyStr.strip value]> network_info)
        | None => None
        end
      else parse_status_lines rest network_info
  end.

(** [lines = status.split('\n'); network_info = {}; for ...] *)
Definition parse_status (status : string) : option (gmap string string) :=
  parse_status_lines (PyStr.split newline status) ∅.

(** [k in d] for a dict. *)
Definition has_key {V} (k : string) (d : gmap string V) : bool :=
  bool_decide (is_Some (d !! k)).

(** Truth value of a dict: non-empty. *)
Definition dict_truthy {V} (d : gmap string V) : bool :=
  bool_decide (d ≠ ∅).

(** [d.get(k, default)] *)
Definition dict_get {V} (k : string) (default : V) (d : gmap string V) : V :=
  match d !! k with Some v => v | None => default end.

(** [line.split('=', 1)[1]]; [None] is the [IndexError]. *)
Definition field_value (line : string) : option string :=
  PyStr.split1 equals line !! 1%nat.

(** [if current_device and 'address' in current_device:
        devices.append(current_device)] *)
Definition flush_device (devices : list (gmap string string))
    (current_device : gmap string string) : list (gmap string string) :=
  if dict_truthy current_device && has_key "address" current_device
  then devices ++ [current_device] else devices.

(** [current_device[key] = line.split('=', 1)[1]] *)
Definition set_field (key line : string) (current_device : gmap string string)
    : option (gmap string string) :=
  v ← field_value line; Some (<[key := v]> current_device).

(** One turn of the loop of [parse_android_devices] on the stripped line:
    the new [devices] and the new [current_device], or [None] for it when
    the indexing raised. *)
Definition device_line (line : string)
    (devices : list (gmap string string)) (current_device : gmap string string)
    : list (gmap string string) * option (gmap string string) :=
  if PyStr.startswith "dev_addr=" line then
    (flush_device devices current_device, set_field "address" line ∅)
  else if PyStr.startswith "dev_name=" line then
    (devices, set_field "name" line current_device)
  else if PyStr.startswith "p2p_dev_addr=" line then
    (devices, set_field "p2p_address" line current_device)
  else if PyStr.startswith "p2p_go_intent=" line then
    (devices, set_field "go_intent" line current_device)
  else if PyStr.startswith "p2p_dev_capab=" line then
    (devices, set_field "capabilities" line current_device)
  else (devices, Some current_device).

Fixpoint parse_device_lines (lines : list string)
    (devices : list (gmap string string)) (current_device : gmap string string)
    : list (gmap string string) * option (gmap string string) :=
  match lines with
  | [] => (devices, Some current_device)
  | line :: rest =>
      match device_line (PyStr.strip line) devices current_device with
      | (devices', Some current') => parse_device_lines rest devices' current'
      | (devices', None) => (devices', None)
      end
  end.

(** [parse_android_devices]: an exception inside the [try] is logged and
    the devices gathered so far are returned. *)
Definition parse_android_devices (peers_output : string)
    : list (gmap string string) :=
  let lines := PyStr.split newline (PyStr.strip peers_output) in
  match parse_device_lines lines [] ∅ with
  | (devices, Some current_device) => flush_device devices current_device
  | (devices, None) => devices
  end.

(** ** The outside world and the monad of methods *)

Inductive Exn :=
  | CalledProcessError | TimeoutExpired | OSError
  | ValueError | KeyError | IndexError.

Inductive Result (A : Type) :=
  | Ok (a : A)
  | Raise (e : Exn).
Arguments Ok {A} a.
Arguments Raise {A} e.

(** What [subprocess.run] hands back. *)
Record CompletedProcess := mkCompleted {
  returncode : Z;
  stdout : string;
  stderr : string
}.

(** What a command does when it is run: it exits after [millis]
    milliseconds with a return code and its output; it exits with output
    that is no text in the encoding of the locale; or it cannot be started
    at all. *)
Inductive Response :=
  | Exited (rc : Z) (out err : string) (millis : Z)
  | Garbled (rc : Z) (millis : Z)
  | NotStarted.

(** What writing a file does: it succeeds, the [open] fails and leaves the
    file alone, or the file is opened (so emptied) and the write fails. *)
Inductive WriteOutcome := Written | OpenFailed | WriteFailed.

(** The oracle. Its first argument counts the questions asked so far. *)
Record Env := mkEnv {
  exec : nat → list string → Response;
  fwrite : nat → string → WriteOutcome
}.

Inductive FileContent :=
  | Text (s : string)
  | JsonCredentials (ssid password : string)
  | Emptied.

(** External effects, each with the clock value at which it began. *)
Inductive Event :=
  | ERun (argv : list string) (at_ms : Z)
  | ESleep (secs : Z) (at_ms : Z)
  | EWrite (path : string) (at_ms : Z).

(** [clock] is [time.time()] in milliseconds; [files] holds the files the
    program itself has written (the commands it runs are taken not to touch
    the credential file). *)
Record World := mkWorld {
  clock : Z;
  ticks : nat;
  trace : list Event;
  files : gmap string FileContent
}.

Definition seconds (n : Z) : Z := 1000 * n.

Definition advance (ms : Z) (w : World) : World :=
  mkWorld (clock w + Z.max 0 ms) (ticks w) (trace w) (files w).

Definition record (ev : Event) (w : World) : World :=
  mkWorld (clock w) (ticks w) (trace w ++ [ev]) (files w).

Definition asked (w : World) : World :=
  mkWorld (clock w) (S (ticks w)) (trace w) (files w).

Definition store (path : string) (c : FileContent) (w : World) : World :=
  mkWorld (clock w) (ticks w) (trace w) (<[path := c]> (files w)).

Definition M (Self A : Type) : Type := Self * World → Result A * (Self * World).

#[global] Instance M_ret {Self} : MRet (M Self) := λ A a s, (Ok a, s).

#[global] Instance M_bind {Self} : MBind (M Self) := λ A B k m s,
  match m s with
  | (Ok a, s') => k a s'
  | (Raise e, s') => (Raise e, s')
  end.

Section Primitives.
Context {Self : Type}.
Variable env : Env.

Definition raise {A} (e : Exn) : M Self A := λ s, (Raise e, s).

(** [try: body  except <catches>: handler] *)
Definition try_except {A} (body : M Self A) (catches : Exn → bool)
    (handler : M Self A) : M Self A := λ s,
  match body s with
  | (Raise e, s') => if catches e then handler s' else (Raise e, s')
  | r => r
  end.

Definition get_self : M Self Self := λ s, (Ok s.1, s).

Definition modify_self (f : Self → Self) : M Self unit :=
  λ s, (Ok tt, (f s.1, s.2)).

(** [time.time()] *)
Definition now : M Self Z := λ s, (Ok (clock s.2), s).

(** [time.sleep(secs)] *)
Definition sleep (secs : Z) : M Self unit := λ s,
  (Ok tt, (s.1, advance (seconds secs) (record (ESleep secs (clock s.2)) s.2))).

(** The end of [subprocess.run] for a command that exits after [millis]
    milliseconds: the time limit comes first; [outcome] is what reading the
    output and checking the return code give. *)
Definition finished (timeout : option Z) (millis : Z)
    (outcome : Result CompletedProcess) (o : Self) (w : World)
    : Result CompletedProcess * (Self * World) :=
  match timeout with
  | Some t =>
      if seconds t <? millis
      then (Raise TimeoutExpired, (o, advance (seconds t) w))
      else (outcome, (o, advance millis w))
  | None => (outcome, (o, advance millis w))
  end.

(** [check=True] turns a return code other than 0 into an exception. *)
Definition checked (check : bool) (rc : Z) (out err : string)
    : Result CompletedProcess :=
  if check && negb (rc =? 0) then Raise CalledProcessError
  else Ok (mkCompleted rc out err).

(** [subprocess.run(argv, check=check, timeout=timeout)] without
    [text=True]: the output stays bytes, which no caller reads, so output
    that is no text does no harm. *)
Definition run (argv : list string) (check : bool) (timeout : option Z)
    : M Self CompletedProcess := λ s,
  let w := asked (record (ERun argv (clock s.2)) s.2) in
  match exec env (ticks s.2) argv with
  | NotStarted => (Raise OSError, (s.1, w))
  | Exited rc out err millis =>
      finished timeout millis (checked check rc out err) s.1 w
  | Garbled rc millis =>
      finished timeout millis (checked check rc EmptyString EmptyString) s.1 w
  end.

(** [subprocess.run(argv, text=True, check=check, timeout=timeout)]: the
    output is decoded before the return code is checked, and output that
    is no text raises [UnicodeDecodeError], a [ValueError]. *)
Definition run_text (argv : list string) (check : bool) (timeout : option Z)
    : M Self CompletedProcess := λ s,
  let w := asked (record (ERun argv (clock s.2)) s.2) in
  match exec env (ticks s.2) argv with
  | NotStarted => (Raise OSError, (s.1, w))
  | Exited rc out err millis =>
      finished timeout millis (checked check rc out err) s.1 w
  | Garbled rc millis => finished timeout millis (Raise ValueError) s.1 w
  end.

(** [with open(path, 'w') as f: <write content>] *)
Definition write_file (path : string) (content : FileContent)
    : M Self unit := λ s,
  let w := asked (record (EWrite path (clock s.2)) s.2) in
  match fwrite env (ticks s.2) path with
  | Written => (Ok tt, (s.1, store path content w))
  | OpenFailed => (Raise OSError, (s.1, w))
  | WriteFailed => (Raise OSError, (s.1, store path Emptied w))
  end.

(** [d[k]] *)
Definition getitem (k : string) (d : gmap string string) : M Self string :=
  match d !! k with Some v => mret v | None => raise KeyError end.
End Primitives.

Definition any_exception : Exn → bool := λ _, true.

(** [self.config_file] *)
Definition config_file : string := "/etc/wifi_credentials.json".

Definition nl : string := String newline EmptyString.
Definition dquote : string := String (ascii_of_N 34) EmptyString.

(** The text both sharers write for [wpa_supplicant]. *)
Definition wpa_config (ssid password : string) : string :=
  nl +:+
  "ctrl_interface=/var/run/wpa_supplicant" +:+ nl +:+
  "ctrl_interface_group=0" +:+ nl +:+
  "update_config=1" +:+ nl +:+
  nl +:+
  "network={" +:+ nl +:+
  "    ssid=" +:+ dquote +:+ ssid +:+ dquote +:+ nl +:+
  "    psk=" +:+ dquote +:+ password +:+ dquote +:+ nl +:+
  "    key_mgmt=WPA-PSK" +:+ nl +:+
  "    scan_ssid=1" +:+ nl +:+
  "}" +:+ nl.

(** ** [android_wifi_direct_sharer.py]: class [AndroidWiFiDirectSharer] *)

Module Android.

(** The fields the modelled methods read or write. *)
Record Sharer := mkSharer {
  connected_devices : gset string;
  credentials_received : bool
}.

Definition add_device (path : string) (o : Sharer) : Sharer :=
  mkSharer ({[path]} ∪ connected_devices o) (credentials_received o).

Definition remove_device (path : string) (o : Sharer) : Sharer :=
  mkSharer (connected_devices o ∖ {[path]}) (credentials_received o).

Definition set_received (b : bool) (o : Sharer) : Sharer :=
  mkSharer (connected_devices o) b.

(** [timeout_seconds = 90] in [extract_wifi_credentials_from_android]. *)
Definition timeout_seconds : Z := 90.

(** [range(45)] in [connect_to_android_via_wifi_direct]. *)
Definition poll_iterations : nat := 45.

Definition status_argv : list string := ["sudo"; "wpa_cli"; "status"].

Definition connect_argv (device_address : string) : list string :=
  ["sudo"; "wpa_cli"; "p2p_connect"; device_address; "pbc"].

Definition find_argv : list string := ["sudo"; "wpa_cli"; "p2p_find"].

Definition peers_argv : list string := ["sudo"; "wpa_cli"; "p2p_peers"].

(** Signals of the object manager, as the receivers get them. *)
Inductive Signal :=
  | InterfacesAdded (path : string) (interfaces : gmap string (gmap string string))
  | InterfacesRemoved (path : string) (interfaces : list string).

Section Methods.
Variable env : Env.

Definition check_wifi_connection : M Sharer bool :=
  try_except
    (result ← run_text env ["iwconfig"; "wlan0"] true None;
     if returncode result =? 0 then
       let output := stdout result in
       if PyStr.contains "ESSID:" output
          && negb (PyStr.contains "Not-Associated" output)
       then mret true else mret false
     else mret false)
    any_exception (mret false).

Definition connect_to_extracted_network (ssid password : string)
    : M Sharer bool :=
  try_except
    (run env ["sudo"; "wpa_cli"; "p2p_stop_find"] true None;;
     run env ["sudo"; "killall"; "wpa_supplicant"] true None;;
     write_file env "/tmp/wpa_supplicant_client.conf"
       (Text (wpa_config ssid password));;
     run env ["sudo"; "cp"; "/tmp/wpa_supplicant_client.conf";
              "/etc/wpa_supplicant/wpa_supplicant.conf"] true None;;
     run env ["sudo"; "wpa_supplicant"; "-B"; "-i"; "wlan0"; "-c";
              "/etc/wpa_supplicant/wpa_supplicant.conf"; "-D"; "nl80211"]
       true None;;
     sleep 10;;
     connected ← check_wifi_connection;
     if (connected : bool) then mret true else mret false)
    any_exception (mret false).

Definition extract_android_network_credentials (status : string)
    : M Sharer bool :=
  try_except
    (network_info ← match parse_status status with
                    | Some d => mret d
                    | None => raise ValueError
                    end;
     if has_key "ssid" network_info || has_key "psk" network_info then
       let ssid := dict_get "ssid" "Unknown" network_info in
       let password := dict_get "psk" "Unknown" network_info in
       if negb (String.eqb ssid "Unknown")
          && negb (String.eqb password "Unknown")
       then
         write_file env config_file (JsonCredentials ssid password);;
         modify_self (set_received true);;
         connected ← connect_to_extracted_network ssid password;
         if (connected : bool) then mret true else mret false
       else mret false
     else mret false)
    any_exception (mret false).

Definition extract_credentials_from_android_wifi_direct : M Sharer bool :=
  try_except
    (result ← run_text env status_argv true None;
     if returncode result =? 0 then
       found ← extract_android_network_credentials (stdout result);
       if (found : bool) then mret true else mret false
     else mret false)
    any_exception (mret false).

Definition check_android_wifi_direct_connection : M Sharer bool :=
  try_except
    (result ← run_text env status_argv true None;
     if returncode result =? 0 then
       let status := stdout result in
       if PyStr.contains "p2p_go_mode=1" status
          || PyStr.contains "p2p_client_mode=1" status
       then mret true
       else if PyStr.contains "p2p" (PyStr.lower status) then mret false
       else mret false
     else mret false)
    any_exception (mret false).

(** The loop [for i in range(45)] with [remaining] turns to go; the
    function returns what the loop returns, and [False] after it. *)
Fixpoint wait_for_connection (remaining : nat) : M Sharer bool :=
  match remaining with
  | O => mret false
  | S remaining' =>
      sleep 1;;
      established ← check_android_wifi_direct_connection;
      if (established : bool) then extract_credentials_from_android_wifi_direct
      else wait_for_connection remaining'
  end.

Definition connect_to_android_via_wifi_direct
    (device_name device_address : string) : M Sharer bool :=
  try_except
    (result ← run_text env (connect_argv device_address) true None;
     if returncode result =? 0 then wait_for_connection poll_iterations
     else mret false)
    any_exception (mret false).

Definition check_for_android_service_responses : M Sharer bool :=
  try_except
    (result ← run_text env ["sudo"; "wpa_cli"; "p2p_serv_disc_resp"] false None;
     if (returncode result =? 0) && PyStr.truthy (PyStr.strip (stdout result))
     then mret true else mret false)
    any_exception (mret false).

Definition check_android_group_status : M Sharer bool :=
  try_except
    (result ← run_text env ["sudo"; "wpa_cli"; "p2p_group_info"] false None;
     if (returncode result =? 0) && PyStr.truthy (PyStr.strip (stdout result))
     then
       if PyStr.contains "group_id=" (stdout result) then mret true
       else mret false
     else mret false)
    any_exception (mret false).

Definition parse_android_network_info (device_info : string) : bool :=
  existsb (λ indicator : string, PyStr.contains indicator (PyStr.lower device_info))
    ["network"; "ssid"; "wifi"; "hotspot"; "tethering"].

(** The loop over [sources]; a bare [except:] skips a failing source. *)
Fixpoint check_sources (sources : list (list string)) : M Sharer bool :=
  match sources with
  | [] => mret false
  | source :: rest =>
      found ← try_except
        (result ← run_text env source true None;
         if (returncode result =? 0)
            && PyStr.truthy (PyStr.strip (stdout result))
         then mret (existsb
                      (λ indicator : string,
                         PyStr.contains indicator (PyStr.lower (stdout result)))
                      ["network"; "ssid"; "wifi"; "android"; "p2p"])
         else mret false)
        any_exception (mret false);
      if (found : bool) then mret true else check_sources rest
  end.

Definition check_for_android_network_info : M Sharer bool :=
  try_except
    (check_sources [peers_argv; status_argv;
                    ["sudo"; "wpa_cli"; "list_networks"]])
    any_exception (mret false).

Definition direct_android_extraction (device_name device_address : string)
    : M Sharer bool :=
  try_except
    (result ← run_text env ["sudo"; "wpa_cli"; "p2p_peer"; device_address] true None;
     if (returncode result =? 0)
        && parse_android_network_info (stdout result)
     then mret true
     else
       run env ["sudo"; "wpa_cli"; "p2p_serv_disc_req"; device_address;
                "02000001"] true None;;
       sleep 10;;
       found ← check_for_android_network_info;
       if (found : bool) then mret true else mret false)
    any_exception (mret false).

Definition try_android_specific_methods (device_name device_address : string)
    : M Sharer bool :=
  try_except
    (result ← run_text env ["sudo"; "wpa_cli"; "p2p_serv_disc_req"; device_address;
                       "02000001"] true None;
     answered ← (if returncode result =? 0
                 then sleep 10;; check_for_android_service_responses
                 else mret false);
     if (answered : bool) then mret true
     else
       result ← run_text env ["sudo"; "wpa_cli"; "p2p_group_add"] true None;
       formed ← (if returncode result =? 0
                 then sleep 15;; check_android_group_status
                 else mret false);
       if (formed : bool) then mret true
       else direct_android_extraction device_name device_address)
    any_exception (mret false).

Definition debug_android_wifi_direct_state : M Sharer unit :=
  try_except
    (run_text env status_argv true None;;
     run_text env peers_argv true None;;
     run_text env ["sudo"; "wpa_cli"; "p2p_group_info"] true None;;
     run_text env ["ip"; "addr"; "show"] true None;;
     mret tt)
    any_exception (mret tt).

(** Step 3 of [extract_wifi_credentials_from_android], the loop over
    [discovered_devices]. [Some b]: the method returns [b] from inside
    the loop; [None]: the loop ran out. The log line at the head of a
    turn reads [device_info['address']]. *)
Fixpoint connect_loop (start_time : Z)
    (discovered_devices : list (gmap string string))
    : M Sharer (option bool) :=
  match discovered_devices with
  | [] => mret None
  | device_info :: rest =>
      address ← getitem "address" device_info;
      t ← now;
      if t - start_time >? seconds timeout_seconds then mret (Some false)
      else
        connected ← connect_to_android_via_wifi_direct
                      (dict_get "name" "Unknown" device_info) address;
        if (connected : bool) then mret (Some true)
        else debug_android_wifi_direct_state;; connect_loop start_time rest
  end.

(** [extract_wifi_credentials_from_android] below its first statement,
    [start_time = time.time()]: the [try] block with its handler, for the
    value [start_time] that the statement has bound. *)
Definition extraction_from (start_time : Z)
    (device_name device_address : string) : M Sharer bool :=
  try_except
    (discovery ← try_except
       (run env find_argv true (Some 10);;
        sleep 15;;
        t ← now;
        if t - start_time >? seconds timeout_seconds then mret (Some false)
        else mret None)
       (λ e, match e with
             | CalledProcessError | TimeoutExpired => true
             | _ => false
             end)
       (mret (Some false));
     match (discovery : option bool) with
     | Some b => mret b
     | None =>
         result ← run_text env peers_argv true None;
         tried ← (if (returncode result =? 0)
                     && PyStr.truthy (PyStr.strip (stdout result))
                  then connect_loop start_time
                         (parse_android_devices (stdout result))
                  else mret None);
         match (tried : option bool) with
         | Some b => mret b
         | None =>
             t ← now;
             if t - start_time >? seconds timeout_seconds then mret false
             else
               found ← try_android_specific_methods device_name device_address;
               if (found : bool) then mret true else mret false
         end
     end)
    any_exception (mret false).

Definition extract_wifi_credentials_from_android
    (device_name device_address : string) : M Sharer bool :=
  start_time ← now;
  extraction_from start_time device_name device_address.

Definition on_device_connected (path : string)
    (interfaces : gmap string (gmap string string)) : M Sharer unit :=
  try_except
    (match interfaces !! "org.bluez.Device1" with
     | Some device =>
         let device_name := dict_get "Name" "Unknown Device" device in
         let device_address := dict_get "Address" "Unknown" device in
         modify_self (add_device path);;
         extract_wifi_credentials_from_android device_name device_address;;
         mret tt
     | None => mret tt
     end)
    any_exception (mret tt).

Definition on_device_disconnected (path : string) (interfaces : list string)
    : M Sharer unit :=
  try_except
    (o ← get_self;
     if bool_decide (path ∈ connected_devices o)
     then modify_self (remove_device path)
     else mret tt)
    any_exception (mret tt).

(** The receivers registered by [setup_bluetooth_monitoring]. *)
Definition receive (sig : Signal) : M Sharer unit :=
  match sig with
  | InterfacesAdded path interfaces => on_device_connected path interfaces
  | InterfacesRemoved path interfaces => on_device_disconnected path interfaces
  end.

(** [self.mainloop.run()]. The GLib main loop calls the receivers on its
    own thread, one signal at a time and each to its end; a signal that
    arrives while a receiver runs waits for it. The queue pairs each
    signal with the clock value at which the bus emits it. *)
Definition wait_until (t : Z) : M Sharer unit := λ s,
  (Ok tt, (s.1, advance (t - clock s.2) s.2)).

Fixpoint mainloop_run (queue : list (Z * Signal)) : M Sharer unit :=
  match queue with
  | [] => mret tt
  | (emitted, sig) :: rest =>
      wait_until emitted;; receive sig;; mainloop_run rest
  end.
End Methods.

End Android.

(** ** [auto_bluetooth_wifi_sharer.py] *)

Module AutoBluetooth.

(** [WiFiCredentialService]. Both characteristics hold a reference to the
    one service object; here they act on its record. *)
Record WiFiCredentialService := mkService {
  wifi_ssid : string;
  wifi_password : string;
  device_info : gmap string string
}.

(** [WiFiCredentialService.__init__] *)
Definition new_service : WiFiCredentialService :=
  mkService "Unknown" "Unknown" ∅.

(** [value] is the byte array of the D-Bus call, a list of integers. The
    result is [None] when some [chr] has no image among the modelled
    characters. *)
Module WiFiSSIDCharacteristic.
Definition ReadValue (service : WiFiCredentialService) : list Z :=
  PyStr.ord <$> PyStr.chars (wifi_ssid service).

Definition WriteValue (value : list Z) (service : WiFiCredentialService)
    : option WiFiCredentialService :=
  cs ← mapM PyStr.chr value;
  let ssid := PyStr.join_chars cs in
  Some (mkService ssid (wifi_password service) (device_info service)).
End WiFiSSIDCharacteristic.

Module WiFiPasswordCharacteristic.
Definition ReadValue (service : WiFiCredentialService) : list Z :=
  PyStr.ord <$> PyStr.chars (wifi_password service).

Definition WriteValue (value : list Z) (service : WiFiCredentialService)
    : option WiFiCredentialService :=
  cs ← mapM PyStr.chr value;
  let password := PyStr.join_chars cs in
  Some (mkService (wifi_ssid service) password (device_info service)).
End WiFiPasswordCharacteristic.

(** [mainloop]: [None] before [setup_dbus]; afterwards [Some quit], where
    [quit] tells whether [mainloop.quit()] has been called. *)
Record Sharer := mkSharer {
  connected_devices : gset string;
  wifi_service : option WiFiCredentialService;
  credentials_received : bool;
  mainloop : option bool
}.

Definition set_received (b : bool) (o : Sharer) : Sharer :=
  mkSharer (connected_devices o) (wifi_service o) b (mainloop o).

Definition quit_mainloop (o : Sharer) : Sharer :=
  mkSharer (connected_devices o) (wifi_service o) (credentials_received o)
    (Some true).

Section Methods.
Variable env : Env.

Definition connect_to_wifi (ssid password : string) : M Sharer bool :=
  try_except
    (write_file env "/tmp/wpa_supplicant.conf"
       (Text (wpa_config ssid password));;
     run env ["sudo"; "cp"; "/tmp/wpa_supplicant.conf";
              "/etc/wpa_supplicant/wpa_supplicant.conf"] true None;;
     run env ["sudo"; "systemctl"; "restart"; "networking"] true None;;
     sleep 10;;
     result ← run_text env ["iwconfig"; "wlan0"] false None;
     if PyStr.contains "ESSID:" (stdout result)
        && negb (PyStr.contains "off/any" (stdout result))
     then
       write_file env config_file (JsonCredentials ssid password);;
       mret true
     else mret false)
    (λ e, match e with CalledProcessError => true | _ => false end)
    (mret false).

Definition check_credentials : M Sharer unit :=
  try_except
    (o ← get_self;
     match wifi_service o with
     | None => mret tt
     | Some service =>
         if PyStr.truthy (wifi_ssid service)
            && negb (String.eqb (wifi_ssid service) "Unknown")
            && PyStr.truthy (wifi_password service)
            && negb (String.eqb (wifi_password service) "Unknown")
         then
           modify_self (set_received true);;
           connected ← connect_to_wifi (wifi_ssid service)
                         (wifi_password service);
           if (connected : bool) then
             o' ← get_self;
             match mainloop o' with
             | Some _ => modify_self quit_mainloop
             | None => mret tt
             end
           else mret tt
         else mret tt
     end)
    any_exception (mret tt).
End Methods.

End AutoBluetooth.

(** ** Notions used to state the properties *)

(** The mapping the design asks of the status parser: a line is cut at its
    first separator, a line without one gives nothing, and a key gets the
    value of the last line that binds it. *)
Fixpoint cut_at_first (c : ascii) (line : string) : option (string * string) :=
  match line with
  | EmptyString => None
  | String a rest =>
      if Ascii.eqb a c then Some (EmptyString, rest)
      else '(k, v) ← cut_at_first c rest; Some (String a k, v)
  end.

Definition binding_of (line : string) : option (string * string) :=
  '(k, v) ← cut_at_first equals line; Some (PyStr.strip k, PyStr.strip v).

Definition binds (key : string) (line : string) : option string :=
  '(k, v) ← binding_of line; if decide (k = key) then Some v else None.

Definition last_binding (key : string) (lines : list string) : option string :=
  last (omap (binds key) lines).

(** Peer-list records: a marker line opens a record, the lines up to the
    next marker belong to it. *)
Definition is_marker (line : string) : bool :=
  PyStr.startswith "dev_addr=" (PyStr.strip line).

Fixpoint remainder (prefix line : string) : string :=
  match prefix, line with
  | String _ p, String _ l => remainder p l
  | _, _ => line
  end.

(** What a line that is no marker does to the record in progress. *)
Definition add_field (current_device : gmap string string) (line : string)
    : gmap string string :=
  match (device_line (PyStr.strip line) [] current_device).2 with
  | Some d => d
  | None => current_device
  end.

Definition device_of_group (g : string * list string) : gmap string string :=
  foldl add_field {["address" := remainder "dev_addr=" (PyStr.strip g.1)]} g.2.

Definition lines_of_group (g : string * list string) : list string :=
  g.1 :: g.2.

Definition group_ok (g : string * list string) : Prop :=
  is_marker g.1 = true ∧ Forall (λ l, is_marker l = false) g.2.

(** Relations between the state before and after a computation. *)
Definition State (Self : Type) : Type := Self * World.

Definition grows {Self} (P : Event → Prop) (s s' : State Self) : Prop :=
  ∃ evs, trace s'.2 = trace s.2 ++ evs ∧ Forall P evs.

Definition same_store {Self} (s s' : State Self) : Prop :=
  files s'.2 !! config_file = files s.2 !! config_file.

Definition same_self {Self} (s s' : State Self) : Prop := s'.1 = s.1.

Definition same_devices (s s' : State Android.Sharer) : Prop :=
  Android.connected_devices s'.1 = Android.connected_devices s.1.

(** [m] relates every state to the one it leaves. *)
Definition stable {Self A} (R : relation (State Self)) (m : M Self A) : Prop :=
  ∀ s, R s (m s).2.

(** [m] never raises. *)
Definition never_raises {Self A} (m : M Self A) : Prop :=
  ∀ s, ∃ a, (m s).1 = Ok a.

(** Connect attempts in a trace: the peer's address and the clock value
    at which the connect command was issued. *)
Definition attempted (ev : Event) : option (string * Z) :=
  match ev with
  | ERun [a0; a1; a2; address; a4] t =>
      if bool_decide ([a0; a1; a2; a4] = ["sudo"; "wpa_cli"; "p2p_connect"; "pbc"])
      then Some (address, t) else None
  | _ => None
  end.

Definition timed_attempts (evs : list Event) : list (string * Z) :=
  omap attempted evs.

Definition attempts (evs : list Event) : list string :=
  (timed_attempts evs).*1.

(** Service discovery requests, the first command of the Android-specific
    methods. *)
Definition is_service_request (ev : Event) : bool :=
  match ev with
  | ERun [a0; a1; a2; _; a4] _ =>
      bool_decide ([a0; a1; a2; a4]
                   = ["sudo"; "wpa_cli"; "p2p_serv_disc_req"; "02000001"])
  | _ => false
  end.

Definition event_time (ev : Event) : Z :=
  match ev with
  | ERun _ t | ESleep _ t | EWrite _ t => t
  end.

Fixpoint first_service_request (evs : list Event) : option Z :=
  match evs with
  | [] => None
  | ev :: rest =>
      if is_service_request ev then Some (event_time ev)
      else first_service_request rest
  end.

(** Events that are neither a connect attempt nor a service discovery
    request, and events that are no connect attempt. *)
Definition plain (ev : Event) : Prop :=
  attempted ev = None ∧ is_service_request ev = false.

Definition no_attempt (ev : Event) : Prop := attempted ev = None.

(** Within the time limit counted from [start_time]. *)
Definition in_time (start_time t : Z) : Prop :=
  t - start_time ≤ seconds Android.timeout_seconds.

(** Events of the connect loop: no service request, and every connect
    attempt is issued in time. *)
Definition loop_event (start_time : Z) (ev : Event) : Prop :=
  is_service_request ev = false ∧
  ∀ a t, attempted ev = Some (a, t) → in_time start_time t.

(** The state after begins the trace of the state before with the command
    [argv], issued at the clock value of the state before, followed by
    events in [P]. *)
Definition starts {Self} (argv : list string) (P : Event → Prop)
    (s s' : State Self) : Prop :=
  ∃ rest, trace s'.2 = trace s.2 ++ ERun argv (clock s.2) :: rest ∧ Forall P rest.

(** What a whole run of [extract_wifi_credentials_from_android] begun at
    [start_time] adds to the trace: every connect attempt is issued in
    time, and so is the first service discovery request. *)
Definition checked_run {Self} (start_time : Z) (s s' : State Self) : Prop :=
  ∃ evs, trace s'.2 = trace s.2 ++ evs ∧
    Forall (λ p, in_time start_time p.2) (timed_attempts evs) ∧
    ∀ t, first_service_request evs = Some t → in_time start_time t.

Definition service_request_argv (device_address : string) : list string :=
  ["sudo"; "wpa_cli"; "p2p_serv_disc_req"; device_address; "02000001"].

Definition is_find (ev : Event) : bool :=
  match ev with
  | ERun argv _ => bool_decide (argv = Android.find_argv)
  | _ => false
  end.

(** One poll of [wait_for_connection]: the sleep and the status check. *)
Definition poll_once (env : Env) : M Android.Sharer bool :=
  sleep 1;; Android.check_android_wifi_direct_connection env.

(** [n] polls in a row that found no connection. *)
Inductive failed_polls (env : Env)
    : nat → State Android.Sharer → State Android.Sharer → Prop :=
  | failed_polls_O s : failed_polls env 0 s s
  | failed_polls_S n s s1 s2 :
      poll_once env s = (Ok false, s1) →
      failed_polls env n s1 s2 →
      failed_polls env (S n) s s2.

Definition any_event (ev : Event) : Prop := True.

(** [m] relates every state to the one it leaves, in a way that may depend
    on its result. *)
Definition ensures {Self A} (Q : Result A → relation (State Self))
    (m : M Self A) : Prop :=
  ∀ s, Q (m s).1 s (m s).2.


(** The test of [check_credentials] and of the design's [Validate]: both
    fields non-empty and different from the placeholder. *)
Definition plausible (ssid password : string) : Prop :=
  ssid ≠ EmptyString ∧ ssid ≠ "Unknown" ∧
  password ≠ EmptyString ∧ password ≠ "Unknown".

(** The test of [extract_android_network_credentials]. *)
Definition not_unknown (network_info : gmap string string) : Prop :=
  dict_get "ssid" "Unknown" network_info ≠ "Unknown" ∧
  dict_get "psk" "Unknown" network_info ≠ "Unknown".

(** The events a computation has added to the trace. *)
Definition added {Self} (s s' : State Self) : list Event :=
  drop (length (trace s.2)) (trace s'.2).

(** ** Scenarios *)

Module Scenario.

(** An oracle that answers by command line. *)
Definition answers (table : list (list string * Response)) (default : Response)
    : nat → list string → Response := λ _ argv,
  match list_find (λ p, bool_decide (p.1 = argv)) table with
  | Some (_, (_, r)) => r
  | None => default
  end.

Definition exits (out : string) : Response := Exited 0 out EmptyString 0.

Definition env_of (table : list (list string * Response)) : Env :=
  mkEnv (answers table (exits EmptyString)) (λ _ _, Written).

Definition two_peers : string :=
  "dev_addr=aa:aa" +:+ nl +:+ "dev_name=A" +:+ nl +:+
  "dev_addr=bb:bb" +:+ nl +:+ "dev_name=B" +:+ nl.

Definition iwconfig_argv : list string := ["iwconfig"; "wlan0"].

(** Every command succeeds and prints nothing. *)
Definition env_quiet : Env := env_of [].

(** The peer shares the network HomeNet and the interface joins it. *)
Definition env_home : Env :=
  env_of
    [(Android.peers_argv, exits two_peers);
     (Android.status_argv,
      exits ("p2p_client_mode=1" +:+ nl +:+ "ssid=HomeNet" +:+ nl +:+
             "psk=s3cr3t" +:+ nl));
     (iwconfig_argv, exits ("wlan0 ESSID:" +:+ dquote +:+ "HomeNet" +:+ dquote))].

(** Two peers are found, connect requests are accepted, no group forms. *)
Definition env_no_group : Env :=
  env_of
    [(Android.peers_argv, exits two_peers);
     (Android.status_argv, exits ("wpa_state=SCANNING" +:+ nl))].

(** Two peers are found and a group forms at once, but the status names no
    network. *)
Definition env_group_only : Env :=
  env_of
    [(Android.peers_argv, exits two_peers);
     (Android.status_argv, exits ("p2p_client_mode=1" +:+ nl))].

(** The credential is found but the interface does not associate. *)
Definition env_no_association : Env :=
  env_of
    [(Android.peers_argv, exits two_peers);
     (Android.status_argv,
      exits ("p2p_client_mode=1" +:+ nl +:+ "ssid=HomeNet" +:+ nl +:+
             "psk=s3cr3t" +:+ nl));
     (iwconfig_argv, exits "wlan0 ESSID:off/any Not-Associated")].

Definition fresh_world : World := mkWorld 0 0 [] ∅.

Definition android_start : State Android.Sharer :=
  (Android.mkSharer ∅ false, fresh_world).

(** A state whose clock is past the time limit counted from 0. *)
Definition late_start : State Android.Sharer :=
  (Android.mkSharer ∅ false, mkWorld 91000 0 [] ∅).


Definition device_path : string := "/org/bluez/hci0/dev_AA_AA".

Definition phone : gmap string (gmap string string) :=
  {["org.bluez.Device1" := {["Name" := "Pixel"; "Address" := "AA:AA"]}]}.

Definition peer_a : gmap string string := {["address" := "aa:aa"; "name" := "A"]}.
Definition peer_b : gmap string string := {["address" := "bb:bb"; "name" := "B"]}.

(** Status text whose two credential fields are empty. *)
Definition empty_fields : string := "ssid=" +:+ nl +:+ "psk=" +:+ nl.

Definition gatt_start (ssid password : string) : State AutoBluetooth.Sharer :=
  (AutoBluetooth.mkSharer ∅
     (Some (AutoBluetooth.mkService ssid password ∅)) false (Some false),
   fresh_world).

End Scenario.

(** ** Three readings that the code does not meet *)

(** No connect attempt is begun unless the time left covers its polling
    bound. *)
Definition budget_respected (env : Env) (device_name device_address : string)
    (s : State Android.Sharer) : Prop :=
  let s' := (Android.extract_wifi_credentials_from_android env device_name
               device_address s).2 in
  ∀ a t, (a, t) ∈ timed_attempts (added s s') →
    t - clock s.2 + seconds (Z.of_nat Android.poll_iterations)
    ≤ seconds Android.timeout_seconds.

(** For a peer that connects at [connected_at] and whose disconnect signal
    is emitted at [disconnected_at], the credential file is not written from
    then on. *)
Definition no_persist_after_disconnect (env : Env) (path : string)
    (interfaces : gmap string (gmap string string))
    (connected_at disconnected_at : Z) (s : State Android.Sharer) : Prop :=
  let s' := (Android.mainloop_run env
               [(connected_at, Android.InterfacesAdded path interfaces);
                (disconnected_at, Android.InterfacesRemoved path [])] s).2 in
  ∀ t, EWrite config_file t ∈ added s s' → t < disconnected_at.

(** A second connect signal for the same path changes nothing. *)
Definition duplicate_ignored (env : Env) (path : string)
    (interfaces : gmap string (gmap string string))
    (s : State Android.Sharer) : Prop :=
  let s1 := (Android.on_device_connected env path interfaces s).2 in
  (Android.on_device_connected env path interfaces s1).2 = s1.

(** ** Code shared by the sharers *)

(** A block of text as the triple-quoted literals have it: a newline, then
    every line with its newline. *)
Definition text_block (lines : list string) : string :=
  nl +:+ foldr (λ line rest, line +:+ nl +:+ rest) EmptyString lines.

Definition copy_argv (source target : string) : list string :=
  ["sudo"; "cp"; source; target].

Definition supplicant_argv : list string :=
  ["sudo"; "wpa_supplicant"; "-B"; "-i"; "wlan0"; "-c";
   "/etc/wpa_supplicant/wpa_supplicant.conf"; "-D"; "nl80211"].

Definition dpkg_argv (package : string) : list string :=
  ["dpkg"; "-s"; package].

Definition only_called_process_error (e : Exn) : bool :=
  match e with CalledProcessError => true | _ => false end.

Definition process_error_or_timeout (e : Exn) : bool :=
  match e with CalledProcessError | TimeoutExpired => true | _ => false end.

Definition only_timeout (e : Exn) : bool :=
  match e with TimeoutExpired => true | _ => false end.

Section Dependencies.
Context {Self : Type}.
Variable env : Env.

(** The loop [for package in required_packages] of every
    [check_dependencies], with [missing_packages] as it stands. *)
Fixpoint collect_missing (required_packages missing_packages : list string)
    : M Self (list string) :=
  match required_packages with
  | [] => mret missing_packages
  | package :: rest =>
      missing ← try_except
        (run env (dpkg_argv package) true None;; mret missing_packages)
        only_called_process_error
        (mret (missing_packages ++ [package]));
      collect_missing rest missing
  end.
End Dependencies.

(** ** [android_wifi_direct_sharer.py]: the set-up methods *)

Module AndroidSetup.

Definition required_packages : list string :=
  ["bluez"; "bluez-tools"; "wpasupplicant"; "python3-dbus"; "python3-gi"].

Definition wifi_direct_config : string :=
  text_block
    ["ctrl_interface=/var/run/wpa_supplicant";
     "ctrl_interface_group=0";
     "update_config=1";
     EmptyString;
     "# Minimal WiFi Direct configuration - compatible with all Pi versions";
     "p2p_disabled=0"].

Definition fallback_config : string :=
  text_block
    ["ctrl_interface=/var/run/wpa_supplicant";
     "ctrl_interface_group=0";
     "update_config=1";
     EmptyString;
     "# Minimal Android WiFi Direct configuration";
     "p2p_disabled=0";
     "p2p_go_intent=0"].

Section Methods.
Variable env : Env.

Definition check_dependencies : M Android.Sharer bool :=
  missing_packages ← collect_missing env required_packages [];
  match (missing_packages : list string) with
  | _ :: _ => mret false
  | [] =>
      unsupported ← try_except
        (result ← run_text env ["wpa_cli"; "help"] false None;
         if negb (PyStr.contains "p2p" (PyStr.lower (stdout result)))
         then mret true else mret false)
        any_exception (mret false);
      if (unsupported : bool) then mret false else mret true
  end.

Definition check_wifi_interface_status : M Android.Sharer bool :=
  try_except
    (result ← run_text env ["ip"; "link"; "show"; "wlan0"] false None;
     if negb (returncode result =? 0) then mret false
     else if negb (PyStr.contains "UP" (stdout result)) then mret false
     else
       result ← run_text env ["iwconfig"; "wlan0"] false None;
       if returncode result =? 0 then
         if PyStr.contains "ESSID:" (stdout result)
            && negb (PyStr.contains "Not-Associated" (stdout result))
         then mret false
         else if PyStr.contains "Mode:" (stdout result)
                 && PyStr.contains "Master" (stdout result)
         then mret false
         else mret true
       else mret true)
    any_exception (mret false).

Definition setup_wifi_direct_fallback : M Android.Sharer bool :=
  try_except
    (write_file env "/tmp/wpa_supplicant.conf" (Text fallback_config);;
     run env (copy_argv "/tmp/wpa_supplicant.conf"
                "/etc/wpa_supplicant/wpa_supplicant.conf") true None;;
     run env supplicant_argv true None;;
     sleep 5;;
     try_except
       (run env Android.find_argv true (Some 5);; mret true)
       process_error_or_timeout (mret false))
    any_exception (mret false).

Definition setup_wifi_direct : M Android.Sharer bool :=
  try_except
    (available ← check_wifi_interface_status;
     if negb available then mret false
     else
       run env ["sudo"; "killall"; "wpa_supplicant"] false None;;
       run env ["sudo"; "killall"; "hostapd"] false None;;
       sleep 3;;
       run env ["sudo"; "systemctl"; "stop"; "wpa_supplicant"] false None;;
       run env ["sudo"; "systemctl"; "stop"; "networking"] false None;;
       run env ["sudo"; "ip"; "link"; "set"; "wlan0"; "down"] false None;;
       sleep 2;;
       run env ["sudo"; "ip"; "link"; "set"; "wlan0"; "up"] false None;;
       sleep 2;;
       write_file env "/tmp/wpa_supplicant.conf" (Text wifi_direct_config);;
       run env (copy_argv "/tmp/wpa_supplicant.conf"
                  "/etc/wpa_supplicant/wpa_supplicant.conf") true None;;
       run env supplicant_argv true None;;
       sleep 5;;
       try_except
         (result ← run_text env Android.find_argv false (Some 10);
          if returncode result =? 0 then
            sleep 2;;
            p2p_check ← run_text env Android.peers_argv false (Some 5);
            if returncode p2p_check =? 0 then mret true
            else setup_wifi_direct_fallback
          else setup_wifi_direct_fallback)
         only_timeout setup_wifi_direct_fallback)
    only_called_process_error setup_wifi_direct_fallback.
End Methods.

End AndroidSetup.

(** ** [wifi_direct_sharer.py]: class [WiFiDirectSharer] *)

Module WiFiDirect.

Record Sharer := mkSharer {
  connected_devices : gset string;
  credentials_received : bool
}.

Definition add_device (path : string) (o : Sharer) : Sharer :=
  mkSharer ({[path]} ∪ connected_devices o) (credentials_received o).

Definition remove_device (path : string) (o : Sharer) : Sharer :=
  mkSharer (connected_devices o ∖ {[path]}) (credentials_received o).

Definition set_received (b : bool) (o : Sharer) : Sharer :=
  mkSharer (connected_devices o) b.

Definition required_packages : list string :=
  ["bluez"; "bluez-tools"; "wpasupplicant"; "python3-dbus"; "python3-gi"].

Definition wifi_direct_config : string :=
  text_block
    ["ctrl_interface=/var/run/wpa_supplicant";
     "ctrl_interface_group=0";
     "update_config=1";
     EmptyString;
     "# Basic WiFi Direct configuration - compatible with Pi's wpa_supplicant";
     "p2p_disabled=0";
     "p2p_go_intent=0";
     "p2p_go_ht40=1";
     "p2p_go_vht=1";
     EmptyString;
     "# Enable WiFi Direct with basic settings";
     "p2p_listen_reg_class=81";
     "p2p_listen_channel=1";
     "p2p_oper_reg_class=81";
     "p2p_oper_channel=1";
     EmptyString;
     "# Basic WiFi Direct group formation";
     "p2p_go_max_inactivity=300";
     "p2p_passphrase_len=8";
     "p2p_pref_chan=81:1,81:6,81:11"].

Definition fallback_config : string :=
  text_block
    ["ctrl_interface=/var/run/wpa_supplicant";
     "ctrl_interface_group=0";
     "update_config=1";
     EmptyString;
     "# Minimal WiFi Direct configuration";
     "p2p_disabled=0"].

Definition find_argv : list string := ["sudo"; "wpa_cli"; "p2p_find"].
Definition peers_argv : list string := ["sudo"; "wpa_cli"; "p2p_peers"].
Definition status_argv : list string := ["sudo"; "wpa_cli"; "status"].

Definition connect_argv (device_address : string) : list string :=
  ["sudo"; "wpa_cli"; "p2p_connect"; device_address; "pbc"].

Definition request_argv (device_address : string) : list string :=
  ["sudo"; "wpa_cli"; "p2p_serv_disc_req"; device_address; "02000001"].

Definition info_argv (device_address : string) : list string :=
  ["sudo"; "bluetoothctl"; "info"; device_address].

Definition parse_device_network_info (device_info : string) : bool :=
  PyStr.contains "network" (PyStr.lower device_info)
  || PyStr.contains "ssid" (PyStr.lower device_info).

Definition parse_bluetooth_device_info (device_info : string) : bool :=
  PyStr.contains "network" (PyStr.lower device_info)
  || PyStr.contains "wifi" (PyStr.lower device_info).

Section Methods.
Variable env : Env.

Definition check_dependencies : M Sharer bool :=
  missing_packages ← collect_missing env required_packages [];
  match (missing_packages : list string) with
  | _ :: _ => mret false
  | [] => mret true
  end.

Definition setup_wifi_direct_fallback : M Sharer bool :=
  try_except
    (write_file env "/tmp/wpa_supplicant.conf" (Text fallback_config);;
     run env (copy_argv "/tmp/wpa_supplicant.conf"
                "/etc/wpa_supplicant/wpa_supplicant.conf") true None;;
     run env supplicant_argv true None;;
     sleep 5;;
     try_except
       (run env find_argv true (Some 5);; mret true)
       process_error_or_timeout (mret true))
    any_exception (mret true).

Definition setup_wifi_direct : M Sharer bool :=
  try_except
    (run env ["sudo"; "systemctl"; "stop"; "wpa_supplicant"] false None;;
     run env ["sudo"; "systemctl"; "stop"; "networking"] false None;;
     write_file env "/tmp/wpa_supplicant.conf" (Text wifi_direct_config);;
     run env (copy_argv "/tmp/wpa_supplicant.conf"
                "/etc/wpa_supplicant/wpa_supplicant.conf") true None;;
     run env supplicant_argv true None;;
     sleep 5;;
     try_except
       (run env find_argv true (Some 10);; mret true)
       process_error_or_timeout setup_wifi_direct_fallback)
    only_called_process_error setup_wifi_direct_fallback.

Definition extract_network_credentials (status : string) : M Sharer bool :=
  try_except
    (network_info ← match parse_status status with
                    | Some d => mret d
                    | None => raise ValueError
                    end;
     if has_key "ssid" network_info || has_key "psk" network_info then
       let ssid := dict_get "ssid" "Unknown" network_info in
       let password := dict_get "psk" "Unknown" network_info in
       if negb (String.eqb ssid "Unknown")
          && negb (String.eqb password "Unknown")
       then
         write_file env config_file (JsonCredentials ssid password);;
         modify_self (set_received true);;
         mret true
       else mret false
     else mret false)
    any_exception (mret false).

Definition extract_credentials_from_wifi_direct : M Sharer bool :=
  try_except
    (result ← run_text env status_argv true None;
     if returncode result =? 0 then
       found ← extract_network_credentials (stdout result);
       if (found : bool) then mret true else mret false
     else mret false)
    any_exception (mret false).

Definition check_wifi_direct_connection : M Sharer bool :=
  try_except
    (result ← run_text env status_argv true None;
     if returncode result =? 0 then
       if PyStr.contains "p2p_go_mode=1" (stdout result)
          || PyStr.contains "p2p_client_mode=1" (stdout result)
       then mret true else mret false
     else mret false)
    any_exception (mret false).

Definition check_for_network_responses : M Sharer bool :=
  try_except
    (result ← run_text env peers_argv true None;
     if (returncode result =? 0) && PyStr.truthy (PyStr.strip (stdout result))
     then mret true else mret false)
    any_exception (mret false).

Definition check_for_service_responses : M Sharer bool :=
  try_except
    (result ← run_text env ["sudo"; "wpa_cli"; "p2p_serv_disc_resp"] true None;
     if (returncode result =? 0) && PyStr.truthy (PyStr.strip (stdout result))
     then mret true else mret false)
    any_exception (mret false).

(** The loop over [sources]; a bare [except:] skips a failing source. *)
Fixpoint check_sources (sources : list (list string)) : M Sharer bool :=
  match sources with
  | [] => mret false
  | source :: rest =>
      found ← try_except
        (result ← run_text env source true None;
         if (returncode result =? 0)
            && PyStr.truthy (PyStr.strip (stdout result))
         then
           if PyStr.contains "network" (PyStr.lower (stdout result))
              || PyStr.contains "ssid" (PyStr.lower (stdout result))
           then mret true else mret false
         else mret false)
        any_exception (mret false);
      if (found : bool) then mret true else check_sources rest
  end.

Definition check_for_network_info : M Sharer bool :=
  try_except
    (check_sources [peers_argv; status_argv;
                    ["sudo"; "wpa_cli"; "list_networks"]])
    any_exception (mret false).

Definition direct_wifi_direct_extraction (device_name device_address : string)
    : M Sharer bool :=
  try_except
    (result ← run_text env ["sudo"; "wpa_cli"; "p2p_peer"; device_address] true None;
     if (returncode result =? 0)
        && parse_device_network_info (stdout result)
     then mret true
     else
       run env (request_argv device_address) true None;;
       sleep 5;;
       found ← check_for_network_info;
       if (found : bool) then mret true else mret false)
    any_exception (mret false).

Definition try_alternative_wifi_direct_methods
    (device_name device_address : string) : M Sharer bool :=
  try_except
    (result ← run_text env (request_argv device_address) true None;
     answered ← (if returncode result =? 0
                 then sleep 5;; check_for_network_responses
                 else mret false);
     if (answered : bool) then mret true
     else
       run env (request_argv device_address) true None;;
       sleep 10;;
       responded ← check_for_service_responses;
       if (responded : bool) then mret true
       else direct_wifi_direct_extraction device_name device_address)
    any_exception (mret false).

Definition connect_via_wifi_direct (device_name device_address : string)
    : M Sharer bool :=
  try_except
    (result ← run_text env (connect_argv device_address) true None;
     if returncode result =? 0 then
       sleep 15;;
       established ← check_wifi_direct_connection;
       if (established : bool) then extract_credentials_from_wifi_direct
       else mret false
     else mret false)
    any_exception (mret false).

Definition extract_wifi_credentials_via_bluetooth_only
    (device_name device_address : string) : M Sharer bool :=
  try_except
    (found ← try_except
       (result ← run_text env (info_argv device_address) true None;
        if (returncode result =? 0)
           && parse_bluetooth_device_info (stdout result)
        then mret true else mret false)
       only_called_process_error (mret false);
     if (found : bool) then mret true
     else sleep 5;; sleep 3;; mret false)
    any_exception (mret false).

Definition extract_wifi_credentials_via_wifi_direct
    (device_name device_address : string) : M Sharer bool :=
  try_except
    (discovery ← try_except
       (run env find_argv true (Some 10);; sleep 10;; mret None)
       process_error_or_timeout
       (found ← extract_wifi_credentials_via_bluetooth_only device_name
                  device_address;
        mret (Some found));
     match (discovery : option bool) with
     | Some found => mret found
     | None =>
         result ← run_text env peers_argv true None;
         connected ← (if (returncode result =? 0)
                         && PyStr.truthy (PyStr.strip (stdout result))
                      then connect_via_wifi_direct device_name device_address
                      else mret false);
         if (connected : bool) then mret true
         else
           found ← try_alternative_wifi_direct_methods device_name
                     device_address;
           if (found : bool) then mret true
           else extract_wifi_credentials_via_bluetooth_only device_name
                  device_address
     end)
    any_exception
    (extract_wifi_credentials_via_bluetooth_only device_name device_address).

Definition on_device_connected (path : string)
    (interfaces : gmap string (gmap string string)) : M Sharer unit :=
  try_except
    (match interfaces !! "org.bluez.Device1" with
     | Some device =>
         let device_name := dict_get "Name" "Unknown Device" device in
         let device_address := dict_get "Address" "Unknown" device in
         modify_self (add_device path);;
         extract_wifi_credentials_via_wifi_direct device_name device_address;;
         mret tt
     | None => mret tt
     end)
    any_exception (mret tt).

Definition on_device_disconnected (path : string) (interfaces : list string)
    : M Sharer unit :=
  try_except
    (o ← get_self;
     if bool_decide (path ∈ connected_devices o)
     then modify_self (remove_device path)
     else mret tt)
    any_exception (mret tt).
End Methods.

End WiFiDirect.

(** ** [auto_bluetooth_wifi_sharer.py]: the monitoring loop *)

Module AutoBluetoothMonitor.

Section Methods.
Variable env : Env.

(** The loop of [monitor_credentials], with [fuel] turns to spend:
    [None] says that the loop asks for one more turn than that. It runs
    inside the receiver of the connect signal, on the thread of the main
    loop, so no write to a characteristic is served while it runs. *)
Fixpoint monitor_loop (fuel : nat) : M AutoBluetooth.Sharer (option unit) :=
  o ← get_self;
  if negb (AutoBluetooth.credentials_received o)
     && bool_decide (AutoBluetooth.connected_devices o ≠ ∅)
  then
    match fuel with
    | O => mret None
    | S fuel' =>
        AutoBluetooth.check_credentials env;;
        sleep 2;;
        monitor_loop fuel'
    end
  else mret (Some tt).

Definition monitor_credentials (fuel : nat)
    : M AutoBluetooth.Sharer (option unit) :=
  try_except (monitor_loop fuel) any_exception (mret (Some tt)).
End Methods.

End AutoBluetoothMonitor.

(** ** Notions used to state further properties *)

(** A key as the status parser produces it: no separator in it and no
    whitespace at either end. *)
Definition clean_key (key : string) : Prop :=
  PyStr.contains "=" key = false ∧ PyStr.strip key = key.

(** The keys a device record can have. *)
Definition device_keys : gset string :=
  {["address"; "name"; "p2p_address"; "go_intent"; "capabilities"]}.

(** What the set of connected devices owes to one signal. *)
Definition track (devices : gset string) (sig : Android.Signal) : gset string :=
  match sig with
  | Android.InterfacesAdded path interfaces =>
      if has_key "org.bluez.Device1" interfaces then {[path]} ∪ devices
      else devices
  | Android.InterfacesRemoved path _ => devices ∖ {[path]}
  end.

(** Seconds slept in a stretch of the trace. *)
Definition sleep_seconds (ev : Event) : Z :=
  match ev with
  | ESleep secs _ => secs
  | _ => 0
  end.

Definition total_sleep (evs : list Event) : Z :=
  foldr (λ ev acc, sleep_seconds ev + acc) 0 evs.

(** What a connect attempt can sleep: the 45 polls of one second each and
    the 10 seconds before the association is checked. *)
Definition attempt_sleep : Z := 55.

(** The events added sleep for no more than [bound] seconds, with
    [attempt_sleep] more for each connect attempt among them. *)
Definition sleeps_within {Self} (bound : Z) (s s' : State Self) : Prop :=
  ∃ evs, trace s'.2 = trace s.2 ++ evs ∧
    total_sleep evs ≤ bound + attempt_sleep * Z.of_nat (length (attempts evs)).

(** [credentials_received] is not taken back, and it is not set unless the
    credential file was written on the way. *)
Definition received_after_write (s s' : State Android.Sharer) : Prop :=
  ∃ evs, trace s'.2 = trace s.2 ++ evs ∧
    (Android.credentials_received s.1 = true →
     Android.credentials_received s'.1 = true) ∧
    (Android.credentials_received s'.1 = true →
     Android.credentials_received s.1 = true ∨
     ∃ t, EWrite config_file t ∈ evs).

(** Neither the object's fields nor any file has changed. *)
Definition untouched {Self} (s s' : State Self) : Prop :=
  s'.1 = s.1 ∧ files s'.2 = files s.2.

Definition same_files {Self} (s s' : State Self) : Prop :=
  files s'.2 = files s.2.

(** The object is as before and the trace has only been extended. *)
Definition only_acts {Self} (s s' : State Self) : Prop :=
  s'.1 = s.1 ∧ ∃ evs, trace s'.2 = trace s.2 ++ evs.

(** [credentials_received] is not taken back. *)
Definition received_kept (s s' : State Android.Sharer) : Prop :=
  (Android.credentials_received s.1 = true →
   Android.credentials_received s'.1 = true) ∧
  ∃ evs, trace s'.2 = trace s.2 ++ evs.

(** A write of the credential file was begun, nothing else done. *)
Definition wrote_store {Self} (s s' : State Self) : Prop :=
  s'.1 = s.1 ∧ trace s'.2 = trace s.2 ++ [EWrite config_file (clock s.2)].

(** The marker lines among the lines of a peer list. *)
Definition markers (lines : list string) : list string :=
  filter (λ l, is_marker l = true) lines.

(** The discovery command of the extraction fails when it is asked in
    world [w]: it cannot be started, exits with an error or takes longer
    than its ten seconds. *)
Definition discovery_fails (env : Env) (w : World) : Prop :=
  match exec env (ticks w) Android.find_argv with
  | NotStarted => True
  | Exited rc _ _ millis | Garbled rc millis => rc ≠ 0 ∨ seconds 10 < millis
  end.


(** The command lines run in a stretch of the trace, in order. *)
Definition commands (evs : list Event) : list (list string) :=
  omap (λ ev, match ev with ERun argv _ => Some argv | _ => None end) evs.

(** The credential file holds a pair neither field of which is the
    placeholder, and the flag is set. *)
Definition holds_credential (s : State WiFiDirect.Sharer) : Prop :=
  WiFiDirect.credentials_received s.1 = true ∧
  ∃ ssid password,
    files s.2 !! config_file = Some (JsonCredentials ssid password) ∧
    ssid ≠ "Unknown" ∧ password ≠ "Unknown".

(** A method either returns [True] with the credential stored, or leaves
    the object as it was. *)
Definition stored_or_same (r : Result bool) (s s' : State WiFiDirect.Sharer)
    : Prop :=
  (r = Ok true ∧ holds_credential s') ∨ s'.1 = s.1.

(** The events added hold no connect attempt, or one, to [address]. *)
Definition at_most_one_attempt {Self} (address : string) (s s' : State Self)
    : Prop :=
  ∃ evs, trace s'.2 = trace s.2 ++ evs ∧
    (attempts evs = [] ∨ attempts evs = [address]).

(** How a computation can end: with a value in [values] or an exception
    in [errors]. *)
Definition outcome {Self A} (m : M Self A) (values : A → Prop)
    (errors : Exn → Prop) : Prop :=
  ∀ s, match (m s).1 with
       | Ok a => values a
       | Raise e => errors e
       end.

Definition is_true (b : bool) : Prop := b = true.
Definition os_error (e : Exn) : Prop := e = OSError.
Definition process_or_os_error (e : Exn) : Prop :=
  e = CalledProcessError ∨ e = OSError.
Definition spawn_error (e : Exn) : Prop :=
  e = CalledProcessError ∨ e = TimeoutExpired ∨ e = OSError.

(** The error of a command that cannot be started or of a file that
    cannot be written, and the error of output that is no text. *)
Definition os_or_decode_error (e : Exn) : Prop :=
  e = OSError ∨ e = ValueError.

(** A package query that found the package. *)
Definition installed (answer : Response) : bool :=
  match answer with
  | Exited rc _ _ _ | Garbled rc _ => rc =? 0
  | NotStarted => false
  end.

(** What [wpa_cli help] must print for the Android sharer to go on; a
    [wpa_cli] that cannot be started passes, and so does one whose output
    is no text. *)
Definition p2p_supported (answer : Response) : bool :=
  match answer with
  | Exited _ out _ _ => PyStr.contains "p2p" (PyStr.lower out)
  | Garbled _ _ | NotStarted => true
  end.

Definition link_argv : list string := ["ip"; "link"; "show"; "wlan0"].

(** The query of the interface, asked in world [w], does not show it up:
    the command cannot be started, exits with an error, prints no [UP],
    or prints what is no text. *)
Definition link_not_up (env : Env) (w : World) : Prop :=
  match exec env (ticks w) link_argv with
  | NotStarted | Garbled _ _ => True
  | Exited rc out _ _ => rc ≠ 0 ∨ PyStr.contains "UP" out = false
  end.

(** ** Further scenarios *)

Module Cases.

(** The discovery command exits with an error. *)
Definition env_no_discovery : Env :=
  Scenario.env_of [(Android.find_argv, Exited 1 EmptyString EmptyString 0)].

(** A plain sharer that has seen no device yet. *)
Definition wifi_direct_start : State WiFiDirect.Sharer :=
  (WiFiDirect.mkSharer ∅ false, Scenario.fresh_world).

(** The package [bluez-tools] is not installed. *)
Definition env_no_tools : Env :=
  Scenario.env_of
    [(dpkg_argv "bluez-tools", Exited 1 EmptyString EmptyString 0)].

(** The interface [wlan0] is down. *)
Definition env_link_down : Env :=
  Scenario.env_of [(link_argv, Scenario.exits "wlan0: <BROADCAST,MULTICAST>")].

(** A device is connected and nothing has been written yet. *)
Definition gatt_connected (ssid password : string)
    : State AutoBluetooth.Sharer :=
  (AutoBluetooth.mkSharer {[Scenario.device_path]}
     (Some (AutoBluetooth.mkService ssid password ∅)) false (Some false),
   Scenario.fresh_world).

End Cases.

(** ** Notions for joining the network *)





(** ** Notions for the steps of the extraction *)

(** Step 1 of the extraction up to its look at the clock: the discovery
    command and the wait for the peers to answer. *)
Definition settle (env : Env) : M Android.Sharer unit :=
  run env Android.find_argv true (Some 10);; sleep 15.

(** The peers that step 3 goes through for the answer of [p2p_peers]: the
    parsed listing, and none when the listing is blank. *)
Definition listed (result : CompletedProcess) : list (gmap string string) :=
  if (returncode result =? 0) && PyStr.truthy (PyStr.strip (stdout result))
  then parse_android_devices (stdout result)
  else [].

(** ** Notions for the turns of the connect loop *)

(** Turns of the connect loop for the peers of a list, every one begun
    within the time limit and every one failed: the peer's attempt
    returned [False] and the debug report followed. *)
Inductive failed_turns (env : Env) (start_time : Z)
    : list (gmap string string) → State Android.Sharer
      → State Android.Sharer → Prop :=
  | failed_turns_nil s : failed_turns env start_time [] s s
  | failed_turns_cons device_info address rest s s1 s2 s3 :
      device_info !! "address" = Some address →
      in_time start_time (clock s.2) →
      Android.connect_to_android_via_wifi_direct env
        (dict_get "name" "Unknown" device_info) address s = (Ok false, s1) →
      Android.debug_android_wifi_direct_state env s1 = (Ok tt, s2) →
      failed_turns env start_time rest s2 s3 →
      failed_turns env start_time (device_info :: rest) s s3.

(** How a run of the connect loop over [tried ++ later] ended, by its
    result: the peers of [tried] are the ones it has dealt with. *)
Definition loop_ended (env : Env) (start_time : Z)
    (tried later : list (gmap string string))
    (r : Result (option bool)) (s s' : State Android.Sharer) : Prop :=
  match r with
  | Ok (Some true) =>
      ∃ before device_info address s1 s2,
        tried = before ++ [device_info] ∧
        device_info !! "address" = Some address ∧
        failed_turns env start_time before s s1 ∧
        in_time start_time (clock s1.2) ∧
        Android.connect_to_android_via_wifi_direct env
          (dict_get "name" "Unknown" device_info) address s1
        = (Ok true, s') ∧
        Android.extract_credentials_from_android_wifi_direct env s2
        = (Ok true, s')
  | Ok None => later = [] ∧ failed_turns env start_time tried s s'
  | Ok (Some false) =>
      ∃ device_info address,
        head later = Some device_info ∧
        device_info !! "address" = Some address ∧
        failed_turns env start_time tried s s' ∧
        seconds Android.timeout_seconds < clock s'.2 - start_time
  | Raise e =>
      ∃ device_info,
        e = KeyError ∧ head later = Some device_info ∧
        device_info !! "address" = None ∧
        failed_turns env start_time tried s s'
  end.

(** * Properties *)

(** ** Facts about the string primitives *)

Lemma split1_cut (c : ascii) (line : string) :
  PyStr.split1 c line =
  match cut_at_first c line with
  | Some (k, v) => [k; v]
  | None => [line]
  end.
Proof.
  induction line as [|a rest IH]; simpl; [done|].
  destruct (Ascii.eqb a c); [done|].
  rewrite IH. by destruct (cut_at_first c rest) as [[k v]|].
Qed.

Lemma contains_char_cut (c : ascii) (line : string) :
  PyStr.contains (String c EmptyString) line
  = bool_decide (is_Some (cut_at_first c line)).
Proof.
  induction line as [|a rest IH]; simpl; [done|].
  rewrite Ascii.eqb_sym. destruct (Ascii.eqb a c); simpl; [done|].
  rewrite IH. by destruct (cut_at_first c rest) as [[k v]|].
Qed.

Lemma last_cons_option {A} (x : A) (l : list A) :
  last (x :: l) = match last l with Some y => Some y | None => Some x end.
Proof. destruct l as [|y l]; [done|]. rewrite last_cons_cons. by destruct (last (y :: l)) eqn:E; [|apply last_None in E]. Qed.

Lemma parse_status_lines_spec (lines : list string) (m0 : gmap string string) :
  ∃ m, parse_status_lines lines m0 = Some m ∧
       ∀ key, m !! key = match last_binding key lines with
                         | Some v => Some v
                         | None => m0 !! key
                         end.
Proof.
  revert m0. induction lines as [|line rest IH]; intros m0; simpl.
  { by exists m0. }
  change "="%string with (String equals EmptyString).
  rewrite contains_char_cut, split1_cut.
  unfold last_binding; simpl. unfold binds at 1, binding_of.
  destruct (cut_at_first equals line) as [[k v]|]; simpl.
  -
    destruct (IH (<[PyStr.strip k := PyStr.strip v]> m0)) as (m & -> & Hm).
    exists m; split; [done|]. intros key. rewrite Hm. unfold last_binding.
    case_decide as Hk; simpl.
    + rewrite last_cons_option. subst key.
      destruct (last _); [done|]. by rewrite lookup_insert_eq.
    + destruct (last _); [done|]. by rewrite lookup_insert_ne.
  -
    apply IH.
Qed.

(** C4. Every status text parses, without an error, to the mapping in
    which each key has the value of the last line binding it; a line is
    cut at its first separator and a line without a separator binds
    nothing. *)
Theorem parse_status_last_value_wins (status : string) :
  ∃ network_info,
    parse_status status = Some network_info ∧
    ∀ key, network_info !! key
           = last_binding key (PyStr.split newline status).
Proof.
  destruct (parse_status_lines_spec (PyStr.split newline status) ∅)
    as (m & Hm & Hlook).
  exists m; split; [done|]. intros key. rewrite Hlook, lookup_empty.
  by destruct (last_binding _ _).
Qed.

(** ** The peer-list parser *)

Lemma cut_after_prefix (c : ascii) (p line : string) :
  cut_at_first c p = None →
  PyStr.startswith (p +:+ String c EmptyString) line = true →
  cut_at_first c line = Some (p, remainder (p +:+ String c EmptyString) line).
Proof.
  revert line. induction p as [|a p IH]; intros [|b line]; simpl; try done.
  - intros _. destruct (Ascii.eqb_spec c b) as [<-|]; [|done].
    by rewrite Ascii.eqb_refl.
  - destruct (Ascii.eqb_spec a b) as [<-|]; [|by intros _ ?].
    destruct (Ascii.eqb a c); [done|].
    destruct (cut_at_first c p) as [[? ?]|] eqn:Hp; [done|].
    intros _ Hs. by rewrite (IH line).
Qed.

Lemma set_field_after_prefix (p key line : string) (d : gmap string string) :
  cut_at_first equals p = None →
  PyStr.startswith (p +:+ String equals EmptyString) line = true →
  set_field key line d
  = Some (<[key := remainder (p +:+ String equals EmptyString) line]> d).
Proof.
  intros Hp Hs. unfold set_field, field_value.
  by rewrite split1_cut, (cut_after_prefix equals p line Hp Hs).
Qed.

Lemma device_line_marker (line : string) devices current_device :
  is_marker line = true →
  device_line (PyStr.strip line) devices current_device
  = (flush_device devices current_device,
     Some {["address" := remainder "dev_addr=" (PyStr.strip line)]}).
Proof.
  unfold is_marker, device_line. intros H. rewrite H.
  by rewrite (set_field_after_prefix "dev_addr" _ _ _ eq_refl H).
Qed.

Ltac case_startswith :=
  repeat match goal with
    | |- context [PyStr.startswith ?p ?l] =>
        let H := fresh "Hprefix" in destruct (PyStr.startswith p l) eqn:H
    end.

Lemma device_line_field (line : string) devices current_device :
  is_marker line = false →
  device_line (PyStr.strip line) devices current_device
  = (devices, Some (add_field current_device line)).
Proof.
  unfold is_marker, add_field, device_line. intros ->.
  case_startswith; simpl; try done.
  - by rewrite (set_field_after_prefix "dev_name" _ _ _ eq_refl Hprefix).
  - by rewrite (set_field_after_prefix "p2p_dev_addr" _ _ _ eq_refl Hprefix0).
  - by rewrite (set_field_after_prefix "p2p_go_intent" _ _ _ eq_refl Hprefix1).
  - by rewrite (set_field_after_prefix "p2p_dev_capab" _ _ _ eq_refl Hprefix2).
Qed.

Lemma add_field_address (line : string) (d : gmap string string) :
  is_marker line = false →
  add_field d line !! "address" = d !! "address".
Proof.
  unfold is_marker, add_field, device_line. intros ->.
  case_startswith; simpl; try done;
  unfold set_field; destruct (field_value _); simpl; try done;
  by rewrite lookup_insert_ne.
Qed.

Lemma foldl_add_field_address (body : list string) (d : gmap string string) :
  Forall (λ l, is_marker l = false) body →
  foldl add_field d body !! "address" = d !! "address".
Proof.
  intros Hb. revert d. induction Hb as [|l body Hl _ IH]; intros d; simpl; [done|].
  by rewrite IH, add_field_address.
Qed.

Lemma parse_device_lines_body (body rest : list string) devices current_device :
  Forall (λ l, is_marker l = false) body →
  parse_device_lines (body ++ rest) devices current_device
  = parse_device_lines rest devices (foldl add_field current_device body).
Proof.
  intros Hb. revert current_device.
  induction Hb as [|l body Hl _ IH]; intros current_device; simpl; [done|].
  by rewrite device_line_field, IH.
Qed.

Lemma flush_device_with_address devices (d : gmap string string) :
  is_Some (d !! "address") → flush_device devices d = devices ++ [d].
Proof.
  intros Hd. unfold flush_device, dict_truthy, has_key.
  rewrite !bool_decide_eq_true_2; [done..|].
  intros ->. rewrite lookup_empty in Hd. by destruct Hd.
Qed.

Lemma flush_device_without_address devices (d : gmap string string) :
  d !! "address" = None → flush_device devices d = devices.
Proof.
  intros Hd. unfold flush_device, has_key.
  rewrite (bool_decide_eq_false_2 (is_Some _)); [by rewrite andb_false_r|].
  rewrite Hd. by intros [? ?].
Qed.

Lemma device_of_group_address (g : string * list string) :
  group_ok g → is_Some (device_of_group g !! "address").
Proof.
  intros [_ Hb]. unfold device_of_group.
  rewrite foldl_add_field_address by done. rewrite lookup_singleton_eq. eauto.
Qed.

Lemma parse_device_lines_groups (groups : list (string * list string))
    devices current_device :
  Forall group_ok groups →
  ∃ devices' current',
    parse_device_lines (concat (lines_of_group <$> groups)) devices current_device
    = (devices', Some current') ∧
    flush_device devices' current'
    = flush_device devices current_device ++ (device_of_group <$> groups).
Proof.
  intros Hg. revert devices current_device.
  induction Hg as [|g groups Hg _ IH]; intros devices current_device; csimpl.
  { eexists _, _; split; [done|]. by rewrite app_nil_r. }
  destruct Hg as [Hm Hb].
  rewrite device_line_marker by done.
  rewrite parse_device_lines_body by done.
  destruct (IH (flush_device devices current_device)
              (foldl add_field {["address" := remainder "dev_addr=" (PyStr.strip g.1)]} g.2))
    as (devices' & current' & -> & Hflush).
  eexists _, _; split; [done|]. rewrite Hflush.
  rewrite flush_device_with_address
    by (apply (device_of_group_address g); by split).
  by rewrite <- app_assoc.
Qed.

Lemma lines_grouping (lines : list string) :
  ∃ pre groups,
    lines = pre ++ concat (lines_of_group <$> groups) ∧
    Forall (λ l, is_marker l = false) pre ∧
    Forall group_ok groups.
Proof.
  induction lines as [|l lines (pre & groups & -> & Hpre & Hg)].
  { by exists [], []. }
  destruct (is_marker l) eqn:Hl.
  - exists [], ((l, pre) :: groups). repeat split; try done.
    by constructor.
  - exists (l :: pre), groups. repeat split; try done. by constructor.
Qed.

(** C5. The lines of every peer-list text fall into a head without marker
    and groups, each a marker line followed by the lines up to the next
    marker; the parser returns one record per group, in order, the last
    group included. *)
Theorem parse_android_devices_groups (peers_output : string) :
  ∃ pre groups,
    PyStr.split newline (PyStr.strip peers_output)
    = pre ++ concat (lines_of_group <$> groups) ∧
    Forall (λ l, is_marker l = false) pre ∧
    Forall (λ g, is_marker g.1 = true ∧ Forall (λ l, is_marker l = false) g.2)
      groups ∧
    parse_android_devices peers_output = device_of_group <$> groups.
Proof.
  destruct (lines_grouping (PyStr.split newline (PyStr.strip peers_output)))
    as (pre & groups & Hlines & Hpre & Hg).
  exists pre, groups. repeat split; try done.
  unfold parse_android_devices. rewrite Hlines.
  rewrite parse_device_lines_body by done.
  destruct (parse_device_lines_groups groups [] (foldl add_field ∅ pre) Hg)
    as (devices' & current' & -> & ->).
  rewrite flush_device_without_address; [done|].
  by rewrite foldl_add_field_address.
Qed.

(** ** The GATT characteristics *)

Lemma ord_chr (b : Z) (c : ascii) : PyStr.chr b = Some c → PyStr.ord c = b.
Proof.
  unfold PyStr.chr, PyStr.ord. case_match eqn:Hb; [|done].
  intros [= <-]. apply andb_prop in Hb as [H0 H1].
  rewrite N_ascii_embedding by lia. lia.
Qed.

Lemma chr_in_range (b : Z) : 0 ≤ b < 256 → is_Some (PyStr.chr b).
Proof.
  intros Hb. unfold PyStr.chr.
  destruct (Z.leb_spec 0 b), (Z.ltb_spec b 256); simpl; eauto; lia.
Qed.

Lemma decode_bytes (value : list Z) :
  Forall (λ b, 0 ≤ b < 256) value →
  ∃ cs, mapM PyStr.chr value = Some cs ∧ PyStr.ord <$> cs = value.
Proof.
  intros Hv.
  assert (∃ cs, Forall2 (λ b c, PyStr.chr b = Some c) value cs) as [cs Hcs].
  { induction Hv as [|b value Hb _ [cs Hcs]]; [by exists []|].
    destruct (chr_in_range b Hb) as [c Hc]. exists (c :: cs). by constructor. }
  exists cs. split; [by apply mapM_Some|]. clear Hv.
  induction Hcs as [|b c value cs Hc _ IH]; csimpl; [done|].
  by rewrite (ord_chr b c Hc), IH.
Qed.

Lemma chars_join_chars (cs : list ascii) :
  PyStr.chars (PyStr.join_chars cs) = cs.
Proof. apply list_ascii_of_string_of_list_ascii. Qed.

(** C10. For both characteristics, writing a list of bytes (integers in
    0..255) and then reading gives back the list written; the other field
    of the service is left as it was. *)
Theorem gatt_write_then_read (value : list Z)
    (service : AutoBluetooth.WiFiCredentialService) :
  Forall (λ b, 0 ≤ b < 256) value →
  (∃ service',
     AutoBluetooth.WiFiSSIDCharacteristic.WriteValue value service = Some service'
     ∧ AutoBluetooth.WiFiSSIDCharacteristic.ReadValue service' = value
     ∧ AutoBluetooth.wifi_password service' = AutoBluetooth.wifi_password service)
  ∧
  (∃ service',
     AutoBluetooth.WiFiPasswordCharacteristic.WriteValue value service = Some service'
     ∧ AutoBluetooth.WiFiPasswordCharacteristic.ReadValue service' = value
     ∧ AutoBluetooth.wifi_ssid service' = AutoBluetooth.wifi_ssid service).
Proof.
  intros Hv. destruct (decode_bytes value Hv) as (cs & Hcs & Hord).
  unfold AutoBluetooth.WiFiSSIDCharacteristic.WriteValue,
    AutoBluetooth.WiFiSSIDCharacteristic.ReadValue,
    AutoBluetooth.WiFiPasswordCharacteristic.WriteValue,
    AutoBluetooth.WiFiPasswordCharacteristic.ReadValue.
  rewrite Hcs; csimpl.
  split; eexists; (split; [done|]); simpl; by rewrite chars_join_chars.
Qed.

Lemma gatt_write_then_read_witness :
  ∃ service',
    AutoBluetooth.WiFiSSIDCharacteristic.WriteValue [72; 111; 109; 101; 0; 255]
      AutoBluetooth.new_service = Some service'
    ∧ AutoBluetooth.WiFiSSIDCharacteristic.ReadValue service'
      = [72; 111; 109; 101; 0; 255].
Proof.
  destruct (gatt_write_then_read [72; 111; 109; 101; 0; 255]
              AutoBluetooth.new_service) as [(s & Hw & Hr & _) _].
  - repeat constructor; lia.
  - by exists s.
Defined.

(** ** Reasoning about computations *)

Lemma bind_unfold {Self A B} (m : M Self A) (k : A → M Self B) s :
  (m ≫= k) s =
  match m s with
  | (Ok a, s') => k a s'
  | (Raise e, s') => (Raise e, s')
  end.
Proof. reflexivity. Qed.

Lemma try_except_unfold {Self A} (body handler : M Self A) catches s :
  try_except body catches handler s =
  match body s with
  | (Raise e, s') => if catches e then handler s' else (Raise e, s')
  | r => r
  end.
Proof. reflexivity. Qed.

Section Stable.
Context {Self : Type}.
Implicit Types R : relation (State Self).

Lemma stable_mret R `{!Reflexive R} {A} (a : A) : stable R (mret a : M Self A).
Proof. intros s. reflexivity. Qed.

Lemma stable_raise R `{!Reflexive R} {A} e : stable R (raise e : M Self A).
Proof. intros s. reflexivity. Qed.

Lemma stable_now R `{!Reflexive R} : stable R (now : M Self Z).
Proof. intros s. reflexivity. Qed.

Lemma stable_get_self R `{!Reflexive R} : stable R (get_self : M Self Self).
Proof. intros s. reflexivity. Qed.

Lemma stable_getitem R `{!Reflexive R} k d : stable R (getitem k d : M Self string).
Proof. intros s. unfold getitem. destruct (d !! k); reflexivity. Qed.

(** Sequencing across three relations: [R1] for the first part, [R2] for
    what follows, [R3] for the whole. *)
Lemma stable_seq R1 R2 R3 {A B} (m : M Self A) (k : A → M Self B) :
  (∀ s s1 s2, R1 s s1 → R2 s1 s2 → R3 s s2) →
  (∀ s s1, R1 s s1 → R3 s s1) →
  stable R1 m → (∀ a, stable R2 (k a)) → stable R3 (m ≫= k).
Proof.
  intros Hseq Hsub Hm Hk s. rewrite bind_unfold.
  specialize (Hm s). destruct (m s) as [[a|e] s1]; simpl in *.
  - eapply Hseq; [done|]. apply Hk.
  - by apply Hsub.
Qed.

Lemma stable_bind R `{!Transitive R} {A B} (m : M Self A) (k : A → M Self B) :
  stable R m → (∀ a, stable R (k a)) → stable R (m ≫= k).
Proof. apply stable_seq; [apply transitivity | done]. Qed.

Lemma stable_try_seq R1 R2 R3 {A} (body handler : M Self A) catches :
  (∀ s s1 s2, R1 s s1 → R2 s1 s2 → R3 s s2) →
  (∀ s s1, R1 s s1 → R3 s s1) →
  stable R1 body → stable R2 handler →
  stable R3 (try_except body catches handler).
Proof.
  intros Hseq Hsub Hb Hh s. rewrite try_except_unfold.
  specialize (Hb s). destruct (body s) as [[a|e] s1]; simpl in *.
  - by apply Hsub.
  - destruct (catches e); simpl; [|by apply Hsub].
    eapply Hseq; [done|]. apply Hh.
Qed.

Lemma stable_try R `{!Transitive R} {A} (body handler : M Self A) catches :
  stable R body → stable R handler →
  stable R (try_except body catches handler).
Proof. apply stable_try_seq; [apply transitivity | done]. Qed.

(** A handler that only returns a value leaves the state of the body. *)
Lemma stable_try_mret R {A} (body : M Self A) catches (a : A) :
  stable R body → stable R (try_except body catches (mret a)).
Proof.
  intros Hb s. rewrite try_except_unfold.
  specialize (Hb s). destruct (body s) as [[a'|e] s1]; simpl in *; [done|].
  by destruct (catches e).
Qed.

Lemma stable_weaken R1 R2 {A} (m : M Self A) :
  (∀ s s', R1 s s' → R2 s s') → stable R1 m → stable R2 m.
Proof. intros HR Hm s. apply HR, Hm. Qed.

Lemma never_raises_mret {A} (a : A) : never_raises (mret a : M Self A).
Proof. intros s. by exists a. Qed.

Lemma never_raises_try {A} (body handler : M Self A) :
  never_raises handler →
  never_raises (try_except body any_exception handler).
Proof.
  intros Hh s. rewrite try_except_unfold.
  destruct (body s) as [[a|e] s1]; simpl; [by exists a|]. apply Hh.
Qed.
End Stable.

(** *** The three relations *)

#[global] Instance grows_preorder {Self} (P : Event → Prop) :
  PreOrder (@grows Self P).
Proof.
  split.
  - intros s. exists []. by rewrite app_nil_r.
  - intros s1 s2 s3 (evs1 & H1 & HP1) (evs2 & H2 & HP2).
    exists (evs1 ++ evs2). rewrite H2, H1, app_assoc. split; [done|].
    by apply Forall_app.
Qed.

#[global] Instance same_store_preorder {Self} : PreOrder (@same_store Self).
Proof. split; unfold same_store; [done|]. intros s1 s2 s3 H1 H2. by rewrite H2. Qed.

#[global] Instance same_devices_preorder : PreOrder same_devices.
Proof. split; unfold same_devices; [done|]. intros s1 s2 s3 H1 H2. by rewrite H2. Qed.

Lemma grows_weaken {Self} (P Q : Event → Prop) (s s' : State Self) :
  (∀ ev, P ev → Q ev) → grows P s s' → grows Q s s'.
Proof. intros HPQ (evs & H & HP). exists evs. split; [done|]. by eapply Forall_impl. Qed.

(** Every way a command can end. *)
Ltac run_cases :=
  unfold run, run_text, finished, checked;
  match goal with
  | |- context [exec ?env ?n ?argv] =>
      destruct (exec env n argv) as [? ? ? ?|? ?|]
  end;
  try done; repeat case_match; try done.

Section PrimitiveSteps.
Context {Self : Type}.
Variable env : Env.

Lemma run_trace argv check timeout (s : State Self) :
  trace (run env argv check timeout s).2.2
  = trace s.2 ++ [ERun argv (clock s.2)].
Proof. run_cases. Qed.

Lemma run_text_trace argv check timeout (s : State Self) :
  trace (run_text env argv check timeout s).2.2
  = trace s.2 ++ [ERun argv (clock s.2)].
Proof. run_cases. Qed.

Lemma grows_run (P : Event → Prop) argv check timeout :
  (∀ t, P (ERun argv t)) →
  stable (@grows Self P) (run env argv check timeout).
Proof.
  intros HP s. exists [ERun argv (clock s.2)]. split; [apply run_trace|].
  by constructor.
Qed.

Lemma grows_run_text (P : Event → Prop) argv check timeout :
  (∀ t, P (ERun argv t)) →
  stable (@grows Self P) (run_text env argv check timeout).
Proof.
  intros HP s. exists [ERun argv (clock s.2)]. split; [apply run_text_trace|].
  by constructor.
Qed.

Lemma starts_run (P : Event → Prop) argv check timeout :
  stable (@starts Self argv P) (run env argv check timeout).
Proof. intros s. exists []. split; [apply run_trace|]. constructor. Qed.

Lemma starts_run_text (P : Event → Prop) argv check timeout :
  stable (@starts Self argv P) (run_text env argv check timeout).
Proof. intros s. exists []. split; [apply run_text_trace|]. constructor. Qed.

Lemma grows_sleep (P : Event → Prop) secs :
  (∀ t, P (ESleep secs t)) → stable (@grows Self P) (sleep secs).
Proof. intros HP s. exists [ESleep secs (clock s.2)]. split; [done|]. by constructor. Qed.

Lemma grows_write_file (P : Event → Prop) path content :
  (∀ t, P (EWrite path t)) →
  stable (@grows Self P) (write_file env path content).
Proof.
  intros HP s. exists [EWrite path (clock s.2)]. split; [|by constructor].
  unfold write_file. by destruct (fwrite env _ path).
Qed.

Lemma grows_modify_self (P : Event → Prop) f :
  stable (@grows Self P) (modify_self f).
Proof. intros s. exists []. simpl. by rewrite app_nil_r. Qed.

Lemma same_store_run argv check timeout :
  stable (@same_store Self) (run env argv check timeout).
Proof. intros s. unfold same_store. run_cases. Qed.

Lemma same_store_run_text argv check timeout :
  stable (@same_store Self) (run_text env argv check timeout).
Proof. intros s. unfold same_store. run_cases. Qed.

Lemma same_store_sleep secs : stable (@same_store Self) (sleep secs).
Proof. by intros s. Qed.

Lemma same_store_modify_self f : stable (@same_store Self) (modify_self f).
Proof. by intros s. Qed.

Lemma same_store_write_file path content :
  path ≠ config_file →
  stable (@same_store Self) (write_file env path content).
Proof.
  intros Hp s. unfold same_store, write_file.
  destruct (fwrite env _ path); simpl; try done; by rewrite lookup_insert_ne.
Qed.
End PrimitiveSteps.

Section PrimitiveDevices.
Variable env : Env.

Lemma same_devices_run argv check timeout :
  stable same_devices (run env argv check timeout).
Proof. intros s. unfold same_devices. run_cases. Qed.

Lemma same_devices_run_text argv check timeout :
  stable same_devices (run_text env argv check timeout).
Proof. intros s. unfold same_devices. run_cases. Qed.

Lemma same_devices_sleep secs : stable same_devices (sleep secs).
Proof. by intros s. Qed.

Lemma same_devices_write_file path content :
  stable same_devices (write_file env path content).
Proof. intros s. unfold same_devices, write_file. by destruct (fwrite env _ path). Qed.

Lemma same_devices_set_received b :
  stable same_devices (modify_self (Android.set_received b)).
Proof. by intros s. Qed.
End PrimitiveDevices.

(** ** Footprints of the methods *)

Create HintDb stable discriminated.

Ltac event_ok :=
  intros; first [ exact I | reflexivity | split; reflexivity | by vm_compute ].

Ltac stable_step :=
  match goal with
  | |- stable _ (mret _) => apply stable_mret; tc_solve
  | |- stable _ (raise _) => apply stable_raise; tc_solve
  | |- stable _ now => apply stable_now; tc_solve
  | |- stable _ get_self => apply stable_get_self; tc_solve
  | |- stable _ (getitem _ _) => apply stable_getitem; tc_solve
  | |- stable _ (_ ≫= _) => apply stable_bind; [tc_solve | | intros ?]
  | |- stable _ (try_except _ _ _) => apply stable_try; [tc_solve | |]
  | |- stable (grows _) (run _ _ _ _) => apply grows_run; event_ok
  | |- stable (grows _) (run_text _ _ _ _) => apply grows_run_text; event_ok
  | |- stable (grows _) (sleep _) => apply grows_sleep; event_ok
  | |- stable (grows _) (write_file _ _ _) => apply grows_write_file; event_ok
  | |- stable (grows _) (modify_self _) => apply grows_modify_self
  | |- stable same_store (run _ _ _ _) => apply same_store_run
  | |- stable same_store (run_text _ _ _ _) => apply same_store_run_text
  | |- stable same_store (sleep _) => apply same_store_sleep
  | |- stable same_store (write_file _ _ _) => apply same_store_write_file; done
  | |- stable same_store (modify_self _) => apply same_store_modify_self
  | |- stable same_devices (run _ _ _ _) => apply same_devices_run
  | |- stable same_devices (run_text _ _ _ _) => apply same_devices_run_text
  | |- stable same_devices (sleep _) => apply same_devices_sleep
  | |- stable same_devices (write_file _ _ _) => apply same_devices_write_file
  | |- stable same_devices (modify_self (Android.set_received _)) =>
      apply same_devices_set_received
  | |- stable _ (if ?b then _ else _) => destruct b
  | |- stable _ (match ?x with _ => _ end) => destruct x
  | |- stable _ _ => solve [eauto with stable]
  end.

Ltac stable_auto := repeat stable_step.

Lemma starts_then_grows {Self} argv (P : Event → Prop) (s s1 s2 : State Self) :
  starts argv P s s1 → grows P s1 s2 → starts argv P s s2.
Proof.
  intros (rest & H1 & HP1) (evs & H2 & HP2). exists (rest ++ evs).
  rewrite H2, H1, <- app_assoc. split; [done|]. by apply Forall_app.
Qed.

Lemma now_bind {Self B} (k : Z → M Self B) (s : State Self) :
  (now ≫= k) s = k (clock s.2) s.
Proof. reflexivity. Qed.

Lemma mret_unfold {Self A} (a : A) (s : State Self) :
  (mret a : M Self A) s = (Ok a, s).
Proof. reflexivity. Qed.

Lemma mret_bind {Self A B} (a : A) (k : A → M Self B) (s : State Self) :
  (mret a ≫= k) s = k a s.
Proof. reflexivity. Qed.

Lemma plain_loop_event t0 ev : plain ev → loop_event t0 ev.
Proof. intros [Ha Hs]. split; [done|]. intros a t. by rewrite Ha. Qed.

Lemma plain_no_attempt ev : plain ev → no_attempt ev.
Proof. by intros [Ha _]. Qed.

Lemma timed_attempts_app evs1 evs2 :
  timed_attempts (evs1 ++ evs2) = timed_attempts evs1 ++ timed_attempts evs2.
Proof. apply omap_app. Qed.

Lemma timed_attempts_loop t0 evs :
  Forall (loop_event t0) evs →
  Forall (λ p, in_time t0 p.2) (timed_attempts evs).
Proof.
  induction 1 as [|ev evs [_ Hev] _ IH]; [constructor|].
  unfold timed_attempts; simpl. destruct (attempted ev) as [[a t]|] eqn:Ha; [|done].
  constructor; [|done]. by apply (Hev a t).
Qed.

Lemma timed_attempts_none evs :
  Forall no_attempt evs → timed_attempts evs = [].
Proof.
  induction 1 as [|ev evs Hev _ IH]; [done|].
  unfold timed_attempts; simpl. by rewrite Hev.
Qed.

Lemma first_service_request_app evs1 evs2 :
  Forall (λ ev, is_service_request ev = false) evs1 →
  first_service_request (evs1 ++ evs2) = first_service_request evs2.
Proof. induction 1 as [|ev evs Hev _ IH]; simpl; [done|]. by rewrite Hev. Qed.

Lemma checked_run_refl {Self} t0 (s : State Self) : checked_run t0 s s.
Proof. exists []. rewrite app_nil_r. repeat split; [constructor|done]. Qed.

Lemma loop_then_checked {Self} t0 (s s1 s2 : State Self) :
  grows (loop_event t0) s s1 → checked_run t0 s1 s2 → checked_run t0 s s2.
Proof.
  intros (evs1 & H1 & Hloop) (evs2 & H2 & Hatt & Hreq).
  exists (evs1 ++ evs2). rewrite H2, H1, <- app_assoc. repeat split.
  - rewrite timed_attempts_app. apply Forall_app. split; [|done].
    by apply timed_attempts_loop.
  - rewrite first_service_request_app; [done|].
    eapply Forall_impl; [done|]. by intros ev [? _].
Qed.

Lemma loop_checked {Self} t0 (s s1 : State Self) :
  grows (loop_event t0) s s1 → checked_run t0 s s1.
Proof. intros H. eapply loop_then_checked; [done|]. apply checked_run_refl. Qed.

Lemma service_request_checked {Self} t0 a (s s1 : State Self) :
  in_time t0 (clock s.2) →
  starts (service_request_argv a) no_attempt s s1 → checked_run t0 s s1.
Proof.
  intros Ht (rest & H & Hrest). eexists. split; [done|]. split.
  - rewrite (timed_attempts_none (_ :: _)); constructor; done.
  - by intros t [= <-].
Qed.

Section AndroidFootprints.
Variable env : Env.

(** *** Steps 1 to 3: neither connect attempts nor service requests,
    but for the connect command itself *)

Lemma check_wifi_connection_plain :
  stable (grows plain) (Android.check_wifi_connection env).
Proof. unfold Android.check_wifi_connection. stable_auto. Qed.
#[local] Hint Resolve check_wifi_connection_plain : stable.

Lemma connect_to_extracted_network_plain ssid password :
  stable (grows plain) (Android.connect_to_extracted_network env ssid password).
Proof. unfold Android.connect_to_extracted_network. stable_auto. Qed.
#[local] Hint Resolve connect_to_extracted_network_plain : stable.

Lemma extract_android_network_credentials_plain status :
  stable (grows plain) (Android.extract_android_network_credentials env status).
Proof. unfold Android.extract_android_network_credentials. stable_auto. Qed.
#[local] Hint Resolve extract_android_network_credentials_plain : stable.

Lemma extract_credentials_plain :
  stable (grows plain) (Android.extract_credentials_from_android_wifi_direct env).
Proof. unfold Android.extract_credentials_from_android_wifi_direct. stable_auto. Qed.
#[local] Hint Resolve extract_credentials_plain : stable.

Lemma check_connection_plain :
  stable (grows plain) (Android.check_android_wifi_direct_connection env).
Proof. unfold Android.check_android_wifi_direct_connection. stable_auto. Qed.
#[local] Hint Resolve check_connection_plain : stable.

Lemma wait_for_connection_plain n :
  stable (grows plain) (Android.wait_for_connection env n).
Proof. induction n; simpl; stable_auto. Qed.
#[local] Hint Resolve wait_for_connection_plain : stable.

Lemma debug_state_plain :
  stable (grows plain) (Android.debug_android_wifi_direct_state env).
Proof. unfold Android.debug_android_wifi_direct_state. stable_auto. Qed.
#[local] Hint Resolve debug_state_plain : stable.

Lemma connect_starts device_name device_address :
  stable (starts (Android.connect_argv device_address) plain)
    (Android.connect_to_android_via_wifi_direct env device_name device_address).
Proof.
  unfold Android.connect_to_android_via_wifi_direct.
  apply stable_try_mret.
  apply (stable_seq (starts (Android.connect_argv device_address) plain)
           (grows plain)); [apply starts_then_grows | done | apply starts_run_text |].
  intros result. stable_auto.
Qed.

Lemma attempt_in_time t0 a (s s1 : State Android.Sharer) :
  in_time t0 (clock s.2) →
  starts (Android.connect_argv a) plain s s1 → grows (loop_event t0) s s1.
Proof.
  intros Ht (rest & H & Hrest). exists (ERun (Android.connect_argv a) (clock s.2) :: rest).
  split; [done|]. constructor.
  - split; [done|]. by intros a' t [= _ <-].
  - eapply Forall_impl; [done|]. apply plain_loop_event.
Qed.

Lemma connect_loop_events t0 devices :
  stable (grows (loop_event t0)) (Android.connect_loop env t0 devices).
Proof.
  induction devices as [|device_info rest IH]; simpl; [stable_auto|].
  intros s. unfold getitem. rewrite bind_unfold.
  destruct (device_info !! "address") as [address|]; simpl; [|reflexivity].
  rewrite now_bind.
  destruct (Z.gtb_spec (clock s.2 - t0) (seconds Android.timeout_seconds))
    as [Hlate|Hok]; [reflexivity|].
  rewrite bind_unfold.
  pose proof (connect_starts (dict_get "name" "Unknown" device_info) address s)
    as Hstarts.
  apply (attempt_in_time t0) in Hstarts; [|done].
  destruct (Android.connect_to_android_via_wifi_direct _ _ _ _)
    as [[[]|e] s1]; simpl in *; try done.
  etrans; [done|].
  assert (stable (grows (loop_event t0))
            (Android.debug_android_wifi_direct_state env;;
             Android.connect_loop env t0 rest)) as Hnext; [|apply Hnext].
  apply stable_bind; [tc_solve| |done].
  apply (stable_weaken (grows plain)); [|apply debug_state_plain].
  intros ??. apply grows_weaken, plain_loop_event.
Qed.

(** *** Step 4: no connect attempts *)

Lemma service_responses_no_attempt :
  stable (grows no_attempt) (Android.check_for_android_service_responses env).
Proof. unfold Android.check_for_android_service_responses. stable_auto. Qed.
#[local] Hint Resolve service_responses_no_attempt : stable.

Lemma group_status_no_attempt :
  stable (grows no_attempt) (Android.check_android_group_status env).
Proof. unfold Android.check_android_group_status. stable_auto. Qed.
#[local] Hint Resolve group_status_no_attempt : stable.

Lemma check_sources_no_attempt sources :
  Forall (λ argv, ∀ t, no_attempt (ERun argv t)) sources →
  stable (grows no_attempt) (Android.check_sources env sources).
Proof.
  induction 1 as [|source rest Hsource _ IH]; simpl; [stable_auto|].
  apply stable_bind; [tc_solve| |intros []; stable_auto].
  apply stable_try_mret.
  apply stable_bind; [tc_solve|by apply grows_run_text|intros ?; stable_auto].
Qed.

Lemma network_info_no_attempt :
  stable (grows no_attempt) (Android.check_for_android_network_info env).
Proof.
  unfold Android.check_for_android_network_info. apply stable_try_mret.
  apply check_sources_no_attempt. by repeat constructor.
Qed.
#[local] Hint Resolve network_info_no_attempt : stable.

Lemma direct_extraction_no_attempt device_name device_address :
  stable (grows no_attempt)
    (Android.direct_android_extraction env device_name device_address).
Proof. unfold Android.direct_android_extraction. stable_auto. Qed.
#[local] Hint Resolve direct_extraction_no_attempt : stable.

Lemma specific_methods_start device_name device_address :
  stable (starts (service_request_argv device_address) no_attempt)
    (Android.try_android_specific_methods env device_name device_address).
Proof.
  unfold Android.try_android_specific_methods.
  apply stable_try_mret.
  apply (stable_seq (starts (service_request_argv device_address) no_attempt)
           (grows no_attempt)); [apply starts_then_grows | done | apply starts_run_text |].
  intros result. stable_auto.
Qed.

(** *** The whole run *)

Lemma specific_methods_checked t0 device_name device_address :
  stable (checked_run t0)
    (t ← now;
     if t - t0 >? seconds Android.timeout_seconds then mret false
     else
       found ← Android.try_android_specific_methods env device_name
                 device_address;
       if (found : bool) then mret true else mret false).
Proof.
  intros s. rewrite now_bind.
  destruct (Z.gtb_spec (clock s.2 - t0) (seconds Android.timeout_seconds))
    as [Hlate|Hok]; [apply checked_run_refl|].
  apply (service_request_checked t0 device_address); [done|].
  assert (stable (starts (service_request_argv device_address) no_attempt)
            (found ← Android.try_android_specific_methods env device_name
                       device_address;
             if (found : bool) then mret true else mret false)) as H;
    [|apply H].
  apply (stable_seq (starts (service_request_argv device_address) no_attempt)
           (grows no_attempt));
    [apply starts_then_grows | done | apply specific_methods_start |].
  intros []; stable_auto.
Qed.

Lemma extract_checked device_name device_address (s : State Android.Sharer) :
  checked_run (clock s.2) s
    (Android.extract_wifi_credentials_from_android env device_name
       device_address s).2.
Proof.
  unfold Android.extract_wifi_credentials_from_android,
    Android.extraction_from. rewrite now_bind.
  generalize (clock s.2) as t0. intros t0. revert s.
  apply stable_try_mret.
  apply (stable_seq (grows (loop_event t0)) (checked_run t0));
    [apply loop_then_checked | apply loop_checked | |].
  { apply stable_try_mret.
    apply (stable_weaken (grows plain));
      [intros ??; apply grows_weaken, plain_loop_event|].
    stable_auto. }
  intros [b|]; [intros s; apply checked_run_refl|].
  apply (stable_seq (grows (loop_event t0)) (checked_run t0));
    [apply loop_then_checked | apply loop_checked | |].
  { apply grows_run_text. intros t. by apply plain_loop_event. }
  intros result.
  apply (stable_seq (grows (loop_event t0)) (checked_run t0));
    [apply loop_then_checked | apply loop_checked | |].
  { destruct (_ && _); [apply connect_loop_events|stable_auto]. }
  intros [b|]; [intros s; apply checked_run_refl|].
  apply specific_methods_checked.
Qed.
End AndroidFootprints.

(** ** Methods that catch every exception *)

Lemma never_raises_bind {Self A B} (m : M Self A) (k : A → M Self B) :
  never_raises m → (∀ a, never_raises (k a)) → never_raises (m ≫= k).
Proof.
  intros Hm Hk s. rewrite bind_unfold. destruct (Hm s) as [a Ha].
  destruct (m s) as [[a'|e] s1]; simpl in *; [apply Hk|done].
Qed.

Lemma never_raises_sleep {Self} secs : never_raises (sleep secs : M Self unit).
Proof. intros s. by exists tt. Qed.

Lemma never_raises_run {Self A} (m : M Self A) (s : State Self) :
  never_raises m → ∃ a, m s = (Ok a, (m s).2).
Proof. intros Hm. destruct (Hm s) as [a Ha]. exists a. by destruct (m s) as [[] ?]; simplify_eq/=. Qed.

Section AndroidTotal.
Variable env : Env.

Lemma check_connection_never_raises :
  never_raises (Android.check_android_wifi_direct_connection env).
Proof. apply never_raises_try, never_raises_mret. Qed.

Lemma extract_credentials_never_raises :
  never_raises (Android.extract_credentials_from_android_wifi_direct env).
Proof. apply never_raises_try, never_raises_mret. Qed.

Lemma connect_never_raises device_name device_address :
  never_raises
    (Android.connect_to_android_via_wifi_direct env device_name device_address).
Proof. apply never_raises_try, never_raises_mret. Qed.

Lemma debug_never_raises :
  never_raises (Android.debug_android_wifi_direct_state env).
Proof. apply never_raises_try, never_raises_mret. Qed.


Lemma extract_never_raises device_name device_address :
  never_raises
    (Android.extract_wifi_credentials_from_android env device_name
       device_address).
Proof.
  intros s. unfold Android.extract_wifi_credentials_from_android,
    Android.extraction_from.
  rewrite now_bind. apply never_raises_try, never_raises_mret.
Qed.

Lemma on_device_connected_never_raises path interfaces :
  never_raises (Android.on_device_connected env path interfaces).
Proof. apply never_raises_try, never_raises_mret. Qed.

Lemma on_device_disconnected_never_raises path interfaces :
  never_raises (Android.on_device_disconnected path interfaces).
Proof. apply never_raises_try, never_raises_mret. Qed.

Lemma poll_once_never_raises : never_raises (poll_once env).
Proof.
  apply never_raises_bind; [apply never_raises_sleep|].
  intros _. apply check_connection_never_raises.
Qed.
End AndroidTotal.

(** ** The polling loop *)

Section Polling.
Variable env : Env.

Lemma wait_for_connection_step n (s : State Android.Sharer) :
  Android.wait_for_connection env (S n) s =
  match poll_once env s with
  | (Ok true, s1) => Android.extract_credentials_from_android_wifi_direct env s1
  | (Ok false, s1) => Android.wait_for_connection env n s1
  | (Raise e, s1) => (Raise e, s1)
  end.
Proof.
  simpl. unfold poll_once. rewrite !bind_unfold. simpl.
  rewrite bind_unfold.
  by destruct (Android.check_android_wifi_direct_connection env _)
    as [[[]|e] s1].
Qed.

Lemma wait_for_connection_polls n (s : State Android.Sharer) :
  (∃ k s1 s2,
     (k < n)%nat ∧ failed_polls env k s s1 ∧
     poll_once env s1 = (Ok true, s2) ∧
     Android.wait_for_connection env n s
     = Android.extract_credentials_from_android_wifi_direct env s2)
  ∨ (∃ s', failed_polls env n s s' ∧
           Android.wait_for_connection env n s = (Ok false, s')).
Proof.
  revert s. induction n as [|n IH]; intros s.
  { right. exists s. split; [constructor|done]. }
  rewrite wait_for_connection_step.
  destruct (never_raises_run (poll_once env) s (poll_once_never_raises env))
    as [b Hpoll].
  rewrite Hpoll. destruct b.
  - left. exists 0%nat, s, (poll_once env s).2.
    repeat split; [lia|constructor|done].
  - destruct (IH (poll_once env s).2)
      as [(k & s1 & s2 & Hk & Hfail & Hlast & Hwait)|(s' & Hfail & Hwait)].
    + left. exists (S k), s1, s2. repeat split; [lia| |done..].
      by econstructor.
    + right. exists s'. split; [|done]. by econstructor.
Qed.

Lemma run_text_clock argv check timeout (s : State Android.Sharer) :
  clock s.2 ≤ clock (run_text env argv check timeout s).2.2.
Proof.
  unfold run_text, finished.
  destruct (exec env _ argv) as [rc out err millis|rc millis|]; [| |done];
    destruct timeout as [t|]; repeat case_match; unfold seconds; simpl; lia.
Qed.

Lemma check_connection_clock (s : State Android.Sharer) :
  clock s.2 ≤ clock (Android.check_android_wifi_direct_connection env s).2.2.
Proof.
  unfold Android.check_android_wifi_direct_connection.
  rewrite try_except_unfold, bind_unfold.
  pose proof (run_text_clock Android.status_argv true None s) as Hrun.
  destruct (run_text env Android.status_argv true None s) as [[result|e] s1];
    simpl in *; [|done].
  repeat (match goal with |- context [if ?b then _ else _] => destruct b end); done.
Qed.

Lemma poll_once_clock (s : State Android.Sharer) :
  clock s.2 + seconds 1 ≤ clock (poll_once env s).2.2.
Proof.
  unfold poll_once. rewrite bind_unfold. simpl.
  etrans; [|apply check_connection_clock]. simpl. unfold seconds. lia.
Qed.

Lemma failed_polls_clock n (s s' : State Android.Sharer) :
  failed_polls env n s s' → clock s.2 + seconds (Z.of_nat n) ≤ clock s'.2.
Proof.
  induction 1 as [s|n s s1 s2 Hpoll _ IH]; [unfold seconds; simpl; lia|].
  pose proof (poll_once_clock s) as Hclock. rewrite Hpoll in Hclock.
  simpl in Hclock. unfold seconds in *. lia.
Qed.

Lemma run_checked_ok argv timeout (s s' : State Android.Sharer) result :
  run_text env argv true timeout s = (Ok result, s') → returncode result = 0.
Proof.
  unfold run_text, finished, checked.
  destruct (exec env _ argv) as [rc out err millis|rc millis|]; [| |done];
    destruct timeout as [t|]; repeat case_match; try done;
    intros [= <- _]; simpl; destruct (Z.eqb_spec rc 0); done.
Qed.

Lemma wait_for_connection_never_raises n :
  never_raises (Android.wait_for_connection env n).
Proof.
  induction n as [|n IH]; intros s; [by exists false|].
  rewrite wait_for_connection_step.
  destruct (never_raises_run (poll_once env) s (poll_once_never_raises env))
    as [b ->].
  destruct b; [apply extract_credentials_never_raises|apply IH].
Qed.

Lemma connect_accepted device_name device_address
    (s s0 : State Android.Sharer) result :
  run_text env (Android.connect_argv device_address) true None s = (Ok result, s0) →
  Android.connect_to_android_via_wifi_direct env device_name device_address s
  = Android.wait_for_connection env Android.poll_iterations s0.
Proof.
  intros Hrun. unfold Android.connect_to_android_via_wifi_direct.
  rewrite try_except_unfold, bind_unfold, Hrun.
  rewrite (run_checked_ok _ _ _ _ _ Hrun), Z.eqb_refl.
  destruct (never_raises_run _ s0
              (wait_for_connection_never_raises Android.poll_iterations))
    as [b ->]. done.
Qed.
End Polling.

(** C9. After an accepted connect request the status is polled after each
    one-second sleep, at most 45 times: either some poll among the first 45
    is the first to report a connection, and the attempt then is the
    credential extraction from the state that poll left; or 45 polls fail,
    at least 45 seconds have passed, and the attempt returns [False]. *)
Theorem connect_polls_at_most_45_times (env : Env)
    (device_name device_address : string)
    (s s0 : State Android.Sharer) (result : CompletedProcess) :
  run_text env (Android.connect_argv device_address) true None s = (Ok result, s0) →
  Android.poll_iterations = 45%nat ∧
  ((∃ k s1 s2,
      (k < 45)%nat ∧ failed_polls env k s0 s1 ∧
      poll_once env s1 = (Ok true, s2) ∧
      Android.connect_to_android_via_wifi_direct env device_name device_address s
      = Android.extract_credentials_from_android_wifi_direct env s2)
   ∨ (∃ s',
        failed_polls env 45 s0 s' ∧
        clock s0.2 + seconds 45 ≤ clock s'.2 ∧
        Android.connect_to_android_via_wifi_direct env device_name device_address s
        = (Ok false, s'))).
Proof.
  intros Hrun. split; [done|].
  rewrite (connect_accepted env _ _ _ _ _ Hrun).
  change Android.poll_iterations with 45%nat.
  destruct (wait_for_connection_polls env 45 s0)
    as [(k & s1 & s2 & Hk & Hfail & Hlast & Hwait)|(s' & Hfail & Hwait)].
  - left. by exists k, s1, s2.
  - right. exists s'. repeat split; [done| |done].
    by apply (failed_polls_clock env 45).
Qed.

Lemma connect_polls_at_most_45_times_witness :
  ∃ result s0,
    run_text Scenario.env_no_group (Android.connect_argv "aa:aa") true None
      Scenario.android_start = (Ok result, s0) ∧
    Android.poll_iterations = 45%nat ∧
    ((∃ k s1 s2,
        (k < 45)%nat ∧ failed_polls Scenario.env_no_group k s0 s1 ∧
        poll_once Scenario.env_no_group s1 = (Ok true, s2) ∧
        Android.connect_to_android_via_wifi_direct Scenario.env_no_group
          "A" "aa:aa" Scenario.android_start
        = Android.extract_credentials_from_android_wifi_direct
            Scenario.env_no_group s2)
     ∨ (∃ s',
          failed_polls Scenario.env_no_group 45 s0 s' ∧
          clock s0.2 + seconds 45 ≤ clock s'.2 ∧
          Android.connect_to_android_via_wifi_direct Scenario.env_no_group
            "A" "aa:aa" Scenario.android_start
          = (Ok false, s'))).
Proof.
  eexists _, _. split; [reflexivity|].
  eapply (connect_polls_at_most_45_times Scenario.env_no_group "A" "aa:aa"
            Scenario.android_start).
  reflexivity.
Defined.

(** ** The connect loop *)

Lemma attempts_app evs1 evs2 : attempts (evs1 ++ evs2) = attempts evs1 ++ attempts evs2.
Proof. unfold attempts. by rewrite timed_attempts_app, fmap_app. Qed.

Lemma attempts_plain evs : Forall plain evs → attempts evs = [].
Proof.
  intros H. unfold attempts. rewrite timed_attempts_none; [done|].
  eapply Forall_impl; [done|]. apply plain_no_attempt.
Qed.

Lemma attempts_connect a t rest :
  Forall plain rest → attempts (ERun (Android.connect_argv a) t :: rest) = [a].
Proof.
  intros H. change (_ :: rest) with ([ERun (Android.connect_argv a) t] ++ rest).
  by rewrite attempts_app, (attempts_plain rest).
Qed.

Section ConnectLoop.
Variable env : Env.

Lemma connect_true_extracted device_name device_address
    (s s' : State Android.Sharer) :
  Android.connect_to_android_via_wifi_direct env device_name device_address s
  = (Ok true, s') →
  ∃ s2, Android.extract_credentials_from_android_wifi_direct env s2
        = (Ok true, s').
Proof.
  destruct (run_text env (Android.connect_argv device_address) true None s)
    as [[result|e] s0] eqn:Hrun.
  - rewrite (connect_accepted env _ _ _ _ _ Hrun).
    destruct (wait_for_connection_polls env Android.poll_iterations s0)
      as [(k & s1 & s2 & _ & _ & _ & ->)|(s1 & _ & ->)]; [|done].
    intros H. by exists s2.
  - unfold Android.connect_to_android_via_wifi_direct.
    by rewrite try_except_unfold, bind_unfold, Hrun.
Qed.

Lemma connect_loop_turns t0 devices (s : State Android.Sharer) :
  let r := (Android.connect_loop env t0 devices s).1 in
  let s' := (Android.connect_loop env t0 devices s).2 in
  ∃ evs tried later,
    devices = tried ++ later ∧
    trace s'.2 = trace s.2 ++ evs ∧
    Some <$> attempts evs = (λ d, d !! "address") <$> tried ∧
    loop_ended env t0 tried later r s s'.
Proof.
  revert s. induction devices as [|d rest IH]; intros s; simpl.
  { exists [], [], []. split; [done|split; [by rewrite app_nil_r|split; [done|]]].
    split; [done|constructor]. }
  unfold getitem. rewrite bind_unfold.
  destruct (d !! "address") as [a|] eqn:Ha; simpl.
  2:{ exists [], [], (d :: rest).
      split; [done|split; [by rewrite app_nil_r|split; [done|]]].
      exists d. split_and!; try done. constructor. }
  rewrite now_bind.
  destruct (Z.gtb_spec (clock s.2 - t0) (seconds Android.timeout_seconds))
    as [Hlate|Hok]; simpl.
  { exists [], [], (d :: rest).
    split; [done|split; [by rewrite app_nil_r|split; [done|]]].
    exists d, a. split_and!; try done. constructor. }
  rewrite bind_unfold.
  pose proof (connect_starts env (dict_get "name" "Unknown" d) a s)
    as (evs1 & Htrace1 & Hplain1).
  destruct (never_raises_run _ s (connect_never_raises env
              (dict_get "name" "Unknown" d) a)) as [b Hconnect].
  rewrite Hconnect in *. simpl in Htrace1.
  set (s1 := (Android.connect_to_android_via_wifi_direct env _ a s).2) in *.
  destruct b; simpl.
  { exists (ERun (Android.connect_argv a) (clock s.2) :: evs1), [d], rest.
    rewrite attempts_connect by done. simpl. rewrite Ha.
    split_and!; try done.
    destruct (connect_true_extracted _ _ _ _ Hconnect) as [s2 Hs2].
    exists [], d, a, s, s2. split_and!; try done. constructor. }
  rewrite bind_unfold.
  pose proof (debug_state_plain env s1) as (evs2 & Htrace2 & Hplain2).
  destruct (never_raises_run _ s1 (debug_never_raises env)) as [[] Hdebug].
  rewrite Hdebug in *. simpl in Htrace2.
  set (s2 := (Android.debug_android_wifi_direct_state env s1).2) in *.
  destruct (IH s2) as (evs3 & tried & later & Hsplit & Htrace3 & Hatt & Hend).
  assert (∀ s3, failed_turns env t0 tried s2 s3 →
                failed_turns env t0 (d :: tried) s s3) as Hcons.
  { intros s3 Hturns. by apply (failed_turns_cons env t0 d a tried s s1 s2). }
  exists ((ERun (Android.connect_argv a) (clock s.2) :: evs1) ++ evs2 ++ evs3),
    (d :: tried), later.
  split_and!.
  - by rewrite Hsplit.
  - rewrite Htrace3, Htrace2, Htrace1. by rewrite <- !app_assoc.
  - rewrite !attempts_app, attempts_connect, (attempts_plain evs2) by done.
    csimpl. by rewrite Ha, Hatt.
  - unfold loop_ended in *.
    destruct (Android.connect_loop env t0 rest s2) as [[[[|]|]|e] s3];
      simpl in *.
    + destruct Hend as (before & d' & a' & s4 & s5 & -> & Ha' & Hturns
                        & Htime & Hc & Hx).
      exists (d :: before), d', a', s4, s5. split_and!; try done.
      by apply (failed_turns_cons env t0 d a before s s1 s2).
    + destruct Hend as (d' & a' & Hhead & Ha' & Hturns & Hlate).
      exists d', a'. split_and!; try done. by apply Hcons.
    + destruct Hend as [-> Hturns]. split; [done|]. by apply Hcons.
    + destruct Hend as (d' & -> & Hhead & Ha' & Hturns).
      exists d'. split_and!; try done. by apply Hcons.
Qed.
End ConnectLoop.

(** C3, as the code has it. A run of the connect loop splits the list of
    discovered peers into the peers it has dealt with and the peers left;
    its connect commands are those of the peers dealt with, in list order
    and once each. Every peer dealt with but the last that returned [True]
    had its turn begun within the time limit and its attempt returned
    [False], after which the next turn followed. When the loop returns
    [True], the last peer dealt with is the first whose attempt returned
    [True], which it does only when the credential extraction that follows
    an established connection returned [True]; the loop ends in the state
    that attempt left, so no later peer is attempted. When the loop runs
    out, every peer has been attempted and has failed. It returns [False]
    early only when the time limit has passed at the head of the turn of a
    peer left, and it raises only at a record without address. *)
Theorem connect_loop_stops_at_first_success (env : Env) (start_time : Z)
    (devices : list (gmap string string))
    (s s' : State Android.Sharer) (r : Result (option bool)) :
  Android.connect_loop env start_time devices s = (r, s') →
  ∃ evs tried later,
    devices = tried ++ later ∧
    trace s'.2 = trace s.2 ++ evs ∧
    Some <$> attempts evs = (λ d, d !! "address") <$> tried ∧
    match r with
    | Ok (Some true) =>
        ∃ before device_info address s1 s2,
          tried = before ++ [device_info] ∧
          device_info !! "address" = Some address ∧
          failed_turns env start_time before s s1 ∧
          clock s1.2 - start_time ≤ seconds Android.timeout_seconds ∧
          Android.connect_to_android_via_wifi_direct env
            (dict_get "name" "Unknown" device_info) address s1
          = (Ok true, s') ∧
          Android.extract_credentials_from_android_wifi_direct env s2
          = (Ok true, s')
    | Ok None => later = [] ∧ failed_turns env start_time tried s s'
    | Ok (Some false) =>
        ∃ device_info address,
          head later = Some device_info ∧
          device_info !! "address" = Some address ∧
          failed_turns env start_time tried s s' ∧
          seconds Android.timeout_seconds < clock s'.2 - start_time
    | Raise e =>
        ∃ device_info,
          e = KeyError ∧ head later = Some device_info ∧
          device_info !! "address" = None ∧
          failed_turns env start_time tried s s'
    end.
Proof.
  intros Hloop.
  destruct (connect_loop_turns env start_time devices s)
    as (evs & tried & later & Hsplit & Htrace & Hatt & Hend).
  rewrite Hloop in *. simpl in *.
  by exists evs, tried, later.
Qed.

Lemma connect_loop_stops_at_first_success_witness :
  let env := Scenario.env_of
               [(Android.connect_argv "aa:aa",
                 Exited 1 EmptyString EmptyString 0);
                (Android.status_argv,
                 Scenario.exits ("p2p_client_mode=1" +:+ nl +:+
                                 "ssid=HomeNet" +:+ nl +:+
                                 "psk=s3cr3t" +:+ nl));
                (Scenario.iwconfig_argv,
                 Scenario.exits ("wlan0 ESSID:" +:+ dquote +:+ "HomeNet"
                                 +:+ dquote))] in
  let run := Android.connect_loop env 0 [Scenario.peer_a; Scenario.peer_b]
               Scenario.android_start in
  run.1 = Ok (Some true) ∧
  ∃ evs tried later,
    [Scenario.peer_a; Scenario.peer_b] = tried ++ later ∧
    trace run.2.2 = trace Scenario.android_start.2 ++ evs ∧
    Some <$> attempts evs = (λ d, d !! "address") <$> tried ∧
    ∃ before device_info address s1 s2,
      tried = before ++ [device_info] ∧
      device_info !! "address" = Some address ∧
      failed_turns env 0 before Scenario.android_start s1 ∧
      clock s1.2 - 0 ≤ seconds Android.timeout_seconds ∧
      Android.connect_to_android_via_wifi_direct env
        (dict_get "name" "Unknown" device_info) address s1
      = (Ok true, run.2) ∧
      Android.extract_credentials_from_android_wifi_direct env s2
      = (Ok true, run.2).
Proof.
  intros env run.
  assert (run.1 = Ok (Some true)) as Hr by (vm_compute; reflexivity).
  split; [exact Hr|].
  pose proof (connect_loop_stops_at_first_success env 0
                [Scenario.peer_a; Scenario.peer_b] Scenario.android_start
                run.2 run.1 (surjective_pairing _)) as H.
  by rewrite Hr in H.
Defined.

(** C3, as stated, fails: with two peers of which the first reaches an
    established connection at its first poll while the status names no
    network, the second peer is attempted all the same. *)
Lemma connect_loop_continues_after_established :
  let env := Scenario.env_group_only in
  ∃ result s0 s1,
    run_text env (Android.connect_argv "aa:aa") true None Scenario.android_start
    = (Ok result, s0) ∧
    poll_once env s0 = (Ok true, s1) ∧
    attempts (added Scenario.android_start
                (Android.connect_loop env 0 [Scenario.peer_a; Scenario.peer_b]
                   Scenario.android_start).2)
    = ["aa:aa"; "bb:bb"].
Proof.
  eexists _, _, _. split_and!; [reflexivity|reflexivity|by vm_compute].
Qed.


(** ** The time limit *)

Lemma connect_loop_late (env : Env) (start_time : Z)
    (d : gmap string string) (rest : list (gmap string string)) (a : string)
    (s : State Android.Sharer) :
  d !! "address" = Some a →
  seconds Android.timeout_seconds < clock s.2 - start_time →
  Android.connect_loop env start_time (d :: rest) s = (Ok (Some false), s).
Proof.
  intros Ha Hlate. simpl. unfold getitem. rewrite Ha, mret_bind, now_bind.
  destruct (Z.gtb_spec (clock s.2 - start_time) (seconds Android.timeout_seconds));
    [done|lia].
Qed.

Section Deadline.
Variable env : Env.
Variables (start_time : Z) (device_name device_address : string).

Lemma extraction_late_after_settle (s s1 : State Android.Sharer) :
  settle env s = (Ok tt, s1) →
  seconds Android.timeout_seconds < clock s1.2 - start_time →
  Android.extraction_from env start_time device_name device_address s
  = (Ok false, s1).
Proof.
  unfold settle, Android.extraction_from. intros Hsettle Hlate.
  rewrite try_except_unfold, bind_unfold, try_except_unfold, bind_unfold.
  rewrite bind_unfold in Hsettle.
  destruct (run env Android.find_argv true (Some 10) s) as [[c|e] s0];
    [|done].
  rewrite bind_unfold, Hsettle, now_bind.
  by destruct (Z.gtb_spec (clock s1.2 - start_time)
                 (seconds Android.timeout_seconds)); [|lia].
Qed.

Lemma extraction_listing (s s1 s2 : State Android.Sharer) result :
  settle env s = (Ok tt, s1) →
  clock s1.2 - start_time ≤ seconds Android.timeout_seconds →
  run_text env Android.peers_argv true None s1 = (Ok result, s2) →
  Android.extraction_from env start_time device_name device_address s =
  match Android.connect_loop env start_time (listed result) s2 with
  | (Ok (Some b), s3) => (Ok b, s3)
  | (Ok None, s3) =>
      if clock s3.2 - start_time >? seconds Android.timeout_seconds
      then (Ok false, s3)
      else match Android.try_android_specific_methods env device_name
                   device_address s3 with
           | (Ok b, s4) => (Ok b, s4)
           | (Raise _, s4) => (Ok false, s4)
           end
  | (Raise _, s3) => (Ok false, s3)
  end.
Proof.
  unfold settle, Android.extraction_from. intros Hsettle Htime Hpeers.
  rewrite try_except_unfold, bind_unfold, try_except_unfold, bind_unfold.
  rewrite bind_unfold in Hsettle.
  destruct (run env Android.find_argv true (Some 10) s) as [[c|e] s0];
    [|done].
  rewrite bind_unfold, Hsettle, now_bind.
  destruct (Z.gtb_spec (clock s1.2 - start_time)
              (seconds Android.timeout_seconds)); [lia|].
  rewrite mret_unfold. cbn beta iota.
  rewrite bind_unfold, Hpeers. rewrite bind_unfold.
  assert ((if (returncode result =? 0)
              && PyStr.truthy (PyStr.strip (stdout result))
           then Android.connect_loop env start_time
                  (parse_android_devices (stdout result))
           else mret None) s2
          = Android.connect_loop env start_time (listed result) s2) as ->.
  { unfold listed. by destruct (_ && _). }
  destruct (Android.connect_loop env start_time (listed result) s2)
    as [[[b|]|e] s3]; try done.
  rewrite now_bind.
  destruct (clock s3.2 - start_time >? seconds Android.timeout_seconds);
    [done|].
  rewrite bind_unfold.
  by destruct (Android.try_android_specific_methods env device_name
                 device_address s3) as [[[]|e] s4].
Qed.

Lemma extraction_from_entry (s : State Android.Sharer) :
  Android.extract_wifi_credentials_from_android env device_name
    device_address s
  = Android.extraction_from env (clock s.2) device_name device_address s.
Proof. reflexivity. Qed.

End Deadline.

(** C2, as the code has it. The limit is 90 seconds, counted from the
    clock value [start_time] read at the start of
    [extract_wifi_credentials_from_android]. The elapsed time is compared
    with the limit at three places, and at each of them the extraction
    returns [False] without starting the step that follows when more than
    90 seconds have passed:
    - after the discovery command and the wait of 15 seconds, where the
      extraction ends in the state the wait left, so [p2p_peers] is not
      run;
    - at the head of each turn of the connect loop, where the loop returns
      [False] and leaves the state as it is, so the peer is not attempted,
      and the extraction returns what the loop returned;
    - after the loop has run out, where the extraction ends in the state
      the loop left, so the Android-specific methods are not started.
    Within the limit the next step runs: the extraction returns what the
    first successful attempt or the Android-specific methods returned.
    So in every run each connect command and the first service discovery
    request (the first command of the Android-specific methods) are issued
    no later than 90 seconds after the start. What a step may cost is not
    looked at. *)
Theorem deadline_checked_before_each_attempt (env : Env)
    (device_name device_address : string) :
  Android.timeout_seconds = 90 ∧
  (∀ s : State Android.Sharer,
     ∃ evs,
       trace (Android.extract_wifi_credentials_from_android env device_name
                device_address s).2.2 = trace s.2 ++ evs ∧
       Forall (λ p, p.2 - clock s.2 ≤ seconds Android.timeout_seconds)
         (timed_attempts evs) ∧
       ∀ t, first_service_request evs = Some t →
            t - clock s.2 ≤ seconds Android.timeout_seconds) ∧
  (∀ start_time d rest a (s : State Android.Sharer),
     d !! "address" = Some a →
     seconds Android.timeout_seconds < clock s.2 - start_time →
     Android.connect_loop env start_time (d :: rest) s = (Ok (Some false), s)) ∧
  (∀ s : State Android.Sharer,
     Android.extract_wifi_credentials_from_android env device_name
       device_address s
     = Android.extraction_from env (clock s.2) device_name device_address s) ∧
  (∀ start_time (s s1 : State Android.Sharer),
     settle env s = (Ok tt, s1) →
     seconds Android.timeout_seconds < clock s1.2 - start_time →
     Android.extraction_from env start_time device_name device_address s
     = (Ok false, s1)) ∧
  (∀ start_time (s s1 s2 : State Android.Sharer) result,
     settle env s = (Ok tt, s1) →
     clock s1.2 - start_time ≤ seconds Android.timeout_seconds →
     run_text env Android.peers_argv true None s1 = (Ok result, s2) →
     Android.extraction_from env start_time device_name device_address s =
     match Android.connect_loop env start_time (listed result) s2 with
     | (Ok (Some b), s3) => (Ok b, s3)
     | (Ok None, s3) =>
         if clock s3.2 - start_time >? seconds Android.timeout_seconds
         then (Ok false, s3)
         else match Android.try_android_specific_methods env device_name
                      device_address s3 with
              | (Ok b, s4) => (Ok b, s4)
              | (Raise _, s4) => (Ok false, s4)
              end
     | (Raise _, s3) => (Ok false, s3)
     end).
Proof.
  split_and!.
  - done.
  - apply extract_checked.
  - apply connect_loop_late.
  - apply extraction_from_entry.
  - intros. by apply extraction_late_after_settle.
  - intros. by eapply extraction_listing.
Qed.

Lemma deadline_checked_before_each_attempt_witness :
  (Scenario.peer_a !! "address" = Some "aa:aa" ∧
   seconds Android.timeout_seconds < clock Scenario.late_start.2 - 0 ∧
   Android.connect_loop Scenario.env_home 0 [Scenario.peer_a; Scenario.peer_b]
     Scenario.late_start = (Ok (Some false), Scenario.late_start)) ∧
  (let s1 := (settle Scenario.env_home Scenario.late_start).2 in
   seconds Android.timeout_seconds < clock s1.2 - 0 ∧
   Android.extraction_from Scenario.env_home 0 "Pixel" "AA:AA"
     Scenario.late_start = (Ok false, s1)) ∧
  (let env := Scenario.env_no_group in
   let s1 := (settle env Scenario.android_start).2 in
   let listing := run_text env Android.peers_argv true None s1 in
   let result := mkCompleted 0 Scenario.two_peers EmptyString in
   let s3 := (Android.connect_loop env 0 (listed result) listing.2).2 in
   clock s1.2 - 0 ≤ seconds Android.timeout_seconds ∧
   listing.1 = Ok result ∧
   seconds Android.timeout_seconds < clock s3.2 - 0 ∧
   Android.extraction_from env 0 "Pixel" "AA:AA" Scenario.android_start
   = (Ok false, s3)).
Proof.
  pose proof (deadline_checked_before_each_attempt Scenario.env_home
                "Pixel" "AA:AA") as (_ & _ & Hloop & _ & Hsettled & _).
  pose proof (deadline_checked_before_each_attempt Scenario.env_no_group
                "Pixel" "AA:AA") as (_ & _ & _ & _ & _ & Hlisting).
  split; [split_and!|split].
  - reflexivity.
  - vm_compute; reflexivity.
  - apply (Hloop 0 Scenario.peer_a [Scenario.peer_b] "aa:aa");
      [reflexivity|vm_compute; reflexivity].
  - intros s1. split; [vm_compute; reflexivity|].
    apply Hsettled; vm_compute; reflexivity.
  - intros env s1 listing result s3. split_and!.
    + vm_compute. by intros [=].
    + vm_compute; reflexivity.
    + vm_compute; reflexivity.
    + etrans; [|vm_compute; reflexivity].
      apply (Hlisting 0 Scenario.android_start s1 listing.2 result);
        vm_compute; first [reflexivity|by intros [=]].
Defined.

(** C2, as stated, fails: with two peers that accept the connect request
    and never form a group, the second connect attempt begins 60 seconds
    after the start, when 30 seconds are left for its 45 polls. *)
Lemma attempt_started_without_budget :
  ¬ budget_respected Scenario.env_no_group "Pixel" "AA:AA" Scenario.android_start.
Proof.
  unfold budget_respected. intros H.
  assert (timed_attempts
            (added Scenario.android_start
               (Android.extract_wifi_credentials_from_android
                  Scenario.env_no_group "Pixel" "AA:AA" Scenario.android_start).2)
          = [("aa:aa", 15000); ("bb:bb", 60000)]) as Hatt
    by (vm_compute; reflexivity).
  cbv zeta in H. rewrite Hatt in H.
  assert (("bb:bb", 60000) ∈ [("aa:aa", 15000); ("bb:bb", 60000)]) as Hin
    by (apply list_elem_of_further, list_elem_of_here).
  apply H in Hin. vm_compute in Hin. by apply Hin.
Qed.

(** ** Applying a credential *)

Section Apply.
Variable env : Env.

Lemma check_wifi_connection_same_store :
  stable same_store (Android.check_wifi_connection env).
Proof. unfold Android.check_wifi_connection. stable_auto. Qed.
#[local] Hint Resolve check_wifi_connection_same_store : stable.

Lemma connect_to_extracted_network_same_store ssid password :
  stable same_store (Android.connect_to_extracted_network env ssid password).
Proof. unfold Android.connect_to_extracted_network. stable_auto. Qed.









End Apply.

Lemma ensures_bind_final {Self A B} (Q : Result B → State Self → Prop)
    (m : M Self A) (k : A → M Self B) :
  (∀ e s', Q (Raise e) s') →
  (∀ a, ensures (λ r _ s', Q r s') (k a)) →
  ensures (λ r _ s', Q r s') (m ≫= k).
Proof.
  intros Hraise Hk s. rewrite bind_unfold.
  destruct (m s) as [[a|e] s1]; [apply Hk|apply Hraise].
Qed.




(** ** The signal receivers *)

Lemma grows_any {Self} (P : Event → Prop) (s s' : State Self) :
  grows P s s' → grows any_event s s'.
Proof. by apply grows_weaken. Qed.

Lemma starts_grows_any {Self} argv (P : Event → Prop) (s s' : State Self) :
  starts argv P s s' → grows any_event s s'.
Proof.
  intros (rest & H & _). exists (ERun argv (clock s.2) :: rest).
  split; [done|]. by apply Forall_true.
Qed.

Lemma modify_self_unfold {Self} (f : Self → Self) (s : State Self) :
  modify_self f s = (Ok tt, (f s.1, s.2)).
Proof. reflexivity. Qed.

Section Receivers.
Variable env : Env.

Lemma check_wifi_connection_same_devices :
  stable same_devices (Android.check_wifi_connection env).
Proof. unfold Android.check_wifi_connection. stable_auto. Qed.
#[local] Hint Resolve check_wifi_connection_same_devices : stable.

Lemma connect_to_extracted_network_same_devices ssid password :
  stable same_devices (Android.connect_to_extracted_network env ssid password).
Proof. unfold Android.connect_to_extracted_network. stable_auto. Qed.
#[local] Hint Resolve connect_to_extracted_network_same_devices : stable.

Lemma extract_android_network_credentials_same_devices status :
  stable same_devices (Android.extract_android_network_credentials env status).
Proof. unfold Android.extract_android_network_credentials. stable_auto. Qed.
#[local] Hint Resolve extract_android_network_credentials_same_devices : stable.

Lemma extract_credentials_same_devices :
  stable same_devices (Android.extract_credentials_from_android_wifi_direct env).
Proof. unfold Android.extract_credentials_from_android_wifi_direct. stable_auto. Qed.
#[local] Hint Resolve extract_credentials_same_devices : stable.

Lemma check_connection_same_devices :
  stable same_devices (Android.check_android_wifi_direct_connection env).
Proof. unfold Android.check_android_wifi_direct_connection. stable_auto. Qed.
#[local] Hint Resolve check_connection_same_devices : stable.

Lemma wait_for_connection_same_devices n :
  stable same_devices (Android.wait_for_connection env n).
Proof. induction n; simpl; stable_auto. Qed.
#[local] Hint Resolve wait_for_connection_same_devices : stable.

Lemma connect_same_devices device_name device_address :
  stable same_devices
    (Android.connect_to_android_via_wifi_direct env device_name device_address).
Proof. unfold Android.connect_to_android_via_wifi_direct. stable_auto. Qed.
#[local] Hint Resolve connect_same_devices : stable.

Lemma debug_state_same_devices :
  stable same_devices (Android.debug_android_wifi_direct_state env).
Proof. unfold Android.debug_android_wifi_direct_state. stable_auto. Qed.
#[local] Hint Resolve debug_state_same_devices : stable.

Lemma connect_loop_same_devices t0 devices :
  stable same_devices (Android.connect_loop env t0 devices).
Proof. induction devices; simpl; stable_auto. Qed.
#[local] Hint Resolve connect_loop_same_devices : stable.

Lemma service_responses_same_devices :
  stable same_devices (Android.check_for_android_service_responses env).
Proof. unfold Android.check_for_android_service_responses. stable_auto. Qed.
#[local] Hint Resolve service_responses_same_devices : stable.

Lemma group_status_same_devices :
  stable same_devices (Android.check_android_group_status env).
Proof. unfold Android.check_android_group_status. stable_auto. Qed.
#[local] Hint Resolve group_status_same_devices : stable.

Lemma check_sources_same_devices sources :
  stable same_devices (Android.check_sources env sources).
Proof. induction sources; simpl; stable_auto. Qed.
#[local] Hint Resolve check_sources_same_devices : stable.

Lemma network_info_same_devices :
  stable same_devices (Android.check_for_android_network_info env).
Proof. unfold Android.check_for_android_network_info. stable_auto. Qed.
#[local] Hint Resolve network_info_same_devices : stable.

Lemma direct_extraction_same_devices device_name device_address :
  stable same_devices
    (Android.direct_android_extraction env device_name device_address).
Proof. unfold Android.direct_android_extraction. stable_auto. Qed.
#[local] Hint Resolve direct_extraction_same_devices : stable.

Lemma specific_methods_same_devices device_name device_address :
  stable same_devices
    (Android.try_android_specific_methods env device_name device_address).
Proof. unfold Android.try_android_specific_methods. stable_auto. Qed.
#[local] Hint Resolve specific_methods_same_devices : stable.

Lemma extract_same_devices device_name device_address :
  stable same_devices
    (Android.extract_wifi_credentials_from_android env device_name
       device_address).
Proof. unfold Android.extract_wifi_credentials_from_android,
    Android.extraction_from. stable_auto. Qed.

(** Every run of the extraction begins with the discovery command. *)
Lemma extract_starts_with_find device_name device_address
    (s : State Android.Sharer) :
  starts Android.find_argv any_event s
    (Android.extract_wifi_credentials_from_android env device_name
       device_address s).2.
Proof.
  unfold Android.extract_wifi_credentials_from_android,
    Android.extraction_from. rewrite now_bind.
  generalize (clock s.2) as t0. intros t0. revert s.
  apply stable_try_mret.
  apply (stable_seq (starts Android.find_argv any_event) (grows any_event));
    [apply starts_then_grows | done | |].
  { apply stable_try_mret.
    apply (stable_seq (starts Android.find_argv any_event) (grows any_event));
      [apply starts_then_grows | done | apply starts_run |].
    intros _. stable_auto. }
  intros [b|]; [stable_auto|].
  apply stable_bind; [tc_solve|stable_auto|intros result].
  apply stable_bind; [tc_solve| |intros [b|]; [stable_auto|]].
  { destruct (_ && _); [|stable_auto].
    apply (stable_weaken (grows (loop_event t0))); [apply grows_any|].
    apply connect_loop_events. }
  apply stable_bind; [tc_solve|stable_auto|intros t].
  destruct (_ >? _); [stable_auto|].
  apply stable_bind; [tc_solve| |intros []; stable_auto].
  apply (stable_weaken (starts (service_request_argv device_address) no_attempt));
    [apply starts_grows_any|apply specific_methods_start].
Qed.

Lemma on_device_disconnected_forgets path interfaces
    (s : State Android.Sharer) :
  Android.on_device_disconnected path interfaces s
  = (Ok tt, (Android.remove_device path s.1, s.2)).
Proof.
  destruct s as [[devices received] w].
  unfold Android.on_device_disconnected.
  rewrite try_except_unfold, bind_unfold. simpl.
  case_bool_decide as Hin; simpl; [done|].
  unfold Android.remove_device. simpl. do 3 f_equal.
  symmetry. apply difference_disjoint_L. by apply disjoint_singleton_r.
Qed.

Lemma receive_never_raises sig : never_raises (Android.receive env sig).
Proof.
  destruct sig; simpl;
    [apply on_device_connected_never_raises
    |apply on_device_disconnected_never_raises].
Qed.

Lemma mainloop_run_cons emitted sig queue (s : State Android.Sharer) :
  Android.mainloop_run env ((emitted, sig) :: queue) s
  = Android.mainloop_run env queue
      (Android.receive env sig (s.1, advance (emitted - clock s.2) s.2)).2.
Proof.
  simpl. rewrite bind_unfold. simpl. rewrite bind_unfold.
  destruct (never_raises_run _ (s.1, advance (emitted - clock s.2) s.2)
              (receive_never_raises sig)) as [[] Hr].
  by rewrite Hr.
Qed.

Lemma mainloop_run_app queue1 queue2 (s : State Android.Sharer) :
  Android.mainloop_run env (queue1 ++ queue2) s
  = Android.mainloop_run env queue2 (Android.mainloop_run env queue1 s).2.
Proof.
  revert s. induction queue1 as [|[emitted sig] queue1 IH]; intros s; [done|].
  rewrite <- app_comm_cons, !mainloop_run_cons. apply IH.
Qed.
End Receivers.

(** C6, as the code has it. The receiver of a disconnect signal only takes
    the path out of [connected_devices]: it runs no command, writes no
    file and leaves [credentials_received] alone. A disconnect signal
    queued behind other signals is handled when their receivers have run
    to the end, and then changes nothing but that set (and the clock, when
    the loop had to wait for the signal). *)
Theorem disconnect_only_forgets_device (env : Env) (path : string)
    (interfaces : list string) :
  (∀ s : State Android.Sharer,
     Android.on_device_disconnected path interfaces s
     = (Ok tt, (Android.remove_device path s.1, s.2))) ∧
  (∀ queue emitted (s : State Android.Sharer),
     let before := (Android.mainloop_run env queue s).2 in
     Android.mainloop_run env
       (queue ++ [(emitted, Android.InterfacesRemoved path interfaces)]) s
     = (Ok tt, (Android.remove_device path before.1,
                advance (emitted - clock before.2) before.2))).
Proof.
  split; [apply on_device_disconnected_forgets|].
  intros queue emitted s before.
  rewrite mainloop_run_app, mainloop_run_cons. simpl.
  by rewrite on_device_disconnected_forgets.
Qed.

(** C6, as stated, fails: the peer's disconnect signal is emitted 5 seconds
    after its connect signal, while the extraction is waiting for peers, and
    the credential file is written 16 seconds after the start. *)
Lemma persist_after_disconnect :
  ¬ no_persist_after_disconnect Scenario.env_home Scenario.device_path
      Scenario.phone 0 5000 Scenario.android_start.
Proof.
  unfold no_persist_after_disconnect. intros H. cbv zeta in H.
  assert (added Scenario.android_start
            (Android.mainloop_run Scenario.env_home
               [(0, Android.InterfacesAdded Scenario.device_path Scenario.phone);
                (5000, Android.InterfacesRemoved Scenario.device_path [])]
               Scenario.android_start).2 !! 7%nat
          = Some (EWrite config_file 16000)) as Hev
    by (vm_compute; reflexivity).
  apply list_elem_of_lookup_2, H in Hev. vm_compute in Hev. discriminate Hev.
Qed.

(** C8, as the code has it. The receiver of a connect signal that carries
    a device interface puts the path into [connected_devices], which
    changes nothing when the path is in it already, and then runs the
    extraction, whose first command is the peer discovery, whether or not
    the path was in the set. *)
Theorem connect_signal_always_starts_extraction (env : Env) (path : string)
    (interfaces : gmap string (gmap string string)) (device : gmap string string)
    (s : State Android.Sharer) :
  interfaces !! "org.bluez.Device1" = Some device →
  let s' := (Android.on_device_connected env path interfaces s).2 in
  Android.connected_devices s'.1 = {[path]} ∪ Android.connected_devices s.1 ∧
  ∃ rest, trace s'.2 = trace s.2 ++ ERun Android.find_argv (clock s.2) :: rest.
Proof.
  intros Hdevice s'. subst s'. unfold Android.on_device_connected.
  rewrite Hdevice, try_except_unfold, bind_unfold, modify_self_unfold, bind_unfold.
  set (s1 := (Android.add_device path s.1, s.2)).
  pose proof (extract_same_devices env (dict_get "Name" "Unknown Device" device)
                (dict_get "Address" "Unknown" device) s1) as Hsame.
  pose proof (extract_starts_with_find env
                (dict_get "Name" "Unknown Device" device)
                (dict_get "Address" "Unknown" device) s1) as (rest & Htrace & _).
  destruct (never_raises_run _ s1
              (extract_never_raises env (dict_get "Name" "Unknown Device" device)
                 (dict_get "Address" "Unknown" device))) as [b Hb].
  rewrite Hb. cbn [fst snd mret M_ret].
  split; [exact Hsame|]. by exists rest.
Qed.

Lemma connect_signal_always_starts_extraction_witness :
  let s : State Android.Sharer :=
    (Android.mkSharer {[Scenario.device_path]} false, Scenario.fresh_world) in
  let s' := (Android.on_device_connected Scenario.env_quiet
               Scenario.device_path Scenario.phone s).2 in
  Scenario.device_path ∈ Android.connected_devices s.1 ∧
  Android.connected_devices s'.1
  = {[Scenario.device_path]} ∪ Android.connected_devices s.1 ∧
  ∃ rest, trace s'.2 = trace s.2 ++ ERun Android.find_argv (clock s.2) :: rest.
Proof.
  intros s s'. split; [subst s; simpl; by apply elem_of_singleton_2|].
  apply (connect_signal_always_starts_extraction Scenario.env_quiet
           Scenario.device_path Scenario.phone
           {["Name" := "Pixel"; "Address" := "AA:AA"]} s).
  reflexivity.
Defined.

(** C8, as stated, fails: with the same connect signal handled twice, the
    second handling runs the discovery again. *)
Lemma duplicate_connect_runs_again :
  ¬ duplicate_ignored Scenario.env_quiet Scenario.device_path Scenario.phone
      Scenario.android_start.
Proof.
  unfold duplicate_ignored. intros H. cbv zeta in H.
  apply (f_equal (λ s : State Android.Sharer,
                    length (filter (λ ev, is_find ev = true) (trace s.2)))) in H.
  vm_compute in H. discriminate H.
Qed.

(** ** Accepting a credential *)

#[global] Instance same_self_preorder {Self} : PreOrder (@same_self Self).
Proof. split; unfold same_self; [done|]. intros s1 s2 s3 H1 H2. by rewrite H2. Qed.

Lemma get_self_bind {Self B} (k : Self → M Self B) (s : State Self) :
  (get_self ≫= k) s = k s.1 s.
Proof. reflexivity. Qed.

Section Accepting.
Variable env : Env.

Lemma same_self_run {Self} argv check timeout :
  stable (@same_self Self) (run env argv check timeout).
Proof. intros s. unfold same_self. run_cases. Qed.

Lemma same_self_run_text {Self} argv check timeout :
  stable (@same_self Self) (run_text env argv check timeout).
Proof. intros s. unfold same_self. run_cases. Qed.

Lemma same_self_sleep {Self} secs : stable (@same_self Self) (sleep secs).
Proof. by intros s. Qed.

Lemma same_self_write_file {Self} path content :
  stable (@same_self Self) (write_file env path content).
Proof. intros s. unfold same_self, write_file. by destruct (fwrite env _ path). Qed.

Lemma connect_to_wifi_same_self ssid password :
  stable same_self (AutoBluetooth.connect_to_wifi env ssid password).
Proof.
  unfold AutoBluetooth.connect_to_wifi.
  repeat first
    [ apply same_self_run | apply same_self_run_text | apply same_self_sleep
    | apply same_self_write_file
    | stable_step ].
Qed.

(** The GATT path takes the credential exactly when both fields are
    non-empty and differ from the placeholder. *)
Lemma check_credentials_accepts_iff service (s : State AutoBluetooth.Sharer) :
  AutoBluetooth.wifi_service s.1 = Some service →
  AutoBluetooth.credentials_received s.1 = false →
  AutoBluetooth.credentials_received
    (AutoBluetooth.check_credentials env s).2.1 = true
  ↔ plausible (AutoBluetooth.wifi_ssid service)
      (AutoBluetooth.wifi_password service).
Proof.
  intros Hservice Hbefore. unfold AutoBluetooth.check_credentials.
  rewrite try_except_unfold, bind_unfold. simpl. rewrite Hservice.
  destruct service as [ssid password info]; simpl.
  unfold plausible.
  destruct (PyStr.truthy ssid) eqn:Hs1; simpl.
  2:{ rewrite Hbefore. destruct ssid; [|done]. split; [done|]. by intros [? _]. }
  destruct (String.eqb_spec ssid "Unknown") as [->|Hs2]; simpl.
  { rewrite Hbefore. split; [done|]. by intros (_ & ? & _). }
  destruct (PyStr.truthy password) eqn:Hp1; simpl.
  2:{ rewrite Hbefore. destruct password; [|done]. split; [done|].
      by intros (_ & _ & ? & _). }
  destruct (String.eqb_spec password "Unknown") as [->|Hp2]; simpl.
  { rewrite Hbefore. split; [done|]. by intros (_ & _ & _ & ?). }
  assert (ssid ≠ EmptyString) by (by destruct ssid).
  assert (password ≠ EmptyString) by (by destruct password).
  split; [done|intros _].
  rewrite bind_unfold, modify_self_unfold, bind_unfold.
  set (s1 := (AutoBluetooth.set_received true s.1, s.2)).
  pose proof (connect_to_wifi_same_self ssid password s1) as Hself.
  unfold same_self in Hself.
  destruct (AutoBluetooth.connect_to_wifi env ssid password s1)
    as [[[]|e] s2]; simpl in *; try by rewrite Hself.
  rewrite get_self_bind.
  destruct (AutoBluetooth.mainloop s2.1); simpl; by rewrite Hself.
Qed.

(** The status path stores the credential exactly when neither field is
    the placeholder; an empty field passes. *)
Lemma status_credentials_stored_iff status network_info
    (s : State Android.Sharer) :
  parse_status status = Some network_info →
  (not_unknown network_info →
     ∃ rest, trace (Android.extract_android_network_credentials env status s).2.2
             = trace s.2 ++ EWrite config_file (clock s.2) :: rest) ∧
  (¬ not_unknown network_info →
     Android.extract_android_network_credentials env status s = (Ok false, s)).
Proof.
  intros Hparse. unfold Android.extract_android_network_credentials, not_unknown.
  rewrite Hparse, try_except_unfold, mret_bind.
  unfold dict_get, has_key.
  destruct (network_info !! "ssid") as [ssid|] eqn:Hssid;
    destruct (network_info !! "psk") as [psk|] eqn:Hpsk; simpl;
    rewrite ?andb_false_r; simpl;
    try (split; [by intros [? ?]|done]).
  destruct (String.eqb_spec ssid "Unknown") as [->|Hs]; simpl;
    [split; [by intros [? ?]|done]|].
  destruct (String.eqb_spec psk "Unknown") as [->|Hp]; simpl;
    [split; [by intros [? ?]|done]|].
  split; [intros _|by intros []].
  assert (stable (grows any_event)
            (modify_self (Android.set_received true);;
             connected ← Android.connect_to_extracted_network env ssid psk;
             if (connected : bool) then mret true else mret false))
    as Hrest.
  { apply stable_bind; [tc_solve|stable_auto|intros _].
    apply stable_bind; [tc_solve| |intros []; stable_auto].
    apply (stable_weaken (grows plain)); [apply grows_any|].
    apply connect_to_extracted_network_plain. }
  rewrite bind_unfold. unfold write_file at 1.
  destruct (fwrite env (ticks s.2) config_file); simpl.
  - match goal with |- context [(?m ≫= ?k) ?s1] =>
      destruct (Hrest s1) as (rest & Hrest' & _);
      destruct ((m ≫= k) s1) as [[b|e] s2] end; simpl in *;
    rewrite Hrest'; simpl; rewrite <- app_assoc; by eexists.
  - by exists [].
  - by exists [].
Qed.
End Accepting.

(** C1. The code falls short of the claim on the status path. For the status
    text whose lines are [ssid=] and [psk=], both fields parse to the empty
    string, and [extract_android_network_credentials] writes them to the
    credential file and sets [credentials_received]; [check_credentials]
    refuses the same two fields. *)
Theorem empty_credential_is_stored :
  let r := Android.extract_android_network_credentials Scenario.env_quiet
             Scenario.empty_fields Scenario.android_start in
  let g := AutoBluetooth.check_credentials Scenario.env_quiet
             (Scenario.gatt_start EmptyString EmptyString) in
  parse_status Scenario.empty_fields
  = Some {["ssid" := EmptyString; "psk" := EmptyString]} ∧
  files r.2.2 !! config_file = Some (JsonCredentials EmptyString EmptyString) ∧
  Android.credentials_received r.2.1 = true ∧
  AutoBluetooth.credentials_received g.2.1 = false ∧
  files g.2.2 !! config_file = None.
Proof. split_and!; vm_compute; reflexivity. Qed.

(** * Further properties of the code *)

(** ** More on the status parser *)

Lemma cut_none_lstrip (c : ascii) (s : string) :
  cut_at_first c s = None → cut_at_first c (PyStr.lstrip s) = None.
Proof.
  induction s as [|a s IH]; simpl; [done|].
  destruct (PyStr.is_space a); simpl.
  - destruct (Ascii.eqb a c); [done|].
    destruct (cut_at_first c s) as [[? ?]|]; [done|]. intros _. by apply IH.
  - done.
Qed.

Lemma cut_none_rstrip (c : ascii) (s : string) :
  cut_at_first c s = None → cut_at_first c (PyStr.rstrip s) = None.
Proof.
  induction s as [|a s IH]; simpl; [done|].
  destruct (Ascii.eqb a c) eqn:Hac; [done|].
  destruct (cut_at_first c s) as [[? ?]|]; [done|]. intros _.
  specialize (IH eq_refl).
  destruct (PyStr.rstrip s) as [|b r]; simpl.
  - destruct (PyStr.is_space a); simpl; [done|]. by rewrite Hac.
  - rewrite Hac. simpl in IH. by rewrite IH.
Qed.

Lemma cut_key_no_separator (c : ascii) (line k v : string) :
  cut_at_first c line = Some (k, v) → cut_at_first c k = None.
Proof.
  revert k v. induction line as [|a line IH]; intros k v; simpl; [done|].
  destruct (Ascii.eqb a c) eqn:Hac; [by intros [= <- _]|].
  destruct (cut_at_first c line) as [[k' v']|]; [|done].
  intros [= <- _]. simpl. rewrite Hac. by rewrite (IH k' v').
Qed.

Lemma lstrip_rstrip_head (s : string) :
  PyStr.lstrip (PyStr.rstrip (PyStr.lstrip s)) = PyStr.rstrip (PyStr.lstrip s).
Proof.
  induction s as [|a s IH]; simpl; [done|].
  destruct (PyStr.is_space a) eqn:Ha; [done|].
  change (PyStr.rstrip (String a s)) with
    (match PyStr.rstrip s with
     | EmptyString =>
         if PyStr.is_space a then EmptyString else String a EmptyString
     | r => String a r
     end).
  rewrite Ha. destruct (PyStr.rstrip s); simpl; by rewrite Ha.
Qed.

Lemma rstrip_idempotent (s : string) :
  PyStr.rstrip (PyStr.rstrip s) = PyStr.rstrip s.
Proof.
  induction s as [|a s IH]; simpl; [done|].
  destruct (PyStr.rstrip s) as [|b r] eqn:Hr.
  - destruct (PyStr.is_space a) eqn:Ha; simpl; [done|]. by rewrite Ha.
  - simpl in *. by rewrite IH.
Qed.

Lemma strip_idempotent (s : string) : PyStr.strip (PyStr.strip s) = PyStr.strip s.
Proof. unfold PyStr.strip. by rewrite lstrip_rstrip_head, rstrip_idempotent. Qed.

Lemma strip_key_clean (line k v : string) :
  cut_at_first equals line = Some (k, v) → clean_key (PyStr.strip k).
Proof.
  intros Hcut. split; [|apply strip_idempotent].
  change "="%string with (String equals EmptyString).
  rewrite contains_char_cut. unfold PyStr.strip.
  rewrite cut_none_rstrip; [done|].
  apply cut_none_lstrip. by eapply cut_key_no_separator.
Qed.

Lemma parse_status_lines_clean (lines : list string) (m0 m : gmap string string) :
  map_Forall (λ key _, clean_key key) m0 →
  parse_status_lines lines m0 = Some m →
  map_Forall (λ key _, clean_key key) m.
Proof.
  revert m0. induction lines as [|line rest IH]; intros m0 H0; simpl.
  { by intros [= <-]. }
  change "="%string with (String equals EmptyString).
  rewrite contains_char_cut, split1_cut.
  destruct (cut_at_first equals line) as [[k v]|] eqn:Hcut; simpl; [|by apply IH].
  apply IH. apply map_Forall_insert_2; [|done]. by eapply strip_key_clean.
Qed.

(** X1. In the dict parsed from any status text, no key contains the
    separator and no key begins or ends with whitespace. *)
Theorem parse_status_keys_clean (status : string) :
  ∃ network_info,
    parse_status status = Some network_info ∧
    map_Forall (λ key _, clean_key key) network_info.
Proof.
  destruct (parse_status_lines_spec (PyStr.split newline status) ∅)
    as (m & Hm & _).
  exists m. split; [done|].
  eapply parse_status_lines_clean; [|done]. apply map_Forall_empty.
Qed.

Lemma split_nonempty (c : ascii) (s : string) : PyStr.split c s ≠ [].
Proof.
  destruct s as [|a s]; simpl; [done|].
  destruct (Ascii.eqb a c); [done|]. by destruct (PyStr.split c s).
Qed.

Lemma split_app (c : ascii) (a b : string) :
  PyStr.split c (a +:+ String c b) = PyStr.split c a ++ PyStr.split c b.
Proof.
  induction a as [|x a IH]; simpl.
  { by rewrite Ascii.eqb_refl. }
  destruct (Ascii.eqb x c); [by rewrite IH|].
  rewrite IH. pose proof (split_nonempty c a). by destruct (PyStr.split c a).
Qed.

Lemma parse_status_lines_app (lines1 lines2 : list string) (m0 : gmap string string) :
  parse_status_lines (lines1 ++ lines2) m0
  = parse_status_lines lines1 m0 ≫= parse_status_lines lines2.
Proof.
  revert m0. induction lines1 as [|line rest IH]; intros m0; simpl; [done|].
  destruct (PyStr.contains "=" line); [|apply IH].
  destruct (unpack2 _) as [[k v]|]; [apply IH|done].
Qed.

(** X2. Parsing two status texts joined by a newline gives the dict of the
    second laid over the dict of the first: a key of the second text takes
    its value from there, any other key from the first. *)
Theorem parse_status_joined (first second : string) :
  ∃ d1 d2,
    parse_status first = Some d1 ∧
    parse_status second = Some d2 ∧
    parse_status (first +:+ String newline second) = Some (d2 ∪ d1).
Proof.
  destruct (parse_status_lines_spec (PyStr.split newline first) ∅)
    as (d1 & H1 & Hl1).
  destruct (parse_status_lines_spec (PyStr.split newline second) ∅)
    as (d2 & H2 & Hl2).
  exists d1, d2. split_and!; [done..|].
  unfold parse_status. rewrite split_app, parse_status_lines_app.
  fold (parse_status first). unfold parse_status at 1. rewrite H1. simpl.
  destruct (parse_status_lines_spec (PyStr.split newline second) d1)
    as (d & -> & Hl). f_equal. apply map_eq. intros key.
  rewrite Hl, lookup_union, Hl2, lookup_empty.
  destruct (last_binding key _); simpl; [by rewrite union_Some_l|].
  by rewrite (left_id_L None _).
Qed.
(** ** More on the peer-list parser *)

Lemma parse_android_devices_of_groups (peers_output : string) :
  ∃ pre groups,
    PyStr.split newline (PyStr.strip peers_output)
    = pre ++ concat (lines_of_group <$> groups) ∧
    Forall (λ l, is_marker l = false) pre ∧
    Forall group_ok groups ∧
    parse_android_devices peers_output = device_of_group <$> groups.
Proof.
  destruct (lines_grouping (PyStr.split newline (PyStr.strip peers_output)))
    as (pre & groups & Hlines & Hpre & Hg).
  exists pre, groups. split_and!; try done.
  unfold parse_android_devices. rewrite Hlines.
  rewrite parse_device_lines_body by done.
  destruct (parse_device_lines_groups groups [] (foldl add_field ∅ pre) Hg)
    as (devices' & current' & -> & ->).
  rewrite flush_device_without_address; [done|].
  by rewrite foldl_add_field_address.
Qed.

Lemma add_field_keys (d : gmap string string) (line : string) :
  dom d ⊆ device_keys → dom (add_field d line) ⊆ device_keys.
Proof.
  intros Hd. unfold add_field, device_line.
  case_startswith; simpl; try done;
    unfold set_field; destruct (field_value _); simpl; try done;
    rewrite dom_insert; (apply union_least; [|done]);
    apply singleton_subseteq_l; unfold device_keys;
    rewrite !elem_of_union, !elem_of_singleton; tauto.
Qed.

Lemma foldl_add_field_keys (body : list string) (d : gmap string string) :
  dom d ⊆ device_keys → dom (foldl add_field d body) ⊆ device_keys.
Proof.
  revert d. induction body as [|l body IH]; intros d Hd; simpl; [done|].
  by apply IH, add_field_keys.
Qed.

(** X3. Every record that the peer-list parser returns has the key
    [address], and has no key besides [address], [name], [p2p_address],
    [go_intent] and [capabilities]. *)
Theorem parsed_devices_have_address (peers_output : string) :
  Forall (λ device_info,
            is_Some (device_info !! "address") ∧
            dom device_info ⊆ device_keys)
    (parse_android_devices peers_output).
Proof.
  destruct (parse_android_devices_of_groups peers_output)
    as (pre & groups & _ & _ & Hg & ->).
  apply Forall_fmap. eapply Forall_impl; [exact Hg|].
  intros g Hgroup. simpl. split; [by apply device_of_group_address|].
  apply foldl_add_field_keys. rewrite dom_singleton.
  apply singleton_subseteq_l. unfold device_keys.
  rewrite !elem_of_union, !elem_of_singleton. tauto.
Qed.

Lemma markers_app (l1 l2 : list string) :
  markers (l1 ++ l2) = markers l1 ++ markers l2.
Proof. apply filter_app. Qed.

Lemma markers_none (body : list string) :
  Forall (λ l, is_marker l = false) body → markers body = [].
Proof.
  induction 1 as [|l body Hl _ IH]; [done|].
  unfold markers. rewrite filter_cons_False; [done|]. by rewrite Hl.
Qed.

Lemma markers_groups (groups : list (string * list string)) :
  Forall group_ok groups →
  length (markers (concat (lines_of_group <$> groups))) = length groups.
Proof.
  induction 1 as [|g groups [Hm Hb] _ IH]; [done|].
  rewrite fmap_cons, concat_cons, markers_app, !length_app, IH.
  unfold lines_of_group, markers. rewrite filter_cons_True by done.
  fold (markers g.2). by rewrite (markers_none g.2 Hb).
Qed.

(** X4. The peer-list parser returns as many records as the text has
    marker lines, that is lines which begin with [dev_addr=] once
    stripped; for a text without one it returns the empty list. *)
Theorem parsed_devices_one_per_marker (peers_output : string) :
  length (parse_android_devices peers_output)
  = length (markers (PyStr.split newline (PyStr.strip peers_output))).
Proof.
  destruct (parse_android_devices_of_groups peers_output)
    as (pre & groups & -> & Hpre & Hg & ->).
  rewrite markers_app, (markers_none pre Hpre), length_fmap. simpl.
  by rewrite markers_groups.
Qed.

Lemma connect_loop_never_raises (env : Env) (start_time : Z)
    (devices : list (gmap string string)) :
  Forall (λ d, is_Some (d !! "address")) devices →
  never_raises (Android.connect_loop env start_time devices).
Proof.
  induction 1 as [|d devices [a Ha] _ IH]; simpl; [apply never_raises_mret|].
  unfold getitem. rewrite Ha.
  apply never_raises_bind; [apply never_raises_mret|]. intros address.
  intros s. rewrite now_bind.
  destruct (_ >? _); [by eexists|].
  revert s. apply never_raises_bind; [apply connect_never_raises|].
  intros [|]; [apply never_raises_mret|].
  apply never_raises_bind; [apply debug_never_raises|]. by intros _.
Qed.

(** X5. The loop over the discovered peers never raises when it is given
    what the peer-list parser returned: reading [device_info['address']]
    cannot fail on these records, whatever the text parsed and whatever
    the commands do. *)
Theorem connect_loop_accepts_parsed_devices (env : Env) (start_time : Z)
    (peers_output : string) (s : State Android.Sharer) :
  ∃ outcome,
    (Android.connect_loop env start_time (parse_android_devices peers_output)
       s).1 = Ok outcome.
Proof.
  apply connect_loop_never_raises.
  destruct (parse_android_devices_of_groups peers_output)
    as (pre & groups & _ & _ & Hg & ->).
  apply Forall_fmap. eapply Forall_impl; [exact Hg|].
  intros g Hgroup. by apply device_of_group_address.
Qed.
(** ** More on the extraction *)

(** X6. When the discovery command fails (it cannot be started, it exits
    with an error or it runs for more than ten seconds), the extraction
    returns [False] having run that command and nothing else: no sleep, no
    peer listing, no connect attempt, no file written, and the object is
    as before. *)
Theorem failed_discovery_ends_extraction (env : Env)
    (device_name device_address : string) (s : State Android.Sharer) :
  discovery_fails env s.2 →
  ∃ s',
    Android.extract_wifi_credentials_from_android env device_name
      device_address s = (Ok false, s') ∧
    trace s'.2 = trace s.2 ++ [ERun Android.find_argv (clock s.2)] ∧
    s'.1 = s.1 ∧ files s'.2 = files s.2.
Proof.
  unfold discovery_fails. intros Hfail.
  unfold Android.extract_wifi_credentials_from_android,
    Android.extraction_from.
  rewrite now_bind, try_except_unfold, bind_unfold, try_except_unfold.
  rewrite bind_unfold. unfold run at 1, finished, checked.
  destruct (exec env (ticks s.2) Android.find_argv)
    as [rc out err millis|rc millis|]; [| |by eexists];
    (destruct (seconds 10 <? millis) eqn:Hlate; [by eexists|];
     destruct Hfail as [Hrc|Hlong]; [|lia];
     apply Z.eqb_neq in Hrc; rewrite Hrc; by eexists).
Qed.

Lemma failed_discovery_ends_extraction_witness :
  ∃ s',
    Android.extract_wifi_credentials_from_android Cases.env_no_discovery
      "Pixel" "AA:AA" Scenario.android_start = (Ok false, s') ∧
    trace s'.2 = [ERun Android.find_argv 0] ∧
    s'.1 = Scenario.android_start.1 ∧ files s'.2 = ∅.
Proof.
  apply (failed_discovery_ends_extraction Cases.env_no_discovery
           "Pixel" "AA:AA" Scenario.android_start).
  left. done.
Defined.

Lemma on_device_connected_devices (env : Env) (path : string)
    (interfaces : gmap string (gmap string string))
    (s : State Android.Sharer) :
  Android.connected_devices
    (Android.on_device_connected env path interfaces s).2.1
  = track (Android.connected_devices s.1)
      (Android.InterfacesAdded path interfaces).
Proof.
  unfold Android.on_device_connected, track, has_key.
  destruct (interfaces !! "org.bluez.Device1") as [device|]; [|done].
  replace (bool_decide (is_Some (Some device))) with true by done.
  revert s.
  apply (stable_try_mret
           (λ s s', Android.connected_devices s'.1
                    = {[path]} ∪ Android.connected_devices s.1)).
  apply (stable_seq
           (λ s s1, Android.connected_devices s1.1
                    = {[path]} ∪ Android.connected_devices s.1)
           same_devices).
  - intros s s1 s2 H1 H2. unfold same_devices in H2. by rewrite H2.
  - done.
  - by intros s.
  - intros _. apply stable_bind; [tc_solve|apply extract_same_devices|].
    intros _. stable_auto.
Qed.

(** X7. After the main loop has delivered a queue of signals, the set of
    connected devices is the one got by folding the signals over the
    initial set: an added object that carries the device interface joins
    it, a removed object leaves it. Nothing the commands do has a part in
    it. *)
Theorem mainloop_tracks_devices (env : Env)
    (queue : list (Z * Android.Signal)) (s : State Android.Sharer) :
  Android.connected_devices (Android.mainloop_run env queue s).2.1
  = foldl track (Android.connected_devices s.1) queue.*2.
Proof.
  revert s. induction queue as [|[emitted sig] queue IH]; intros s; [done|].
  rewrite mainloop_run_cons, IH. csimpl. f_equal.
  destruct sig as [path interfaces|path interfaces]; simpl.
  - by rewrite on_device_connected_devices.
  - by rewrite on_device_disconnected_forgets.
Qed.

(** *** Methods that act without changing the object *)

#[global] Instance only_acts_preorder {Self} : PreOrder (@only_acts Self).
Proof.
  split.
  - intros s. split; [done|]. exists []. by rewrite app_nil_r.
  - intros s1 s2 s3 [H1 [evs1 He1]] [H2 [evs2 He2]]. split; [congruence|].
    exists (evs1 ++ evs2). by rewrite He2, He1, app_assoc.
Qed.

#[global] Instance same_files_preorder {Self} : PreOrder (@same_files Self).
Proof. split; unfold same_files; [done|]. intros s1 s2 s3 H1 H2. congruence. Qed.

Lemma only_acts_run {Self} (env : Env) argv check timeout :
  stable (@only_acts Self) (run env argv check timeout).
Proof. intros s. split; [|eexists; apply run_trace]. run_cases. Qed.

Lemma only_acts_run_text {Self} (env : Env) argv check timeout :
  stable (@only_acts Self) (run_text env argv check timeout).
Proof. intros s. split; [|eexists; apply run_text_trace]. run_cases. Qed.

Lemma only_acts_sleep {Self} secs : stable (@only_acts Self) (sleep secs).
Proof. intros s. split; [done|]. by eexists. Qed.

Lemma only_acts_write_file {Self} (env : Env) path content :
  stable (@only_acts Self) (write_file env path content).
Proof.
  intros s. unfold write_file.
  destruct (fwrite env _ path); (split; [done|by eexists]).
Qed.

Lemma same_files_run {Self} (env : Env) argv check timeout :
  stable (@same_files Self) (run env argv check timeout).
Proof. intros s. unfold same_files. run_cases. Qed.

Lemma same_files_run_text {Self} (env : Env) argv check timeout :
  stable (@same_files Self) (run_text env argv check timeout).
Proof. intros s. unfold same_files. run_cases. Qed.

Lemma same_files_sleep {Self} secs : stable (@same_files Self) (sleep secs).
Proof. by intros s. Qed.

#[global] Hint Resolve only_acts_run only_acts_run_text only_acts_sleep
  only_acts_write_file same_files_run same_files_run_text same_files_sleep
  : stable.

Ltac unfold_android :=
  unfold Android.try_android_specific_methods,
    Android.direct_android_extraction,
    Android.check_for_android_network_info,
    Android.check_android_group_status,
    Android.check_for_android_service_responses,
    Android.debug_android_wifi_direct_state,
    Android.check_android_wifi_direct_connection,
    Android.connect_to_extracted_network,
    Android.check_wifi_connection.

Lemma check_sources_only_acts (env : Env) sources :
  stable only_acts (Android.check_sources env sources).
Proof. induction sources; simpl; stable_auto. Qed.

Lemma check_sources_same_files (env : Env) sources :
  stable same_files (Android.check_sources env sources).
Proof. induction sources; simpl; stable_auto. Qed.

#[global] Hint Resolve check_sources_only_acts check_sources_same_files : stable.

(** X8. The Android-specific methods (service discovery, group formation
    and the direct query, with all they call) only run commands and sleep:
    whatever they return, no field of the object has changed and no file
    has been written. *)
Theorem specific_methods_leave_no_mark (env : Env)
    (device_name device_address : string) (s : State Android.Sharer) :
  untouched s
    (Android.try_android_specific_methods env device_name device_address s).2.
Proof.
  split.
  - revert s.
    apply (stable_weaken only_acts (λ s s', s'.1 = s.1)); [by intros ?? []|].
    unfold_android. stable_auto.
  - revert s.
    apply (stable_weaken same_files (λ s s', files s'.2 = files s.2)); [done|].
    unfold_android. stable_auto.
Qed.
(** ** Time spent asleep *)

Lemma total_sleep_app (evs1 evs2 : list Event) :
  total_sleep (evs1 ++ evs2) = total_sleep evs1 + total_sleep evs2.
Proof. induction evs1 as [|ev evs1 IH]; simpl; [done|]. rewrite IH. lia. Qed.

Lemma sleeps_within_refl {Self} (bound : Z) (s : State Self) :
  0 ≤ bound → sleeps_within bound s s.
Proof.
  intros Hb. exists []. rewrite app_nil_r. split; [done|].
  unfold attempt_sleep. simpl. lia.
Qed.

Lemma sleeps_within_trans {Self} (b1 b2 : Z) (s s1 s2 : State Self) :
  sleeps_within b1 s s1 → sleeps_within b2 s1 s2 →
  sleeps_within (b1 + b2) s s2.
Proof.
  intros (evs1 & H1 & Hb1) (evs2 & H2 & Hb2). exists (evs1 ++ evs2).
  rewrite H2, H1, <- app_assoc. split; [done|].
  rewrite total_sleep_app, attempts_app, length_app. unfold attempt_sleep in *.
  lia.
Qed.

Lemma sleeps_within_weaken {Self} (b1 b2 : Z) (s s' : State Self) :
  b1 ≤ b2 → sleeps_within b1 s s' → sleeps_within b2 s s'.
Proof. intros Hb (evs & H & Hs). exists evs. split; [done|]. lia. Qed.

#[global] Instance sleeps_within_preorder {Self} :
  PreOrder (@sleeps_within Self 0).
Proof.
  split.
  - intros s. by apply sleeps_within_refl.
  - intros s1 s2 s3 H1 H2. apply (sleeps_within_trans 0 0 s1 s2 s3 H1 H2).
Qed.

Lemma sleeps_run {Self} (env : Env) argv check timeout :
  stable (@sleeps_within Self 0) (run env argv check timeout).
Proof.
  intros s. exists [ERun argv (clock s.2)]. split; [apply run_trace|].
  unfold attempt_sleep. simpl. lia.
Qed.

Lemma sleeps_run_text {Self} (env : Env) argv check timeout :
  stable (@sleeps_within Self 0) (run_text env argv check timeout).
Proof.
  intros s. exists [ERun argv (clock s.2)]. split; [apply run_text_trace|].
  unfold attempt_sleep. simpl. lia.
Qed.

Lemma sleeps_run_connect {Self} (env : Env) device_address check timeout :
  stable (@sleeps_within Self (- attempt_sleep))
    (run_text env (Android.connect_argv device_address) check timeout).
Proof.
  intros s. exists [ERun (Android.connect_argv device_address) (clock s.2)].
  split; [apply run_text_trace|]. unfold attempt_sleep. simpl. lia.
Qed.

Lemma sleeps_sleep {Self} secs :
  stable (@sleeps_within Self secs) (sleep secs).
Proof.
  intros s. exists [ESleep secs (clock s.2)]. split; [done|].
  unfold attempt_sleep. simpl. lia.
Qed.

Lemma sleeps_write_file {Self} (env : Env) path content :
  stable (@sleeps_within Self 0) (write_file env path content).
Proof.
  intros s. exists [EWrite path (clock s.2)]. split.
  - unfold write_file. by destruct (fwrite env _ path).
  - unfold attempt_sleep. simpl. lia.
Qed.

Lemma sleeps_modify_self {Self} (f : Self → Self) :
  stable (@sleeps_within Self 0) (modify_self f).
Proof.
  intros s. exists []. simpl. rewrite app_nil_r. split; [done|].
  unfold attempt_sleep. simpl. lia.
Qed.

#[global] Hint Resolve sleeps_run sleeps_run_text sleeps_write_file
  sleeps_modify_self : stable.

(** Sequencing with bounds that add up to at most [b]. *)
Lemma sleeps_seq {Self A B} (b1 b2 b : Z) (m : M Self A) (k : A → M Self B) :
  b1 + b2 ≤ b → b1 ≤ b →
  stable (sleeps_within b1) m → (∀ a, stable (sleeps_within b2) (k a)) →
  stable (sleeps_within b) (m ≫= k).
Proof.
  intros Hsum Hfirst. apply stable_seq.
  - intros s s1 s2 H1 H2. apply (sleeps_within_weaken (b1 + b2)); [done|].
    by apply (sleeps_within_trans b1 b2 s s1 s2).
  - intros s s1 H1. by apply (sleeps_within_weaken b1).
Qed.

Lemma sleeps_more {Self A} (b1 b2 : Z) (m : M Self A) :
  b1 ≤ b2 → stable (sleeps_within b1) m → stable (sleeps_within b2) m.
Proof. intros Hb. apply stable_weaken. intros s s'. by apply sleeps_within_weaken. Qed.

Ltac sleeps_none :=
  apply (sleeps_more 0); [unfold attempt_sleep; lia|]; unfold_android; stable_auto.

Ltac sleeps_split b1 b2 :=
  apply (sleeps_seq b1 b2);
    [unfold attempt_sleep; lia | unfold attempt_sleep; lia | | ].

Lemma check_sources_sleeps (env : Env) sources :
  stable (sleeps_within 0) (Android.check_sources env sources).
Proof. induction sources; simpl; stable_auto. Qed.
#[global] Hint Resolve check_sources_sleeps : stable.

Lemma connect_to_extracted_network_sleeps (env : Env) ssid password :
  stable (sleeps_within 10)
    (Android.connect_to_extracted_network env ssid password).
Proof.
  unfold Android.connect_to_extracted_network. apply stable_try_mret.
  do 5 (sleeps_split 0 10; [stable_auto|intros ?]).
  sleeps_split 10 0; [apply sleeps_sleep|intros ?]. sleeps_none.
Qed.

Lemma extract_android_network_credentials_sleeps (env : Env) status :
  stable (sleeps_within 10)
    (Android.extract_android_network_credentials env status).
Proof.
  unfold Android.extract_android_network_credentials. apply stable_try_mret.
  sleeps_split 0 10; [sleeps_none|intros ?].
  destruct (_ || _); [|sleeps_none].
  destruct (_ && _); [|sleeps_none].
  do 2 (sleeps_split 0 10; [stable_auto|intros ?]).
  sleeps_split 10 0; [apply connect_to_extracted_network_sleeps|intros ?]. sleeps_none.
Qed.

Lemma extract_credentials_sleeps (env : Env) :
  stable (sleeps_within 10)
    (Android.extract_credentials_from_android_wifi_direct env).
Proof.
  unfold Android.extract_credentials_from_android_wifi_direct.
  apply stable_try_mret. sleeps_split 0 10; [stable_auto|intros ?].
  destruct (_ =? _); [|sleeps_none].
  sleeps_split 10 0; [apply extract_android_network_credentials_sleeps|intros ?].
  sleeps_none.
Qed.

Lemma wait_for_connection_sleeps (env : Env) (n : nat) :
  stable (sleeps_within (Z.of_nat n + 10)) (Android.wait_for_connection env n).
Proof.
  induction n as [|n IH].
  { simpl. sleeps_none. }
  cbn [Android.wait_for_connection].
  apply (sleeps_seq 1 (Z.of_nat n + 10)); [lia | lia | apply sleeps_sleep |].
  intros _.
  apply (sleeps_seq 0 (Z.of_nat n + 10)); [lia | lia | sleeps_none |].
  intros [|]; [|done].
  apply (sleeps_more 10); [lia|]. apply extract_credentials_sleeps.
Qed.

Lemma connect_sleeps (env : Env) device_name device_address :
  stable (sleeps_within 0)
    (Android.connect_to_android_via_wifi_direct env device_name
       device_address).
Proof.
  unfold Android.connect_to_android_via_wifi_direct. apply stable_try_mret.
  apply (sleeps_seq (- attempt_sleep) attempt_sleep);
    [lia | unfold attempt_sleep; lia | apply sleeps_run_connect |].
  intros result. destruct (_ =? _); [|sleeps_none].
  apply (wait_for_connection_sleeps env 45).
Qed.
#[global] Hint Resolve connect_sleeps : stable.

Lemma connect_loop_sleeps (env : Env) start_time devices :
  stable (sleeps_within 0) (Android.connect_loop env start_time devices).
Proof.
  induction devices as [|d devices IH]; simpl; unfold_android; stable_auto.
Qed.

Lemma direct_extraction_sleeps (env : Env) device_name device_address :
  stable (sleeps_within 10)
    (Android.direct_android_extraction env device_name device_address).
Proof.
  unfold Android.direct_android_extraction. apply stable_try_mret.
  sleeps_split 0 10; [stable_auto|intros ?].
  destruct (_ && _); [sleeps_none|].
  sleeps_split 0 10; [stable_auto|intros ?].
  sleeps_split 10 0; [apply sleeps_sleep|intros ?]. sleeps_none.
Qed.

Lemma specific_methods_sleeps (env : Env) device_name device_address :
  stable (sleeps_within 35)
    (Android.try_android_specific_methods env device_name device_address).
Proof.
  unfold Android.try_android_specific_methods. apply stable_try_mret.
  sleeps_split 0 35; [stable_auto|intros ?].
  sleeps_split 10 25.
  { destruct (_ =? _); [|sleeps_none].
    sleeps_split 10 0; [apply sleeps_sleep|intros ?]. sleeps_none. }
  intros [|]; [sleeps_none|].
  sleeps_split 0 25; [stable_auto|intros ?].
  sleeps_split 15 10.
  { destruct (_ =? _); [|sleeps_none].
    sleeps_split 15 0; [apply sleeps_sleep|intros ?]. sleeps_none. }
  intros [|]; [sleeps_none|]. apply direct_extraction_sleeps.
Qed.

(** X9. One run of the extraction sleeps for at most 50 seconds (15 after
    the discovery, 10, 15 and 10 in the Android-specific methods) and 55
    seconds more for each connect attempt it makes: the time the commands
    take apart, its duration is bounded by the number of peers it tries. *)
Theorem extraction_sleep_bounded (env : Env)
    (device_name device_address : string) (s : State Android.Sharer) :
  let s' := (Android.extract_wifi_credentials_from_android env device_name
               device_address s).2 in
  total_sleep (added s s')
  ≤ 50 + 55 * Z.of_nat (length (attempts (added s s'))).
Proof.
  intros s'.
  assert (sleeps_within 50 s s') as (evs & Htrace & Hbound).
  { subst s'. revert s.
    unfold Android.extract_wifi_credentials_from_android,
    Android.extraction_from.
    intros s. rewrite now_bind. generalize (clock s.2) as t0. intros t0.
    revert s. apply stable_try_mret.
    sleeps_split 15 35.
    { apply stable_try_mret. sleeps_split 0 15; [stable_auto|intros ?].
      sleeps_split 15 0; [apply sleeps_sleep|intros ?]. sleeps_none. }
    intros [b|]; [sleeps_none|].
    sleeps_split 0 35; [stable_auto|intros ?].
    sleeps_split 0 35.
    { destruct (_ && _); [apply connect_loop_sleeps|sleeps_none]. }
    intros [b|]; [sleeps_none|].
    sleeps_split 0 35; [stable_auto|intros ?].
    destruct (_ >? _); [sleeps_none|].
    sleeps_split 35 0; [apply specific_methods_sleeps|intros ?]. sleeps_none. }
  unfold added. rewrite Htrace, drop_app_length. exact Hbound.
Qed.
(** ** The flag [credentials_received] *)

#[global] Instance received_kept_preorder : PreOrder received_kept.
Proof.
  split.
  - intros s. split; [done|]. exists []. by rewrite app_nil_r.
  - intros s1 s2 s3 [H1 [evs1 He1]] [H2 [evs2 He2]]. split; [auto|].
    exists (evs1 ++ evs2). by rewrite He2, He1, app_assoc.
Qed.

#[global] Instance received_after_write_preorder : PreOrder received_after_write.
Proof.
  split.
  - intros s. exists []. rewrite app_nil_r. split_and!; auto.
  - intros s1 s2 s3 (evs1 & He1 & Hk1 & Hw1) (evs2 & He2 & Hk2 & Hw2).
    exists (evs1 ++ evs2). rewrite He2, He1, app_assoc. split_and!; auto.
    intros H3. destruct (Hw2 H3) as [H2|[t Ht]].
    + destruct (Hw1 H2) as [H1|[t Ht]]; [by left|].
      right. exists t. apply elem_of_app. by left.
    + right. exists t. apply elem_of_app. by right.
Qed.

Lemma only_acts_received_kept (s s' : State Android.Sharer) :
  only_acts s s' → received_kept s s'.
Proof. intros [Hself Hevs]. split; [|done]. by rewrite Hself. Qed.

Lemma only_acts_received (s s' : State Android.Sharer) :
  only_acts s s' → received_after_write s s'.
Proof.
  intros [Hself [evs Hevs]]. exists evs. rewrite Hself. split_and!; auto.
Qed.

Lemma received_acting {A} (m : M Android.Sharer A) :
  stable only_acts m → stable received_after_write m.
Proof. apply stable_weaken, only_acts_received. Qed.

Lemma connect_to_extracted_network_only_acts (env : Env) ssid password :
  stable only_acts (Android.connect_to_extracted_network env ssid password).
Proof. unfold_android. stable_auto. Qed.

Lemma check_connection_only_acts (env : Env) :
  stable only_acts (Android.check_android_wifi_direct_connection env).
Proof. unfold_android. stable_auto. Qed.

Lemma debug_state_only_acts (env : Env) :
  stable only_acts (Android.debug_android_wifi_direct_state env).
Proof. unfold_android. stable_auto. Qed.

Lemma specific_methods_only_acts (env : Env) device_name device_address :
  stable only_acts
    (Android.try_android_specific_methods env device_name device_address).
Proof. unfold_android. stable_auto. Qed.

Lemma write_store_wrote {Self} (env : Env) content :
  stable (@wrote_store Self) (write_file env config_file content).
Proof. intros s. unfold write_file. by destruct (fwrite env _ config_file). Qed.

Lemma extract_android_network_credentials_received (env : Env) status :
  stable received_after_write
    (Android.extract_android_network_credentials env status).
Proof.
  unfold Android.extract_android_network_credentials. apply stable_try_mret.
  apply stable_bind; [tc_solve|stable_auto|intros network_info].
  destruct (_ || _); [|stable_auto].
  destruct (_ && _); [|stable_auto].
  apply (stable_seq wrote_store received_kept).
  - intros s s1 s2 [Hself Hw] [Hkept [evs Hevs]].
    exists (EWrite config_file (clock s.2) :: evs).
    rewrite Hevs, Hw, <- app_assoc. split_and!; [done| |].
    + rewrite <- Hself. exact Hkept.
    + intros _. right. exists (clock s.2). apply list_elem_of_here.
  - intros s s1 [Hself Hw]. exists [EWrite config_file (clock s.2)].
    rewrite Hself. split_and!; auto.
  - apply write_store_wrote.
  - intros _. apply stable_bind; [tc_solve| |intros _].
    { intros s. split; [done|]. exists []. simpl. by rewrite app_nil_r. }
    apply (stable_weaken only_acts); [apply only_acts_received_kept|].
    apply stable_bind;
      [tc_solve|apply connect_to_extracted_network_only_acts|intros []];
      stable_auto.
Qed.

Lemma extract_credentials_received (env : Env) :
  stable received_after_write
    (Android.extract_credentials_from_android_wifi_direct env).
Proof.
  unfold Android.extract_credentials_from_android_wifi_direct.
  apply stable_try_mret.
  apply stable_bind; [tc_solve|apply received_acting; stable_auto|].
  intros result. destruct (_ =? _); [|stable_auto].
  apply stable_bind;
    [tc_solve|apply extract_android_network_credentials_received|].
  intros []; stable_auto.
Qed.

Lemma wait_for_connection_received (env : Env) (n : nat) :
  stable received_after_write (Android.wait_for_connection env n).
Proof.
  induction n as [|n IH]; simpl; [stable_auto|].
  apply stable_bind; [tc_solve|apply received_acting; stable_auto|intros _].
  apply stable_bind;
    [tc_solve|apply received_acting, check_connection_only_acts|].
  intros [|]; [apply extract_credentials_received|done].
Qed.

Lemma connect_received (env : Env) device_name device_address :
  stable received_after_write
    (Android.connect_to_android_via_wifi_direct env device_name
       device_address).
Proof.
  unfold Android.connect_to_android_via_wifi_direct. apply stable_try_mret.
  apply stable_bind; [tc_solve|apply received_acting; stable_auto|].
  intros result. destruct (_ =? _); [|stable_auto].
  apply wait_for_connection_received.
Qed.

Lemma connect_loop_received (env : Env) start_time devices :
  stable received_after_write (Android.connect_loop env start_time devices).
Proof.
  induction devices as [|d devices IH]; simpl; [stable_auto|].
  apply stable_bind; [tc_solve|stable_auto|intros address].
  apply stable_bind; [tc_solve|stable_auto|intros t].
  destruct (_ >? _); [stable_auto|].
  apply stable_bind; [tc_solve|apply connect_received|].
  intros [|]; [stable_auto|].
  apply stable_bind;
    [tc_solve|apply received_acting, debug_state_only_acts|by intros _].
Qed.

Lemma extract_received (env : Env) device_name device_address :
  stable received_after_write
    (Android.extract_wifi_credentials_from_android env device_name
       device_address).
Proof.
  unfold Android.extract_wifi_credentials_from_android,
    Android.extraction_from.
  intros s. rewrite now_bind. generalize (clock s.2) as t0. intros t0.
  revert s. apply stable_try_mret.
  apply stable_bind; [tc_solve| |intros [b|]; [stable_auto|]].
  { apply received_acting. stable_auto. }
  apply stable_bind; [tc_solve|apply received_acting; stable_auto|].
  intros result.
  apply stable_bind; [tc_solve| |intros [b|]; [stable_auto|]].
  { destruct (_ && _); [apply connect_loop_received|stable_auto]. }
  apply stable_bind; [tc_solve|stable_auto|intros t].
  destruct (_ >? _); [stable_auto|].
  apply stable_bind;
    [tc_solve|apply received_acting, specific_methods_only_acts|].
  intros []; stable_auto.
Qed.

Lemma receive_received (env : Env) sig :
  stable received_after_write (Android.receive env sig).
Proof.
  destruct sig as [path interfaces|path interfaces]; simpl.
  - unfold Android.on_device_connected. apply stable_try_mret.
    destruct (interfaces !! "org.bluez.Device1"); [|stable_auto].
    apply stable_bind; [tc_solve| |intros _].
    { intros s. exists []. simpl. rewrite app_nil_r. split_and!; auto. }
    apply stable_bind; [tc_solve|apply extract_received|intros _].
    stable_auto.
  - intros s. rewrite on_device_disconnected_forgets.
    exists []. simpl. rewrite app_nil_r. split_and!; auto.
Qed.

Lemma mainloop_received (env : Env) queue :
  stable received_after_write (Android.mainloop_run env queue).
Proof.
  induction queue as [|[emitted sig] queue IH]; [simpl; by stable_auto|].
  intros s. rewrite mainloop_run_cons.
  transitivity (Android.receive env sig
                  (s.1, advance (emitted - clock s.2) s.2)).2; [|apply IH].
  transitivity (s.1, advance (emitted - clock s.2) s.2);
    [|apply receive_received].
  exists []. simpl. rewrite app_nil_r. split_and!; auto.
Qed.

(** X10. Over any queue of signals the main loop delivers, the flag
    [credentials_received] is never taken back once set, and it is not
    set unless a write of the credential file was begun in between. *)
Theorem received_only_after_store (env : Env)
    (queue : list (Z * Android.Signal)) (s : State Android.Sharer) :
  let s' := (Android.mainloop_run env queue s).2 in
  (Android.credentials_received s.1 = true →
   Android.credentials_received s'.1 = true) ∧
  (Android.credentials_received s'.1 = true →
   Android.credentials_received s.1 = true ∨
   ∃ t, EWrite config_file t ∈ added s s').
Proof.
  intros s'. destruct (mainloop_received env queue s) as (evs & He & Hk & Hw).
  fold s' in He, Hk, Hw. split; [done|].
  unfold added. by rewrite He, drop_app_length.
Qed.

(** X11. When a run of [extract_android_network_credentials] sets the
    flag [credentials_received], the credential file holds at its return
    the pair read from the status text under the keys [ssid] and [psk];
    the attempt to join the network that follows, whether it succeeds or
    not, does not touch the file. *)
Theorem received_means_stored (env : Env) (status : string)
    (s : State Android.Sharer) :
  let s' := (Android.extract_android_network_credentials env status s).2 in
  Android.credentials_received s.1 = false →
  Android.credentials_received s'.1 = true →
  ∃ network_info,
    parse_status status = Some network_info ∧
    files s'.2 !! config_file
    = Some (JsonCredentials (dict_get "ssid" "Unknown" network_info)
              (dict_get "psk" "Unknown" network_info)).
Proof.
  intros s' Hbefore Hafter.
  destruct (parse_status_lines_spec (PyStr.split newline status) ∅)
    as (network_info & Hparse & _).
  fold (parse_status status) in Hparse.
  exists network_info. split; [done|]. revert Hafter. subst s'.
  unfold Android.extract_android_network_credentials.
  rewrite Hparse, try_except_unfold, mret_bind.
  destruct (_ || _); [|simpl; congruence].
  destruct (_ && _); [|simpl; congruence].
  set (ssid := dict_get "ssid" "Unknown" network_info).
  set (password := dict_get "psk" "Unknown" network_info).
  rewrite bind_unfold. unfold write_file.
  destruct (fwrite env (ticks s.2) config_file); [|simpl; congruence..].
  cbn beta iota zeta.
  intros _. rewrite bind_unfold, modify_self_unfold, bind_unfold.
  match goal with
  | |- context [Android.connect_to_extracted_network env ssid password ?s1] =>
      pose proof (connect_to_extracted_network_same_store env ssid password s1)
        as Hstore;
      destruct (Android.connect_to_extracted_network env ssid password s1)
        as [[[|]|e] s2]
  end; simpl in *; unfold same_store in Hstore; simpl in Hstore;
    rewrite Hstore; apply lookup_insert_eq.
Qed.

Lemma received_means_stored_witness :
  let s' := (Android.extract_android_network_credentials
               Scenario.env_no_association
               ("ssid=HomeNet" +:+ nl +:+ "psk=s3cr3t" +:+ nl)
               Scenario.android_start).2 in
  Android.credentials_received s'.1 = true ∧
  ∃ network_info,
    parse_status ("ssid=HomeNet" +:+ nl +:+ "psk=s3cr3t" +:+ nl)
    = Some network_info ∧
    files s'.2 !! config_file
    = Some (JsonCredentials (dict_get "ssid" "Unknown" network_info)
              (dict_get "psk" "Unknown" network_info)).
Proof.
  intros s'.
  assert (Android.credentials_received s'.1 = true) as Hset
    by (vm_compute; reflexivity).
  split; [exact Hset|].
  apply (received_means_stored Scenario.env_no_association
           ("ssid=HomeNet" +:+ nl +:+ "psk=s3cr3t" +:+ nl)
           Scenario.android_start); [reflexivity|exact Hset].
Defined.
(** ** [wifi_direct_sharer.py] *)

Ltac unfold_wifi_direct :=
  unfold WiFiDirect.extract_wifi_credentials_via_bluetooth_only,
    WiFiDirect.try_alternative_wifi_direct_methods,
    WiFiDirect.direct_wifi_direct_extraction,
    WiFiDirect.check_for_network_info,
    WiFiDirect.check_for_service_responses,
    WiFiDirect.check_for_network_responses,
    WiFiDirect.check_wifi_direct_connection.

Lemma wifi_direct_check_sources_only_acts (env : Env) sources :
  stable only_acts (WiFiDirect.check_sources env sources).
Proof. induction sources; simpl; stable_auto. Qed.

Lemma wifi_direct_check_sources_same_files (env : Env) sources :
  stable same_files (WiFiDirect.check_sources env sources).
Proof. induction sources; simpl; stable_auto. Qed.

#[global] Hint Resolve wifi_direct_check_sources_only_acts
  wifi_direct_check_sources_same_files : stable.

Lemma bluetooth_only_only_acts (env : Env) device_name device_address :
  stable only_acts
    (WiFiDirect.extract_wifi_credentials_via_bluetooth_only env device_name
       device_address).
Proof. unfold_wifi_direct. stable_auto. Qed.

Lemma alternative_methods_only_acts (env : Env) device_name device_address :
  stable only_acts
    (WiFiDirect.try_alternative_wifi_direct_methods env device_name
       device_address).
Proof. unfold_wifi_direct. unfold WiFiDirect.request_argv. stable_auto. Qed.

Lemma check_connection_wifi_direct_only_acts (env : Env) :
  stable only_acts (WiFiDirect.check_wifi_direct_connection env).
Proof. unfold_wifi_direct. stable_auto. Qed.

(** What [extract_network_credentials] does, by the outcome of the write. *)
Lemma wifi_direct_extract_unfold (env : Env) (status : string)
    (network_info : gmap string string) (s : State WiFiDirect.Sharer) :
  parse_status status = Some network_info →
  let ssid := dict_get "ssid" "Unknown" network_info in
  let password := dict_get "psk" "Unknown" network_info in
  let w := asked (record (EWrite config_file (clock s.2)) s.2) in
  WiFiDirect.extract_network_credentials env status s
  = if (has_key "ssid" network_info || has_key "psk" network_info)
       && (negb (String.eqb ssid "Unknown")
           && negb (String.eqb password "Unknown"))
    then match fwrite env (ticks s.2) config_file with
         | Written =>
             (Ok true,
              (WiFiDirect.set_received true s.1,
               store config_file (JsonCredentials ssid password) w))
         | OpenFailed => (Ok false, (s.1, w))
         | WriteFailed => (Ok false, (s.1, store config_file Emptied w))
         end
    else (Ok false, s).
Proof.
  intros Hparse ssid password w.
  unfold WiFiDirect.extract_network_credentials.
  rewrite Hparse, try_except_unfold, mret_bind.
  fold ssid password.
  destruct (_ || _); [|done].
  destruct (_ && _); [|done]. cbn [andb].
  rewrite bind_unfold. unfold write_file. cbn beta zeta. fold w.
  by destruct (fwrite env (ticks s.2) config_file).
Qed.

Lemma not_unknown_test (network_info : gmap string string) :
  (has_key "ssid" network_info || has_key "psk" network_info)
  && (negb (String.eqb (dict_get "ssid" "Unknown" network_info) "Unknown")
      && negb (String.eqb (dict_get "psk" "Unknown" network_info) "Unknown"))
  = true ↔ not_unknown network_info.
Proof.
  unfold not_unknown, dict_get, has_key.
  destruct (network_info !! "ssid") as [ssid|];
    destruct (network_info !! "psk") as [psk|]; simpl;
    rewrite ?andb_false_r; try (split; [done|by intros [? ?]]).
  destruct (String.eqb_spec ssid "Unknown");
    destruct (String.eqb_spec psk "Unknown"); simpl;
    split; try done; by intros [? ?].
Qed.

(** X12. [extract_network_credentials] of the plain sharer returns [True]
    exactly when neither field read from the status is the placeholder
    and the credential file could be written; the file then holds that
    pair and the flag is set. In every other case it returns [False] with
    the object unchanged. It runs no command and does not try to join the
    network. *)
Theorem wifi_direct_stores_iff (env : Env) (status : string)
    (s : State WiFiDirect.Sharer) :
  ∃ network_info,
    parse_status status = Some network_info ∧
    let r := WiFiDirect.extract_network_credentials env status s in
    (r.1 = Ok true ↔
       not_unknown network_info ∧
       fwrite env (ticks s.2) config_file = Written) ∧
    (r.1 = Ok true →
       files r.2.2 !! config_file
       = Some (JsonCredentials (dict_get "ssid" "Unknown" network_info)
                 (dict_get "psk" "Unknown" network_info)) ∧
       WiFiDirect.credentials_received r.2.1 = true) ∧
    (r.1 ≠ Ok true → r.1 = Ok false ∧ r.2.1 = s.1) ∧
    commands (added s r.2) = [].
Proof.
  destruct (parse_status_lines_spec (PyStr.split newline status) ∅)
    as (network_info & Hparse & _).
  fold (parse_status status) in Hparse.
  exists network_info. split; [done|]. intros r. subst r.
  rewrite (wifi_direct_extract_unfold env status network_info s Hparse).
  cbv zeta. rewrite <- not_unknown_test. unfold added.
  destruct (_ && _).
  - destruct (fwrite env (ticks s.2) config_file); simpl;
      rewrite drop_app_length; split_and!; try done.
    + intros _. by rewrite lookup_insert_eq.
    + split; [done|by intros [_ ?]].
    + split; [done|by intros [_ ?]].
  - simpl. rewrite drop_all. split_and!; try done.
    split; [done|by intros [? _]].
Qed.
(** *** Where the flag can be set *)

Lemma stored_or_same_quiet {A} (m : M WiFiDirect.Sharer A) :
  stable only_acts m → ∀ s, (m s).2.1 = s.1.
Proof. intros Hm s. by destruct (Hm s). Qed.

Lemma stored_after_quiet {A} (m : M WiFiDirect.Sharer A)
    (k : A → M WiFiDirect.Sharer bool) :
  stable only_acts m → (∀ a, ensures stored_or_same (k a)) →
  ensures stored_or_same (m ≫= k).
Proof.
  intros Hm Hk s. rewrite bind_unfold.
  pose proof (stored_or_same_quiet m Hm s) as Hself.
  destruct (m s) as [[a|e] s1]; simpl in *; [|by right].
  destruct (Hk a s1) as [Hstored|Hsame]; [by left|right; congruence].
Qed.

Lemma stored_then_quiet (inner rest : M WiFiDirect.Sharer bool) :
  ensures stored_or_same inner → stable only_acts rest →
  ensures stored_or_same
    (found ← inner; if (found : bool) then mret true else rest).
Proof.
  intros Hinner Hrest s. rewrite bind_unfold.
  specialize (Hinner s).
  destruct (inner s) as [[[|]|e] s1]; simpl in *; try done.
  destruct Hinner as [[? _]|Hsame]; [done|].
  right. rewrite <- Hsame. apply (stored_or_same_quiet rest Hrest).
Qed.

Lemma stored_try (body handler : M WiFiDirect.Sharer bool) catches :
  ensures stored_or_same body → stable only_acts handler →
  ensures stored_or_same (try_except body catches handler).
Proof.
  intros Hbody Hhandler s. rewrite try_except_unfold.
  specialize (Hbody s).
  destruct (body s) as [[b|e] s1]; simpl in *; [done|].
  destruct (catches e); [|done].
  destruct Hbody as [[? _]|Hsame]; [done|].
  right. rewrite <- Hsame. apply (stored_or_same_quiet handler Hhandler).
Qed.

Lemma stored_quiet (m : M WiFiDirect.Sharer bool) :
  stable only_acts m → ensures stored_or_same m.
Proof. intros Hm s. right. apply (stored_or_same_quiet m Hm). Qed.

Lemma extract_network_credentials_stored (env : Env) status :
  ensures stored_or_same (WiFiDirect.extract_network_credentials env status).
Proof.
  intros s.
  destruct (parse_status_lines_spec (PyStr.split newline status) ∅)
    as (network_info & Hparse & _).
  fold (parse_status status) in Hparse.
  rewrite (wifi_direct_extract_unfold env status network_info s Hparse).
  cbv zeta.
  destruct (_ && _) eqn:Htest; [|by right].
  apply not_unknown_test in Htest as [Hssid Hpsk].
  destruct (fwrite env (ticks s.2) config_file); simpl; [|by right..].
  left. split; [done|]. split; [done|].
  exists (dict_get "ssid" "Unknown" network_info),
    (dict_get "psk" "Unknown" network_info).
  split; [|done]. simpl. apply lookup_insert_eq.
Qed.

Lemma extract_credentials_wifi_direct_stored (env : Env) :
  ensures stored_or_same (WiFiDirect.extract_credentials_from_wifi_direct env).
Proof.
  unfold WiFiDirect.extract_credentials_from_wifi_direct.
  apply stored_try; [|stable_auto].
  apply stored_after_quiet; [stable_auto|intros result].
  destruct (_ =? _); [|apply stored_quiet; stable_auto].
  apply stored_then_quiet;
    [apply extract_network_credentials_stored|stable_auto].
Qed.

Lemma connect_via_wifi_direct_stored (env : Env) device_name device_address :
  ensures stored_or_same
    (WiFiDirect.connect_via_wifi_direct env device_name device_address).
Proof.
  unfold WiFiDirect.connect_via_wifi_direct.
  apply stored_try; [|stable_auto].
  apply stored_after_quiet; [stable_auto|intros result].
  destruct (_ =? _); [|apply stored_quiet; stable_auto].
  apply stored_after_quiet; [stable_auto|intros _].
  apply stored_after_quiet;
    [apply check_connection_wifi_direct_only_acts|intros [|]].
  - apply extract_credentials_wifi_direct_stored.
  - apply stored_quiet. stable_auto.
Qed.

Lemma extraction_stored (env : Env) device_name device_address :
  ensures stored_or_same
    (WiFiDirect.extract_wifi_credentials_via_wifi_direct env device_name
       device_address).
Proof.
  unfold WiFiDirect.extract_wifi_credentials_via_wifi_direct.
  apply stored_try; [|apply bluetooth_only_only_acts].
  apply stored_after_quiet.
  { apply stable_try; [tc_solve|stable_auto|].
    apply stable_bind; [tc_solve|apply bluetooth_only_only_acts|].
    intros found. stable_auto. }
  intros [found|]; [apply stored_quiet; stable_auto|].
  apply stored_after_quiet; [stable_auto|intros result].
  apply stored_then_quiet.
  { destruct (_ && _); [|apply stored_quiet; stable_auto].
    apply connect_via_wifi_direct_stored. }
  apply stable_bind;
    [tc_solve|apply alternative_methods_only_acts|intros [|]];
    [stable_auto|apply bluetooth_only_only_acts].
Qed.

(** X13. When a run of [extract_wifi_credentials_via_wifi_direct] turns
    the flag [credentials_received] from [False] to [True], it returns
    [True] and the credential file holds at its return a pair neither
    field of which is the placeholder. *)
Theorem wifi_direct_flag_means_stored (env : Env)
    (device_name device_address : string) (s : State WiFiDirect.Sharer) :
  let r := WiFiDirect.extract_wifi_credentials_via_wifi_direct env
             device_name device_address s in
  WiFiDirect.credentials_received s.1 = false →
  WiFiDirect.credentials_received r.2.1 = true →
  r.1 = Ok true ∧
  ∃ ssid password,
    files r.2.2 !! config_file = Some (JsonCredentials ssid password) ∧
    ssid ≠ "Unknown" ∧ password ≠ "Unknown".
Proof.
  intros r Hbefore Hafter.
  destruct (extraction_stored env device_name device_address s)
    as [[Hr [_ Hfile]]|Hsame]; [done|].
  fold r in Hsame. rewrite Hsame in Hafter. congruence.
Qed.

Lemma wifi_direct_flag_means_stored_witness :
  let r := WiFiDirect.extract_wifi_credentials_via_wifi_direct
             Scenario.env_home "Pixel" "AA:AA" Cases.wifi_direct_start in
  WiFiDirect.credentials_received r.2.1 = true ∧
  r.1 = Ok true ∧
  ∃ ssid password,
    files r.2.2 !! config_file = Some (JsonCredentials ssid password) ∧
    ssid ≠ "Unknown" ∧ password ≠ "Unknown".
Proof.
  intros r.
  assert (WiFiDirect.credentials_received r.2.1 = true) as Hset
    by (vm_compute; reflexivity).
  split; [exact Hset|].
  apply (wifi_direct_flag_means_stored Scenario.env_home "Pixel" "AA:AA"
           Cases.wifi_direct_start); [reflexivity|exact Hset].
Defined.
(** *** Connect attempts of the plain sharer *)

Lemma attempts_none (evs : list Event) :
  Forall no_attempt evs → attempts evs = [].
Proof. intros H. unfold attempts. by rewrite timed_attempts_none. Qed.

Lemma one_attempt_reflexive {Self} a (s : State Self) :
  at_most_one_attempt a s s.
Proof. exists []. rewrite app_nil_r. split; [done|by left]. Qed.

Lemma no_attempt_one {Self} a (s s1 : State Self) :
  grows no_attempt s s1 → at_most_one_attempt a s s1.
Proof.
  intros (evs & H & Hno). exists evs. split; [done|]. left.
  by apply attempts_none.
Qed.

Lemma no_attempt_then_one {Self} a (s s1 s2 : State Self) :
  grows no_attempt s s1 → at_most_one_attempt a s1 s2 →
  at_most_one_attempt a s s2.
Proof.
  intros (evs1 & H1 & Hno) (evs2 & H2 & Hone). exists (evs1 ++ evs2).
  rewrite H2, H1, <- app_assoc. split; [done|].
  by rewrite attempts_app, (attempts_none evs1 Hno).
Qed.

Lemma one_then_no_attempt {Self} a (s s1 s2 : State Self) :
  at_most_one_attempt a s s1 → grows no_attempt s1 s2 →
  at_most_one_attempt a s s2.
Proof.
  intros (evs1 & H1 & Hone) (evs2 & H2 & Hno). exists (evs1 ++ evs2).
  rewrite H2, H1, <- app_assoc. split; [done|].
  by rewrite attempts_app, (attempts_none evs2 Hno), app_nil_r.
Qed.

Lemma starts_connect_one {Self} a (s s1 : State Self) :
  starts (WiFiDirect.connect_argv a) no_attempt s s1 →
  at_most_one_attempt a s s1.
Proof.
  intros (rest & H & Hno). eexists. split; [exact H|]. right.
  change (_ :: rest) with ([ERun (WiFiDirect.connect_argv a) (clock s.2)] ++ rest).
  by rewrite attempts_app, (attempts_none rest Hno).
Qed.

Lemma wifi_direct_check_sources_no_attempt (env : Env) sources :
  Forall (λ argv, ∀ t, no_attempt (ERun argv t)) sources →
  stable (grows no_attempt) (WiFiDirect.check_sources env sources).
Proof.
  induction 1 as [|source rest Hsource _ IH]; simpl; [stable_auto|].
  apply stable_bind; [tc_solve| |intros []; stable_auto].
  apply stable_try_mret.
  apply stable_bind; [tc_solve|by apply grows_run_text|intros ?; stable_auto].
Qed.

Lemma wifi_direct_network_info_no_attempt (env : Env) :
  stable (grows no_attempt) (WiFiDirect.check_for_network_info env).
Proof.
  unfold WiFiDirect.check_for_network_info. apply stable_try_mret.
  apply wifi_direct_check_sources_no_attempt. by repeat constructor.
Qed.

Lemma bluetooth_only_no_attempt (env : Env) device_name device_address :
  stable (grows no_attempt)
    (WiFiDirect.extract_wifi_credentials_via_bluetooth_only env device_name
       device_address).
Proof.
  unfold WiFiDirect.extract_wifi_credentials_via_bluetooth_only.
  stable_auto.
Qed.

Lemma alternative_methods_no_attempt (env : Env) device_name device_address :
  stable (grows no_attempt)
    (WiFiDirect.try_alternative_wifi_direct_methods env device_name
       device_address).
Proof.
  pose proof (wifi_direct_network_info_no_attempt env).
  unfold WiFiDirect.try_alternative_wifi_direct_methods,
    WiFiDirect.direct_wifi_direct_extraction,
    WiFiDirect.check_for_service_responses,
    WiFiDirect.check_for_network_responses.
  stable_auto.
Qed.

Lemma extract_credentials_wifi_direct_no_attempt (env : Env) :
  stable (grows no_attempt) (WiFiDirect.extract_credentials_from_wifi_direct env).
Proof.
  unfold WiFiDirect.extract_credentials_from_wifi_direct,
    WiFiDirect.extract_network_credentials.
  stable_auto.
Qed.

Lemma connect_via_one_attempt (env : Env) device_name device_address :
  stable (at_most_one_attempt device_address)
    (WiFiDirect.connect_via_wifi_direct env device_name device_address).
Proof.
  unfold WiFiDirect.connect_via_wifi_direct. apply stable_try_mret.
  apply (stable_weaken
           (starts (WiFiDirect.connect_argv device_address) no_attempt));
    [apply starts_connect_one|].
  apply (stable_seq (starts (WiFiDirect.connect_argv device_address) no_attempt)
           (grows no_attempt)); [apply starts_then_grows | done | apply starts_run_text |].
  intros result. pose proof (extract_credentials_wifi_direct_no_attempt env).
  unfold WiFiDirect.check_wifi_direct_connection. stable_auto.
Qed.

(** X14. One run of [extract_wifi_credentials_via_wifi_direct] issues at
    most one [p2p_connect], and issues it to the address it was called
    with, the Bluetooth address of the device that connected: the peers
    that the discovery listed play no part in the choice. *)
Theorem wifi_direct_connects_once (env : Env)
    (device_name device_address : string) (s : State WiFiDirect.Sharer) :
  let s' := (WiFiDirect.extract_wifi_credentials_via_wifi_direct env
               device_name device_address s).2 in
  attempts (added s s') = [] ∨ attempts (added s s') = [device_address].
Proof.
  intros s'.
  assert (at_most_one_attempt device_address s s') as (evs & Htrace & Hone).
  { subst s'. revert s.
    unfold WiFiDirect.extract_wifi_credentials_via_wifi_direct.
    apply (stable_try_seq (at_most_one_attempt device_address)
             (grows no_attempt));
      [apply one_then_no_attempt | done | |apply bluetooth_only_no_attempt].
    apply (stable_seq (grows no_attempt) (at_most_one_attempt device_address));
      [apply no_attempt_then_one | apply no_attempt_one | |].
    { apply stable_try; [tc_solve|stable_auto|].
      apply stable_bind; [tc_solve|apply bluetooth_only_no_attempt|].
      intros found. stable_auto. }
    intros [found|]; [intros s; apply one_attempt_reflexive|].
    apply (stable_seq (grows no_attempt) (at_most_one_attempt device_address));
      [apply no_attempt_then_one | apply no_attempt_one | stable_auto |].
    intros result.
    apply (stable_seq (at_most_one_attempt device_address) (grows no_attempt));
      [apply one_then_no_attempt | done | |].
    { destruct (_ && _); [apply connect_via_one_attempt|].
      intros s; apply one_attempt_reflexive. }
    intros [|]; [stable_auto|].
    apply stable_bind;
      [tc_solve|apply alternative_methods_no_attempt|intros [|]];
      [stable_auto|apply bluetooth_only_no_attempt]. }
  unfold added. by rewrite Htrace, drop_app_length.
Qed.

(** X15. The Bluetooth-only method returns [True] exactly when
    [bluetoothctl info] exits with 0 and its output mentions [network] or
    [wifi] in any case of letters. It never raises, and whatever it
    returns, the object and the files are as before: its [True] comes
    with no credential. *)
Theorem bluetooth_only_finds_nothing (env : Env)
    (device_name device_address : string) (s : State WiFiDirect.Sharer) :
  let r := WiFiDirect.extract_wifi_credentials_via_bluetooth_only env
             device_name device_address s in
  (r.1 = Ok true ∨ r.1 = Ok false) ∧
  (r.1 = Ok true ↔
     ∃ out err millis,
       exec env (ticks s.2) (WiFiDirect.info_argv device_address)
       = Exited 0 out err millis ∧
       WiFiDirect.parse_bluetooth_device_info out = true) ∧
  untouched s r.2.
Proof.
  intros r. split_and!.
  - subst r. unfold WiFiDirect.extract_wifi_credentials_via_bluetooth_only.
    rewrite try_except_unfold.
    match goal with
    | |- context [match ?m s with _ => _ end] =>
        destruct (m s) as [[[|]|e] s1]
    end; simpl; auto.
  - subst r. unfold WiFiDirect.extract_wifi_credentials_via_bluetooth_only.
    rewrite try_except_unfold, bind_unfold, try_except_unfold, bind_unfold.
    unfold run_text, finished, checked.
    destruct (exec env (ticks s.2) (WiFiDirect.info_argv device_address))
      as [rc out err millis|rc millis|]; simpl.
    2,3:(split; [done|]; by intros (? & ? & ? & ? & _)).
    destruct (Z.eqb_spec rc 0) as [->|Hrc]; simpl.
    2:{ split; [done|]. intros (? & ? & ? & [= ? _ _ _] & _). done. }
    destruct (WiFiDirect.parse_bluetooth_device_info out) eqn:Hinfo; simpl.
    + split; [|done]. intros _. by exists out, err, millis.
    + split; [done|]. intros (? & ? & ? & [= <- _ _] & ?). congruence.
  - subst r. split.
    + apply (stored_or_same_quiet _ (bluetooth_only_only_acts env device_name
                                       device_address)).
    + assert (stable same_files
                (WiFiDirect.extract_wifi_credentials_via_bluetooth_only env
                   device_name device_address)) as Hfiles
        by (unfold_wifi_direct; stable_auto).
      apply Hfiles.
Qed.
(** ** Setting up *)

Section Outcomes.
Context {Self : Type}.

Lemma outcome_mret {A} (a : A) (values : A → Prop) errors :
  values a → outcome (mret a : M Self A) values errors.
Proof. by intros Ha s. Qed.

Lemma outcome_bind {A B} (m : M Self A) (k : A → M Self B)
    (values1 : A → Prop) (values2 : B → Prop) errors :
  outcome m values1 errors →
  (∀ a, outcome (k a) values2 errors) →
  outcome (m ≫= k) values2 errors.
Proof.
  intros Hm Hk s. rewrite bind_unfold. specialize (Hm s).
  destruct (m s) as [[a|e] s1]; simpl in *; [apply Hk|done].
Qed.

Lemma outcome_try {A} (body handler : M Self A) catches
    (values : A → Prop) (errors1 errors2 : Exn → Prop) :
  outcome body values errors1 →
  outcome handler values errors2 →
  (∀ e, errors1 e → catches e = false → errors2 e) →
  outcome (try_except body catches handler) values errors2.
Proof.
  intros Hbody Hhandler Hpass s. rewrite try_except_unfold.
  specialize (Hbody s).
  destruct (body s) as [[a|e] s1]; simpl in *; [done|].
  destruct (catches e) eqn:Hcatch; [apply Hhandler|by apply Hpass].
Qed.

Lemma outcome_weaken {A} (m : M Self A) (values1 values2 : A → Prop)
    (errors1 errors2 : Exn → Prop) :
  (∀ a, values1 a → values2 a) → (∀ e, errors1 e → errors2 e) →
  outcome m values1 errors1 → outcome m values2 errors2.
Proof.
  intros Hv He Hm s. specialize (Hm s).
  destruct (m s) as [[a|e] s1]; simpl in *; auto.
Qed.

Lemma outcome_run (env : Env) argv check :
  outcome (run env argv check None : M Self CompletedProcess)
    (λ _, True) process_or_os_error.
Proof.
  intros s. unfold run, finished, checked, process_or_os_error.
  destruct (exec env _ argv) as [rc out err millis|rc millis|]; simpl;
    [| |by right]; destruct (check && _); simpl; auto.
Qed.

Lemma outcome_run_unchecked (env : Env) argv :
  outcome (run env argv false None : M Self CompletedProcess)
    (λ _, True) os_error.
Proof.
  intros s. unfold run, finished, checked.
  by destruct (exec env _ argv) as [rc out err millis|rc millis|].
Qed.

Lemma outcome_run_timed (env : Env) argv check limit :
  outcome (run env argv check (Some limit) : M Self CompletedProcess)
    (λ _, True) spawn_error.
Proof.
  intros s. unfold run, finished, checked, spawn_error.
  destruct (exec env _ argv) as [rc out err millis|rc millis|]; simpl;
    [| |auto]; (destruct (_ <? _); simpl; [auto|]);
    destruct (check && _); simpl; auto.
Qed.

Lemma outcome_write_file (env : Env) path content :
  outcome (write_file env path content : M Self unit) (λ _, True) os_error.
Proof. intros s. unfold write_file. by destruct (fwrite env _ path). Qed.

Lemma outcome_sleep secs errors :
  outcome (sleep secs : M Self unit) (λ _, True) errors.
Proof. by intros s. Qed.
End Outcomes.

Lemma wifi_direct_fallback_true (env : Env) :
  outcome (WiFiDirect.setup_wifi_direct_fallback env) is_true (λ _, False).
Proof.
  unfold WiFiDirect.setup_wifi_direct_fallback.
  apply (outcome_try _ _ _ _ (λ _, True)); [|by apply outcome_mret|done].
  apply (outcome_bind _ _ (λ _, True)); [by intros s; destruct (_ s).1|].
  intros _.
  apply (outcome_bind _ _ (λ _, True)); [by intros s; destruct (_ s).1|].
  intros _.
  apply (outcome_bind _ _ (λ _, True)); [by intros s; destruct (_ s).1|].
  intros _.
  apply (outcome_bind _ _ (λ _, True)); [by intros s; destruct (_ s).1|].
  intros _.
  apply (outcome_try _ _ _ _ (λ _, True)); [|by apply outcome_mret|done].
  apply (outcome_bind _ _ (λ _, True)); [by intros s; destruct (_ s).1|].
  intros _. by apply outcome_mret.
Qed.

Lemma wifi_direct_setup_outcome (env : Env) :
  outcome (WiFiDirect.setup_wifi_direct env) is_true os_error.
Proof.
  unfold WiFiDirect.setup_wifi_direct.
  apply (outcome_try _ _ _ _ process_or_os_error).
  2:{ eapply outcome_weaken; [| |apply wifi_direct_fallback_true]; done. }
  2:{ intros e [->| ->]; done. }
  apply (outcome_bind _ _ (λ _, True)).
  { eapply outcome_weaken; [| |apply outcome_run_unchecked]; [done|].
    intros e ->. by right. }
  intros _. apply (outcome_bind _ _ (λ _, True)).
  { eapply outcome_weaken; [| |apply outcome_run_unchecked]; [done|].
    intros e ->. by right. }
  intros _. apply (outcome_bind _ _ (λ _, True)).
  { eapply outcome_weaken; [| |apply outcome_write_file]; [done|].
    intros e ->. by right. }
  intros _. apply (outcome_bind _ _ (λ _, True)); [apply outcome_run|].
  intros _. apply (outcome_bind _ _ (λ _, True)); [apply outcome_run|].
  intros _. apply (outcome_bind _ _ (λ _, True)); [apply outcome_sleep|].
  intros _. apply (outcome_try _ _ _ _ spawn_error).
  - apply (outcome_bind _ _ (λ _, True)); [apply outcome_run_timed|].
    intros _. by apply outcome_mret.
  - eapply outcome_weaken; [| |apply wifi_direct_fallback_true]; done.
  - intros e [->|[->| ->]]; try done. by right.
Qed.

(** X16. In the plain sharer [setup_wifi_direct_fallback] returns [True]
    whatever happens, and [setup_wifi_direct] never returns [False]: it
    returns [True], or it raises the error of a command that could not be
    started or of a file that could not be written. *)
Theorem wifi_direct_setup_never_false (env : Env)
    (s : State WiFiDirect.Sharer) :
  (WiFiDirect.setup_wifi_direct_fallback env s).1 = Ok true ∧
  ((WiFiDirect.setup_wifi_direct env s).1 = Ok true ∨
   (WiFiDirect.setup_wifi_direct env s).1 = Raise OSError).
Proof.
  split.
  - pose proof (wifi_direct_fallback_true env s) as H.
    destruct (_ s).1 as [b|e]; [by rewrite H|done].
  - pose proof (wifi_direct_setup_outcome env s) as H.
    destruct (_ s).1 as [b|e]; [left; by rewrite H|right; by rewrite H].
Qed.
(** *** The package check *)

Lemma commands_app (evs1 evs2 : list Event) :
  commands (evs1 ++ evs2) = commands evs1 ++ commands evs2.
Proof. apply omap_app. Qed.

Lemma dpkg_query {Self} (env : Env) (package : string) (s : State Self) :
  exec env (ticks s.2) (dpkg_argv package) ≠ NotStarted →
  ∃ millis result,
    let s1 := (s.1, advance millis
                      (asked (record (ERun (dpkg_argv package) (clock s.2))
                                s.2))) in
    run env (dpkg_argv package) true None s
    = (if installed (exec env (ticks s.2) (dpkg_argv package))
       then Ok result else Raise CalledProcessError, s1).
Proof.
  intros Hstarted. unfold run, finished, checked.
  destruct (exec env (ticks s.2) (dpkg_argv package))
    as [rc out err millis|rc millis|]; [| |done]; simpl;
    exists millis; destruct (rc =? 0); simpl; by eexists.
Qed.

Lemma collect_missing_spec {Self} (env : Env) (answer : string → Response)
    (packages missing_packages : list string) (s : State Self) :
  (∀ n package, package ∈ packages →
     exec env n (dpkg_argv package) = answer package) →
  Forall (λ package, answer package ≠ NotStarted) packages →
  ∃ s',
    collect_missing env packages missing_packages s
    = (Ok (missing_packages
           ++ filter (λ package, installed (answer package) = false) packages),
       s') ∧
    s'.1 = s.1 ∧ files s'.2 = files s.2 ∧
    ticks s'.2 = (ticks s.2 + length packages)%nat ∧
    ∃ evs, trace s'.2 = trace s.2 ++ evs ∧
           commands evs = dpkg_argv <$> packages.
Proof.
  intros Hanswer Hstarted. revert missing_packages s.
  induction Hstarted as [|package rest Hpackage _ IH];
    intros missing_packages s.
  { exists s. simpl. rewrite app_nil_r, Nat.add_0_r. split_and!; try done.
    exists []. by rewrite app_nil_r. }
  cbn [collect_missing].
  rewrite bind_unfold, try_except_unfold, bind_unfold.
  pose proof (Hanswer (ticks s.2) package (list_elem_of_here _ _)) as Hans.
  destruct (dpkg_query env package s) as (millis & result & Hquery);
    [by rewrite Hans|].
  cbv zeta in Hquery. rewrite Hquery, Hans. clear Hquery.
  set (s1 := (s.1, advance millis
                     (asked (record (ERun (dpkg_argv package) (clock s.2))
                               s.2)))).
  assert (∀ n p, p ∈ rest → exec env n (dpkg_argv p) = answer p) as Hrest
    by (intros n p Hp; apply Hanswer; by apply list_elem_of_further).
  destruct (installed (answer package)) eqn:Hinstalled; simpl.
  - destruct (IH Hrest missing_packages s1)
      as (s' & Hrun & Hself & Hfiles & Hticks & evs & Htrace & Hcmds).
    exists s'. rewrite filter_cons_False by congruence.
    split_and!; try done.
    + rewrite Hticks. simpl. lia.
    + exists (ERun (dpkg_argv package) (clock s.2) :: evs).
      rewrite Htrace. simpl. rewrite <- app_assoc. split; [done|].
      csimpl. by rewrite Hcmds.
  - destruct (IH Hrest (missing_packages ++ [package]) s1)
      as (s' & Hrun & Hself & Hfiles & Hticks & evs & Htrace & Hcmds).
    exists s'. rewrite filter_cons_True by done.
    split_and!; try done.
    + rewrite Hrun. by rewrite <- app_assoc.
    + rewrite Hticks. simpl. lia.
    + exists (ERun (dpkg_argv package) (clock s.2) :: evs).
      rewrite Htrace. simpl. rewrite <- app_assoc. split; [done|].
      csimpl. by rewrite Hcmds.
Qed.

Lemma filter_missing_nil (answer : string → Response) (packages : list string) :
  filter (λ package, installed (answer package) = false) packages = []
  ↔ forallb (λ package, installed (answer package)) packages = true.
Proof.
  induction packages as [|p packages IH]; simpl; [done|].
  destruct (installed (answer p)) eqn:Hp; simpl.
  - rewrite filter_cons_False by congruence. exact IH.
  - rewrite filter_cons_True by done. done.
Qed.

(** X17. With package queries that can be started and answer the same
    whenever asked, the loop of [check_dependencies] asks about every
    required package, in order and also after one was found missing, and
    gathers exactly the packages whose query exits with an error, in
    order; the plain sharer's [check_dependencies] returns [True] exactly
    when there is none. *)
Theorem dependencies_all_queried (env : Env) (answer : string → Response)
    (s : State WiFiDirect.Sharer) :
  (∀ n package, package ∈ WiFiDirect.required_packages →
     exec env n (dpkg_argv package) = answer package) →
  Forall (λ package, answer package ≠ NotStarted)
    WiFiDirect.required_packages →
  let missing :=
    filter (λ package, installed (answer package) = false)
      WiFiDirect.required_packages in
  (collect_missing env WiFiDirect.required_packages [] s).1 = Ok missing ∧
  let r := WiFiDirect.check_dependencies env s in
  r.1 = Ok (bool_decide (missing = [])) ∧
  commands (added s r.2) = dpkg_argv <$> WiFiDirect.required_packages.
Proof.
  intros Hanswer Hstarted missing.
  destruct (collect_missing_spec env answer WiFiDirect.required_packages []
              s Hanswer Hstarted)
    as (s' & Hrun & _ & _ & _ & evs & Htrace & Hcmds).
  change ([] ++ ?l) with l in Hrun.
  fold missing in Hrun. split; [by rewrite Hrun|].
  unfold WiFiDirect.check_dependencies. rewrite bind_unfold, Hrun.
  unfold added. destruct missing as [|package rest]; simpl;
    by rewrite Htrace, drop_app_length.
Qed.

Lemma dependencies_all_queried_witness :
  (collect_missing Cases.env_no_tools WiFiDirect.required_packages []
     Cases.wifi_direct_start).1 = Ok ["bluez-tools"] ∧
  (WiFiDirect.check_dependencies Cases.env_no_tools
     Cases.wifi_direct_start).1 = Ok false ∧
  commands (added Cases.wifi_direct_start
              (WiFiDirect.check_dependencies Cases.env_no_tools
                 Cases.wifi_direct_start).2)
  = dpkg_argv <$> WiFiDirect.required_packages.
Proof.
  apply (dependencies_all_queried Cases.env_no_tools
           (λ package, exec Cases.env_no_tools 0 (dpkg_argv package))
           Cases.wifi_direct_start).
  - reflexivity.
  - repeat constructor; intros H; vm_compute in H; discriminate H.
Defined.

(** X18. With package queries that can be started and answer the same
    whenever asked, the Android sharer's [check_dependencies] returns
    [True] exactly when every required package is installed and
    [wpa_cli help] mentions [p2p] in any case of letters, cannot be
    started at all, or prints output that is no text (the decoding error
    is caught like the error of the start). It asks [wpa_cli] only when no
    package is missing. *)
Theorem android_dependencies (env : Env) (answer : string → Response)
    (s : State Android.Sharer) :
  (∀ n package, package ∈ AndroidSetup.required_packages →
     exec env n (dpkg_argv package) = answer package) →
  Forall (λ package, answer package ≠ NotStarted)
    AndroidSetup.required_packages →
  let complete :=
    forallb (λ package, installed (answer package))
      AndroidSetup.required_packages in
  let help := exec env (ticks s.2 + 5) ["wpa_cli"; "help"] in
  let r := AndroidSetup.check_dependencies env s in
  r.1 = Ok (complete && p2p_supported help) ∧
  commands (added s r.2)
  = (dpkg_argv <$> AndroidSetup.required_packages)
    ++ (if complete then [["wpa_cli"; "help"]] else []).
Proof.
  intros Hanswer Hstarted complete help.
  destruct (collect_missing_spec env answer AndroidSetup.required_packages []
              s Hanswer Hstarted)
    as (s' & Hrun & _ & _ & Hticks & evs & Htrace & Hcmds).
  change ([] ++ ?l) with l in Hrun.
  unfold AndroidSetup.check_dependencies. rewrite bind_unfold, Hrun.
  unfold added.
  destruct (filter _ _) as [|package rest] eqn:Hmissing; cbn iota.
  - apply filter_missing_nil in Hmissing. fold complete in Hmissing.
    rewrite Hmissing, bind_unfold, try_except_unfold, bind_unfold.
    unfold run_text, finished, checked. rewrite Hticks. simpl length.
    fold help.
    destruct help as [rc out err millis|rc millis|]; simpl.
    + destruct (PyStr.contains "p2p" (PyStr.lower out)); simpl;
        rewrite Htrace, <- app_assoc, drop_app_length, commands_app, Hcmds;
        done.
    + by rewrite Htrace, <- app_assoc, drop_app_length, commands_app, Hcmds.
    + by rewrite Htrace, <- app_assoc, drop_app_length, commands_app, Hcmds.
  - assert (complete = false) as ->.
    { destruct complete eqn:Hc; [|done].
      apply filter_missing_nil in Hc. congruence. }
    split; [done|]. unfold mret, M_ret. cbn [fst snd].
    by rewrite Htrace, drop_app_length, Hcmds, app_nil_r.
Qed.

Lemma android_dependencies_witness :
  (AndroidSetup.check_dependencies Scenario.env_quiet
     Scenario.android_start).1 = Ok false ∧
  commands (added Scenario.android_start
              (AndroidSetup.check_dependencies Scenario.env_quiet
                 Scenario.android_start).2)
  = (dpkg_argv <$> AndroidSetup.required_packages) ++ [["wpa_cli"; "help"]].
Proof.
  apply (android_dependencies Scenario.env_quiet
           (λ package, exec Scenario.env_quiet 0 (dpkg_argv package))
           Scenario.android_start).
  - reflexivity.
  - repeat constructor; intros H; vm_compute in H; discriminate H.
Defined.

(** *** The interface check *)

(** X19. When the query [ip link show wlan0] cannot be started, exits
    with an error, prints no [UP] or prints what is no text, the Android
    sharer's [setup_wifi_direct] returns [False] having run that one
    command: no process is killed, no service stopped, no configuration
    written, and the fallback set-up is not tried. *)
Theorem link_down_stops_setup (env : Env) (s : State Android.Sharer) :
  link_not_up env s.2 →
  ∃ s',
    AndroidSetup.setup_wifi_direct env s = (Ok false, s') ∧
    trace s'.2 = trace s.2 ++ [ERun link_argv (clock s.2)] ∧
    s'.1 = s.1 ∧ files s'.2 = files s.2.
Proof.
  unfold link_not_up, link_argv. intros Hdown.
  unfold AndroidSetup.setup_wifi_direct.
  rewrite try_except_unfold, bind_unfold.
  unfold AndroidSetup.check_wifi_interface_status.
  rewrite try_except_unfold, bind_unfold.
  unfold run_text at 1, finished, checked.
  destruct (exec env (ticks s.2) ["ip"; "link"; "show"; "wlan0"])
    as [rc out err millis|rc millis|];
    [|simpl; eexists; split; [reflexivity|]; by simpl..].
  simpl. destruct Hdown as [Hrc|Hup].
  - apply Z.eqb_neq in Hrc. rewrite Hrc. simpl.
    eexists; split; [reflexivity|]; by simpl.
  - rewrite Hup. destruct (rc =? 0); simpl;
      (eexists; split; [reflexivity|]; by simpl).
Qed.

Lemma link_down_stops_setup_witness :
  ∃ s',
    AndroidSetup.setup_wifi_direct Cases.env_link_down Scenario.android_start
    = (Ok false, s') ∧
    trace s'.2 = [ERun link_argv 0] ∧
    s'.1 = Scenario.android_start.1 ∧ files s'.2 = ∅.
Proof.
  apply (link_down_stops_setup Cases.env_link_down Scenario.android_start).
  right. reflexivity.
Defined.

(** ** The monitoring loop of the GATT sharer *)

Lemma check_credentials_rejects (env : Env) service
    (s : State AutoBluetooth.Sharer) :
  AutoBluetooth.wifi_service s.1 = Some service →
  ¬ plausible (AutoBluetooth.wifi_ssid service)
      (AutoBluetooth.wifi_password service) →
  AutoBluetooth.check_credentials env s = (Ok tt, s).
Proof.
  intros Hservice Hnot. unfold AutoBluetooth.check_credentials.
  rewrite try_except_unfold, get_self_bind, Hservice.
  destruct service as [ssid password info]; simpl in *.
  unfold plausible in Hnot.
  destruct (PyStr.truthy ssid) eqn:Hs1; simpl; [|done].
  destruct (String.eqb_spec ssid "Unknown") as [->|Hs2]; simpl; [done|].
  destruct (PyStr.truthy password) eqn:Hp1; simpl; [|done].
  destruct (String.eqb_spec password "Unknown") as [->|Hp2]; simpl; [done|].
  destruct Hnot. split_and!; try done.
  - by destruct ssid.
  - by destruct password.
Qed.

Lemma check_credentials_never_raises (env : Env) :
  never_raises (AutoBluetooth.check_credentials env).
Proof. apply never_raises_try, never_raises_mret. Qed.

Lemma monitor_loop_stuck (env : Env) service (fuel : nat)
    (s : State AutoBluetooth.Sharer) :
  AutoBluetooth.wifi_service s.1 = Some service →
  ¬ plausible (AutoBluetooth.wifi_ssid service)
      (AutoBluetooth.wifi_password service) →
  AutoBluetooth.credentials_received s.1 = false →
  AutoBluetooth.connected_devices s.1 ≠ ∅ →
  ∃ s',
    AutoBluetoothMonitor.monitor_loop env fuel s = (Ok None, s') ∧
    s'.1 = s.1 ∧
    ∃ evs, trace s'.2 = trace s.2 ++ evs ∧
           total_sleep evs = 2 * Z.of_nat fuel ∧ commands evs = [].
Proof.
  intros Hservice Hnot Hflag Hdevices. revert s Hservice Hflag Hdevices.
  induction fuel as [|fuel IH]; intros s Hservice Hflag Hdevices.
  - exists s. cbn [AutoBluetoothMonitor.monitor_loop].
    rewrite get_self_bind, Hflag, bool_decide_eq_true_2 by done.
    split_and!; try done. exists []. by rewrite app_nil_r.
  - cbn [AutoBluetoothMonitor.monitor_loop].
    rewrite get_self_bind, Hflag, bool_decide_eq_true_2 by done.
    cbn [negb andb]. rewrite bind_unfold.
    rewrite (check_credentials_rejects env service s Hservice Hnot).
    rewrite bind_unfold. cbn [sleep].
    set (s1 := (s.1, advance (seconds 2) (record (ESleep 2 (clock s.2)) s.2))).
    destruct (IH s1 Hservice Hflag Hdevices)
      as (s' & Hrun & Hself & evs & Htrace & Hsleep & Hcmds).
    exists s'. split_and!; try done.
    exists (ESleep 2 (clock s.2) :: evs). rewrite Htrace. simpl.
    rewrite <- app_assoc. split_and!; try done. lia.
Qed.

(** X20. Take a GATT sharer with a device connected, the flag unset and a
    service whose two fields do not pass the test of [check_credentials].
    Then the loop of [monitor_credentials] does not end: whatever number
    of turns it is given it asks for more, having slept two seconds in
    each, run no command and left the object as it was. *)
Theorem monitor_never_ends (env : Env) (service : AutoBluetooth.WiFiCredentialService)
    (fuel : nat) (s : State AutoBluetooth.Sharer) :
  AutoBluetooth.wifi_service s.1 = Some service →
  ¬ plausible (AutoBluetooth.wifi_ssid service)
      (AutoBluetooth.wifi_password service) →
  AutoBluetooth.credentials_received s.1 = false →
  AutoBluetooth.connected_devices s.1 ≠ ∅ →
  let r := AutoBluetoothMonitor.monitor_credentials env fuel s in
  r.1 = Ok None ∧ r.2.1 = s.1 ∧
  total_sleep (added s r.2) = 2 * Z.of_nat fuel ∧
  commands (added s r.2) = [].
Proof.
  intros Hservice Hnot Hflag Hdevices r.
  destruct (monitor_loop_stuck env service fuel s Hservice Hnot Hflag Hdevices)
    as (s' & Hrun & Hself & evs & Htrace & Hsleep & Hcmds).
  subst r. unfold AutoBluetoothMonitor.monitor_credentials.
  rewrite try_except_unfold, Hrun. cbn [fst snd]. unfold added.
  by rewrite Htrace, drop_app_length.
Qed.

Lemma monitor_never_ends_witness :
  let r := AutoBluetoothMonitor.monitor_credentials Scenario.env_quiet 3
             (Cases.gatt_connected "Unknown" "Unknown") in
  r.1 = Ok None ∧ r.2.1 = (Cases.gatt_connected "Unknown" "Unknown").1 ∧
  total_sleep (added (Cases.gatt_connected "Unknown" "Unknown") r.2) = 6 ∧
  commands (added (Cases.gatt_connected "Unknown" "Unknown") r.2) = [].
Proof.
  apply (monitor_never_ends Scenario.env_quiet
           (AutoBluetooth.mkService "Unknown" "Unknown" ∅) 3
           (Cases.gatt_connected "Unknown" "Unknown")).
  - reflexivity.
  - by intros (_ & ? & _).
  - reflexivity.
  - simpl. apply non_empty_singleton_L.
Defined.

(** X21. Take a GATT sharer with a device connected, the flag unset and a
    service whose two fields pass the test of [check_credentials]. Then
    the loop of [monitor_credentials] ends after one turn with the flag
    set, whether or not the network could be joined. *)
Theorem monitor_ends_after_one_turn (env : Env)
    (service : AutoBluetooth.WiFiCredentialService)
    (s : State AutoBluetooth.Sharer) :
  AutoBluetooth.wifi_service s.1 = Some service →
  plausible (AutoBluetooth.wifi_ssid service)
    (AutoBluetooth.wifi_password service) →
  AutoBluetooth.credentials_received s.1 = false →
  AutoBluetooth.connected_devices s.1 ≠ ∅ →
  let r := AutoBluetoothMonitor.monitor_credentials env 1 s in
  r.1 = Ok (Some tt) ∧ AutoBluetooth.credentials_received r.2.1 = true.
Proof.
  intros Hservice Hplausible Hflag Hdevices r. subst r.
  unfold AutoBluetoothMonitor.monitor_credentials.
  rewrite try_except_unfold. cbn [AutoBluetoothMonitor.monitor_loop].
  rewrite get_self_bind, Hflag, bool_decide_eq_true_2 by done.
  cbn [negb andb]. rewrite bind_unfold.
  pose proof (proj2 (check_credentials_accepts_iff env service s Hservice
                       Hflag) Hplausible) as Hset.
  destruct (never_raises_run _ s (check_credentials_never_raises env))
    as [[] Hrun].
  rewrite Hrun. rewrite bind_unfold. cbn [sleep]. rewrite get_self_bind.
  cbn [fst snd]. by rewrite Hset.
Qed.

Lemma monitor_ends_after_one_turn_witness :
  let r := AutoBluetoothMonitor.monitor_credentials Scenario.env_quiet 1
             (Cases.gatt_connected "HomeNet" "s3cr3t") in
  r.1 = Ok (Some tt) ∧ AutoBluetooth.credentials_received r.2.1 = true.
Proof.
  apply (monitor_ends_after_one_turn Scenario.env_quiet
           (AutoBluetooth.mkService "HomeNet" "s3cr3t" ∅)
           (Cases.gatt_connected "HomeNet" "s3cr3t")).
  - reflexivity.
  - by split_and!.
  - reflexivity.
  - simpl. apply non_empty_singleton_L.
Defined.
(** ** Joining over GATT *)

(** X22. When [connect_to_wifi] of the GATT sharer returns [True], the
    credential file holds the pair it was called with, and the object is
    as before. *)
Theorem connect_to_wifi_true_means_stored (env : Env) (ssid password : string)
    (s : State AutoBluetooth.Sharer) :
  let r := AutoBluetooth.connect_to_wifi env ssid password s in
  r.1 = Ok true →
  files r.2.2 !! config_file = Some (JsonCredentials ssid password) ∧
  r.2.1 = s.1.
Proof.
  intros r Hr. split; [|apply (connect_to_wifi_same_self env ssid password s)].
  revert Hr. subst r. unfold AutoBluetooth.connect_to_wifi.
  rewrite try_except_unfold.
  match goal with |- context [let (_, _) := ?m s in _] =>
    assert (ensures (λ r _ s', r = Ok true →
                       files s'.2 !! config_file
                       = Some (JsonCredentials ssid password)) m) as Hbody
  end.
  { do 4 (apply ensures_bind_final; [done|intros ?]).
    intros s0. rewrite bind_unfold.
    destruct (run_text env ["iwconfig"; "wlan0"] false None s0)
      as [[result|e] s1]; [|done].
    destruct (_ && _); [|done].
    rewrite bind_unfold. unfold write_file.
    destruct (fwrite env _ _); simpl; try done.
    intros _. apply lookup_insert_eq. }
  specialize (Hbody s). simpl in Hbody.
  match type of Hbody with
  | (?m s).1 = _ → _ => destruct (m s) as [[b|e] s1]
  end; simpl in *; [done|].
  by destruct e.
Qed.

Lemma connect_to_wifi_true_means_stored_witness :
  let r := AutoBluetooth.connect_to_wifi Scenario.env_home "HomeNet" "s3cr3t"
             (Scenario.gatt_start "HomeNet" "s3cr3t") in
  r.1 = Ok true ∧
  files r.2.2 !! config_file = Some (JsonCredentials "HomeNet" "s3cr3t") ∧
  r.2.1 = (Scenario.gatt_start "HomeNet" "s3cr3t").1.
Proof.
  intros r.
  assert (r.1 = Ok true) as Hr by (vm_compute; reflexivity).
  split; [exact Hr|].
  exact (connect_to_wifi_true_means_stored Scenario.env_home "HomeNet" "s3cr3t"
           (Scenario.gatt_start "HomeNet" "s3cr3t") Hr).
Defined.
(** *** What escapes the Android set-up *)

Lemma outcome_run_text_timed_unchecked {Self} (env : Env) argv limit :
  outcome (run_text env argv false (Some limit) : M Self CompletedProcess)
    (λ _, True) (λ e, e = TimeoutExpired ∨ e = OSError ∨ e = ValueError).
Proof.
  intros s. unfold run_text, finished, checked.
  destruct (exec env _ argv) as [rc out err millis|rc millis|]; simpl;
    [| |auto]; destruct (_ <? _); simpl; auto.
Qed.

Lemma outcome_caught {Self A} (body handler : M Self A) (values : A → Prop) :
  (∀ s, match (body s).1 with Ok a => values a | Raise _ => True end) →
  outcome handler values (λ _, False) →
  outcome (try_except body any_exception handler) values (λ _, False).
Proof.
  intros Hbody Hhandler s. rewrite try_except_unfold. specialize (Hbody s).
  destruct (body s) as [[a|e] s1]; simpl in *; [done|apply Hhandler].
Qed.

Lemma android_fallback_outcome (env : Env) :
  outcome (AndroidSetup.setup_wifi_direct_fallback env) (λ _, True)
    (λ _, False).
Proof.
  unfold AndroidSetup.setup_wifi_direct_fallback.
  apply outcome_caught; [|by apply outcome_mret].
  intros s. by destruct (_ s).1.
Qed.

Lemma interface_status_outcome (env : Env) :
  outcome (AndroidSetup.check_wifi_interface_status env) (λ _, True)
    (λ _, False).
Proof.
  unfold AndroidSetup.check_wifi_interface_status.
  apply outcome_caught; [|by apply outcome_mret].
  intros s. by destruct (_ s).1.
Qed.

Ltac outcome_next lemma :=
  apply (outcome_bind _ _ (λ _, True));
  [eapply outcome_weaken; [| |apply lemma]; [done|];
   unfold process_or_os_error, os_error; intros ? ?; subst; tauto
  |intros _].

Lemma android_setup_outcome (env : Env) :
  outcome (AndroidSetup.setup_wifi_direct env) (λ _, True) os_or_decode_error.
Proof.
  unfold AndroidSetup.setup_wifi_direct, os_or_decode_error.
  apply (outcome_try _ _ _ _
           (λ e, e = CalledProcessError ∨ e = OSError ∨ e = ValueError)).
  2:{ eapply outcome_weaken; [| |apply android_fallback_outcome]; done. }
  2:{ intros e [->|[->| ->]]; try done; auto. }
  apply (outcome_bind _ _ (λ _, True)).
  { eapply outcome_weaken; [| |apply interface_status_outcome]; done. }
  intros available. destruct (negb available); [by apply outcome_mret|].
  outcome_next (@outcome_run_unchecked Android.Sharer env).
  outcome_next (@outcome_run_unchecked Android.Sharer env).
  apply (outcome_bind _ _ (λ _, True)); [apply outcome_sleep|intros _].
  outcome_next (@outcome_run_unchecked Android.Sharer env).
  outcome_next (@outcome_run_unchecked Android.Sharer env).
  outcome_next (@outcome_run_unchecked Android.Sharer env).
  apply (outcome_bind _ _ (λ _, True)); [apply outcome_sleep|intros _].
  outcome_next (@outcome_run_unchecked Android.Sharer env).
  apply (outcome_bind _ _ (λ _, True)); [apply outcome_sleep|intros _].
  outcome_next (@outcome_write_file Android.Sharer env).
  outcome_next (@outcome_run Android.Sharer env).
  outcome_next (@outcome_run Android.Sharer env).
  apply (outcome_bind _ _ (λ _, True)); [apply outcome_sleep|intros _].
  apply (outcome_try _ _ _ _
           (λ e, e = TimeoutExpired ∨ e = OSError ∨ e = ValueError)).
  - apply (outcome_bind _ _ (λ _, True));
      [apply outcome_run_text_timed_unchecked|intros result].
    destruct (_ =? _).
    2:{ eapply outcome_weaken; [| |apply android_fallback_outcome]; done. }
    apply (outcome_bind _ _ (λ _, True)); [apply outcome_sleep|intros _].
    apply (outcome_bind _ _ (λ _, True));
      [apply outcome_run_text_timed_unchecked|intros p2p_check].
    destruct (_ =? _); [by apply outcome_mret|].
    eapply outcome_weaken; [| |apply android_fallback_outcome]; done.
  - eapply outcome_weaken; [| |apply android_fallback_outcome]; done.
  - intros e [->|[->| ->]]; try done; auto.
Qed.

(** A world in which the set-up meets output that is no text: the
    interface is up and idle, every command works, and the discovery
    started for the test prints bytes that do not decode. *)
Lemma android_setup_decode_error :
  let env := Scenario.env_of
               [(link_argv, Scenario.exits "wlan0: <BROADCAST,UP>");
                (Android.find_argv, Garbled 0 0)] in
  (AndroidSetup.setup_wifi_direct env Scenario.android_start).1
  = Raise ValueError.
Proof. by vm_compute. Qed.

(** X23. The Android sharer's [setup_wifi_direct] returns a boolean, or
    raises the error of a command that could not be started or of a file
    that could not be written, or raises the decoding error of a test
    command ([p2p_find], [p2p_peers]) whose output is no text; a command
    that exits with an error or runs out of time never makes it raise.
    Its fallback and the interface check always return a boolean. *)
Theorem android_setup_escapes (env : Env) (s : State Android.Sharer) :
  ((∃ b, (AndroidSetup.setup_wifi_direct env s).1 = Ok b) ∨
   (AndroidSetup.setup_wifi_direct env s).1 = Raise OSError ∨
   (AndroidSetup.setup_wifi_direct env s).1 = Raise ValueError) ∧
  (∃ b, (AndroidSetup.setup_wifi_direct_fallback env s).1 = Ok b) ∧
  (∃ b, (AndroidSetup.check_wifi_interface_status env s).1 = Ok b).
Proof.
  split_and!.
  - pose proof (android_setup_outcome env s) as H.
    destruct (_ s).1 as [b|e]; [left; by exists b|right].
    destruct H as [->| ->]; auto.
  - pose proof (android_fallback_outcome env s) as H.
    destruct (_ s).1 as [b|e]; [by exists b|done].
  - pose proof (interface_status_outcome env s) as H.
    destruct (_ s).1 as [b|e]; [by exists b|done].
Qed.
